(** * powerquery-parser: parser state, node-id map and position inspection

    A shallow embedding of
      - src/parser/IParserState/IParserStateUtils.ts
      - src/parser/nodeIdMap/nodeIdMapIterator.ts
      - src/inspection/position/positionUtils.ts
      - src/inspection/type/tasks.ts
      - src/inspection/type/inspectType/inspectTypeParameter.ts
      - src/inspection/visitNode.ts
    JavaScript numbers that hold ids, indices and offsets are integers [Z];
    where the sources add to a position or to an attribute counter, the sum
    is rounded as a double rounds it ([JsNumber]); an array access outside the array yields [None] (undefined); a thrown
    exception is the [Err] branch of [Result]; a [Map] keyed by node id is a
    [gmap Z _], the insertion-ordered scope map is an association list. *)

From Stdlib Require Import ZArith NArith List String Ascii Bool Lia.
From Stdlib Require Import DecimalString DecimalPos DecimalZ.
From stdpp Require Import base option list gmap strings sorting.

Local Open Scope string_scope.
Local Open Scope Z_scope.

(** ** Tokens and positions *)

Module Language.

(** Modelled from the spec: the declaration of [Language.TokenKind] is not
    among the sources.  The spec calls it a closed enumeration (identifier,
    numeric, string, each keyword, each punctuation symbol); the members the
    sources name are constructors of their own, every other member is an
    [OtherTokenKind] tagged with its name. *)
Inductive TokenKind : Set :=
| Identifier
| KeywordAnd | KeywordAs | KeywordEach | KeywordElse | KeywordError
| KeywordFalse
| KeywordHashBinary | KeywordHashDate | KeywordHashDateTime
| KeywordHashDateTimeZone | KeywordHashDuration | KeywordHashInfinity
| KeywordHashNan | KeywordHashSections | KeywordHashShared
| KeywordHashTable | KeywordHashTime
| KeywordIf | KeywordIn | KeywordIs | KeywordLet | KeywordMeta | KeywordNot
| KeywordOr | KeywordOtherwise | KeywordSection | KeywordShared
| KeywordThen | KeywordTrue | KeywordTry | KeywordType
| LeftBrace | LeftBracket | LeftParenthesis
| OtherTokenKind (name : string).

#[global] Instance TokenKind_eq_dec : EqDecision TokenKind.
Proof. solve_decision. Defined.

(** [TokenPosition] as the sources read it: a line and a UTF-16 code unit
    within the line.  The cursor [Position] has the same two fields. *)
Record TokenPosition : Set := mkPosition {
  lineNumber : Z;
  lineCodeUnit : Z
}.

Definition Position : Set := TokenPosition.

Record Token : Set := mkToken {
  tok_kind : TokenKind;
  tok_data : string;
  tok_positionStart : TokenPosition;
  tok_positionEnd : TokenPosition
}.

Record TokenRange : Set := mkTokenRange {
  tokenIndexStart : Z;
  tokenIndexEnd : Z;
  positionStart : TokenPosition;
  positionEnd : TokenPosition
}.

(** What [graphemePositionStartFrom] returns: the token's start counted in
    grapheme clusters. *)
Record GraphemePosition : Set := mkGraphemePosition {
  gp_lineNumber : Z;
  gp_lineCodeUnit : Z;
  gp_columnNumber : Z
}.

End Language.

Export Language.

(** [array[i]] of JavaScript: [undefined] outside the array. *)
Definition arrayGet {A : Type} (xs : list A) (i : Z) : option A :=
  if i <? 0 then None else xs !! Z.to_nat i.

Definition arrayLength {A : Type} (xs : list A) : Z := Z.of_nat (length xs).

(** ** Numbers

    The numbers of the program are integers, and JavaScript holds them in
    doubles.  A double holds every integer up to 2^53 in magnitude; beyond,
    it holds the integers of 53 significant bits, and a sum or a difference
    is rounded to the nearest of them, a tie going to the one whose last
    bit is even.  Comparisons are exact. *)

Module JsNumber.

(** [Number.isSafeInteger]: the integers strictly between -2^53 and
    2^53. *)
Definition isSafeInteger (n : Z) : Prop := - 2 ^ 53 < n < 2 ^ 53.

(** The double nearest to an integer.  (The integers of a magnitude of
    2^1024 and more, which overflow a double, are not reached by adding 1
    to a number or taking 1 from it.) *)
Definition toDouble (n : Z) : Z :=
  let magnitude := Z.abs n in
  if magnitude <? 2 ^ 53 then n
  else
    let unit := 2 ^ (Z.log2 magnitude - 52) in
    let quotient := magnitude / unit in
    let remainder := magnitude mod unit in
    let roundsUp :=
      (2 * remainder >? unit)
      || ((2 * remainder =? unit) && Z.odd quotient) in
    Z.sgn n * ((if roundsUp then quotient + 1 else quotient) * unit).

(** [a + b] and [a - b] on numbers that are integers. *)
Definition add (a b : Z) : Z := toDouble (a + b).

Definition sub (a b : Z) : Z := toDouble (a - b).

End JsNumber.

Module Ast.

(** Modelled from the spec: the declaration of [Ast.NodeKind] (about eighty
    kinds) is not among the sources; the kinds the sources name are
    constructors, the others are [OtherNodeKind]. *)
Inductive NodeKind : Set :=
| ArrayWrapper | Constant | Csv | EachExpression | FieldProjection
| FieldSpecificationList | FunctionExpression | GeneralizedIdentifier
| IdentifierNode | IdentifierExpression | IdentifierPairedExpression
| InvokeExpression | LetExpression | ListExpression | ListLiteral
| ListType | ParameterNode | ParameterList | RecordExpression | RecordLiteral
| RecursivePrimaryExpression | SectionNode
| OtherNodeKind (name : string).

#[global] Instance NodeKind_eq_dec : EqDecision NodeKind.
Proof. solve_decision. Defined.

(** An AST node: the fields every node carries, and the fields the
    inspected kinds add ([literal] of identifiers and constants, the parts
    of an identifier expression, the closing constant of a wrapped node). *)
Inductive TNode : Set :=
| MkNode (id : Z) (kind : NodeKind) (maybeAttributeIndex : option Z)
         (tokenRange : TokenRange) (isLeaf : bool) (fields : Fields)
with Fields : Set :=
| LiteralFields (literal : string)
| IdentifierExpressionFields (maybeInclusiveConstant : option TNode)
                             (identifier : TNode)
| WrappedFields (closeWrapperConstant : TNode)
| NoFields.

Definition id (n : TNode) : Z := let 'MkNode i _ _ _ _ _ := n in i.
Definition kind (n : TNode) : NodeKind := let 'MkNode _ k _ _ _ _ := n in k.
Definition maybeAttributeIndex (n : TNode) : option Z :=
  let 'MkNode _ _ a _ _ _ := n in a.
Definition tokenRange (n : TNode) : TokenRange :=
  let 'MkNode _ _ _ r _ _ := n in r.
Definition isLeaf (n : TNode) : bool := let 'MkNode _ _ _ _ l _ := n in l.
Definition fields (n : TNode) : Fields := let 'MkNode _ _ _ _ _ f := n in f.

(** [node.literal]; absent on a node that has no such field. *)
Definition literal (n : TNode) : option string :=
  match fields n with LiteralFields s => Some s | _ => None end.

Definition closeWrapperConstant (n : TNode) : option TNode :=
  match fields n with WrappedFields c => Some c | _ => None end.

End Ast.

Module ParseContext.

(** A context node, the in-construction counterpart of an AST node. *)
Record Node : Set := mkNode {
  id : Z;
  kind : Ast.NodeKind;
  maybeAttributeIndex : option Z;
  maybeTokenStart : option Token;
  tokenIndexStart : Z;
  attributeCounter : Z;
  maybeParentId : option Z
}.

End ParseContext.

Module NodeIdMap.

Inductive TXorNode : Set :=
| XorAst (node : Ast.TNode)
| XorContext (node : ParseContext.Node).

Definition xorId (x : TXorNode) : Z :=
  match x with XorAst n => Ast.id n | XorContext n => ParseContext.id n end.

Definition xorKind (x : TXorNode) : Ast.NodeKind :=
  match x with XorAst n => Ast.kind n | XorContext n => ParseContext.kind n end.

Definition xorAttributeIndex (x : TXorNode) : option Z :=
  match x with
  | XorAst n => Ast.maybeAttributeIndex n
  | XorContext n => ParseContext.maybeAttributeIndex n
  end.

Record Collection : Type := mkCollection {
  astNodeById : gmap Z Ast.TNode;
  contextNodeById : gmap Z ParseContext.Node;
  parentIdById : gmap Z Z;
  childIdsById : gmap Z (list Z)
}.

End NodeIdMap.

Export NodeIdMap.

(** ** Exceptions *)

Module ParseError.

(** The parse error [assertNoMoreTokens] raises, with the arguments its
    constructor is given. *)
Inductive t : Set :=
| UnusedTokensRemainError (templates : string) (token : Token)
                          (positionStart : GraphemePosition).

End ParseError.

Inductive Exception : Set :=
| InvariantError (message : string)
| AssertionError (message : string)
| TypeError (message : string)
| ParseException (e : ParseError.t).

(** A call that returns [a] is [Ok a]; a call that throws [e] is [Err e]. *)
Inductive Result (A : Type) : Type :=
| Ok (a : A)
| Err (e : Exception).

Arguments Ok {A} a.
Arguments Err {A} e.

#[global] Instance Result_ret : MRet Result := fun _ a => Ok a.
#[global] Instance Result_bind : MBind Result := fun _ _ f m =>
  match m with Ok a => f a | Err e => Err e end.

(** [Assert.isDefined(maybeValue, message)]. *)
Definition assertIsDefined {A : Type} (maybeValue : option A) (message : string)
  : Result A :=
  match maybeValue with
  | Some a => Ok a
  | None => Err (AssertionError message)
  end.

(** ** Array.prototype.sort without a comparator *)

Module JsArray.

(** [String(n)] for an integer. *)
Definition numberToString (n : Z) : string :=
  NilZero.string_of_int (Z.to_int n).

(** The order of [sort()] when no comparator is given: the elements are
    converted to strings and compared by code units. *)
Definition defaultLe (a b : Z) : Prop :=
  String.leb (numberToString a) (numberToString b) = true.

#[global] Instance defaultLe_dec : RelDecision defaultLe.
Proof. intros a b. unfold defaultLe. apply _. Defined.

Definition sort (xs : list Z) : list Z := merge_sort defaultLe xs.

End JsArray.

(** ** Node-id map queries *)

Module NodeIdMapUtils.

(** Modelled from the spec: [NodeIdMapUtils.maybeXor] is not among the
    sources.  The XOR view of an id: the AST node stored under it, else the
    context node stored under it. *)
Definition maybeXor (c : Collection) (nodeId : Z) : option TXorNode :=
  match astNodeById c !! nodeId with
  | Some astNode => Some (XorAst astNode)
  | None => XorContext <$> contextNodeById c !! nodeId
  end.

(** Modelled from the spec: [NodeIdMapUtils.assertXor], the asserting form
    of [maybeXor]. *)
Definition assertXor (c : Collection) (nodeId : Z) : Result TXorNode :=
  assertIsDefined (maybeXor c nodeId) "nodeId wasn't an astNode nor contextNode".

(** Modelled from the spec: [NodeIdMapUtils.assertContext], the context
    node stored under an id, asserted to exist. *)
Definition assertContext (contextNodeById : gmap Z ParseContext.Node)
    (nodeId : Z) : Result ParseContext.Node :=
  assertIsDefined (contextNodeById !! nodeId) "nodeId wasn't a contextNode".

(** Modelled from the spec: [NodeIdMapUtils.assertParentXor], the XOR view
    of the parent recorded in [parentIdById], asserted to exist. *)
Definition assertParentXor (c : Collection) (nodeId : Z) : Result TXorNode :=
  parentId ← assertIsDefined (parentIdById c !! nodeId) "nodeId has no parent";
  assertXor c parentId.

Definition isAllowedKind (maybeAllowedNodeKinds : option (list Ast.NodeKind))
    (k : Ast.NodeKind) : bool :=
  match maybeAllowedNodeKinds with
  | None => true
  | Some allowed => bool_decide (k ∈ allowed)
  end.

(** Modelled from the spec: [maybeChildXorByAttributeIndex(parentId,
    attrIdx, allowedKinds?)] returns the child whose [maybeAttributeIndex]
    is [attrIdx] if its kind is in [allowedKinds] (or if [allowedKinds] is
    absent). *)
Definition maybeChildXorByAttributeIndex (c : Collection) (parentId : Z)
    (attributeIndex : Z) (maybeAllowedNodeKinds : option (list Ast.NodeKind))
  : option TXorNode :=
  childIds ← childIdsById c !! parentId;
  child ← head (filter
                 (fun x => xorAttributeIndex x = Some attributeIndex)
                 (omap (maybeXor c) childIds));
  if isAllowedKind maybeAllowedNodeKinds (xorKind child)
  then Some child else None.

(** Modelled from the spec: [maybeChildAstByAttributeIndex], the same but
    the child has to be an AST node already. *)
Definition maybeChildAstByAttributeIndex (c : Collection) (parentId : Z)
    (attributeIndex : Z) (maybeAllowedNodeKinds : option (list Ast.NodeKind))
  : option Ast.TNode :=
  match maybeChildXorByAttributeIndex c parentId attributeIndex
          maybeAllowedNodeKinds with
  | Some (XorAst astNode) => Some astNode
  | _ => None
  end.

End NodeIdMapUtils.

(** ** Parse context state *)

Module ParseContextUtils.

(** [ParseContext.State]: the owner of the node-id map and of the counter
    new ids are minted from. *)
Record State : Type := mkState {
  nodeIdMapCollection : Collection;
  idCounter : Z
}.

(** Removes [nodeId] from the child list recorded for its parent. *)
Definition unlinkFromParent (c : Collection) (nodeId : Z) : Collection :=
  match parentIdById c !! nodeId with
  | Some parentId =>
      mkCollection (astNodeById c) (contextNodeById c) (parentIdById c)
        (alter (filter (fun childId => childId ≠ nodeId)) parentId
               (childIdsById c))
  | None => c
  end.

(** Modelled from the spec: [ParseContextUtils.deleteAst] is not among the
    sources.  The AST node is deleted, and it is unlinked from its parent's
    [childIdsById] unless the caller says the parent is itself being
    deleted. *)
Definition deleteAst (state : State) (nodeId : Z) (parentWillBeDeleted : bool)
  : State :=
  let c := nodeIdMapCollection state in
  let c1 := if parentWillBeDeleted then c else unlinkFromParent c nodeId in
  mkState
    (mkCollection (delete nodeId (astNodeById c1)) (contextNodeById c1)
       (parentIdById c1) (childIdsById c1))
    (idCounter state).

(** Modelled from the spec: [ParseContextUtils.deleteContext] is not among
    the sources.  Deleting a context node also unlinks it from its parent;
    the value returned is the parent context, which the callers make the
    current context. *)
Definition deleteContext (state : State) (nodeId : Z)
  : State * option ParseContext.Node :=
  let c := nodeIdMapCollection state in
  let c1 := unlinkFromParent c nodeId in
  (mkState
     (mkCollection (astNodeById c1) (delete nodeId (contextNodeById c1))
        (parentIdById c1) (childIdsById c1))
     (idCounter state),
   parentId ← parentIdById c !! nodeId; contextNodeById c !! parentId).

(** Modelled from the spec: [ParseContextUtils.startContext] is not among
    the sources.  It "allocates a context node whose maybeAttributeIndex
    equals the caller's current attributeCounter, links it as child of
    maybeCurrentContextNode, and makes it current"; the id is the next one
    the counter mints.  The value returned is the new node. *)
Definition startContext (state : State) (nodeKind : Ast.NodeKind)
    (tokenIndexStart : Z) (maybeTokenStart : option Token)
    (maybeParentNode : option ParseContext.Node)
  : State * ParseContext.Node :=
  let c := nodeIdMapCollection state in
  let nodeId := idCounter state + 1 in
  let contextNode :=
    ParseContext.mkNode nodeId nodeKind
      (ParseContext.attributeCounter <$> maybeParentNode) maybeTokenStart
      tokenIndexStart 0 (ParseContext.id <$> maybeParentNode) in
  let contextNodeById' := <[nodeId := contextNode]> (contextNodeById c) in
  let c' :=
    match maybeParentNode with
    | Some parentNode =>
        let parentId := ParseContext.id parentNode in
        mkCollection (astNodeById c) contextNodeById'
          (<[nodeId := parentId]> (parentIdById c))
          (<[parentId := (default [] (childIdsById c !! parentId)
                          ++ [nodeId])%list]> (childIdsById c))
    | None =>
        mkCollection (astNodeById c) contextNodeById' (parentIdById c)
          (childIdsById c)
    end in
  (mkState c' nodeId, contextNode).

(** Modelled from the spec: [ParseContextUtils.endContext] is not among the
    sources.  It "removes the context node from contextNodeById, inserts
    the AST node into astNodeById at the same id, and restores the parent
    as current": the value returned is the parent context. *)
Definition endContext (state : State) (contextNode : ParseContext.Node)
    (astNode : Ast.TNode) : State * option ParseContext.Node :=
  let c := nodeIdMapCollection state in
  let nodeId := ParseContext.id contextNode in
  (mkState
     (mkCollection (<[nodeId := astNode]> (astNodeById c))
        (delete nodeId (contextNodeById c)) (parentIdById c)
        (childIdsById c))
     (idCounter state),
   parentId ← parentIdById c !! nodeId; contextNodeById c !! parentId).

End ParseContextUtils.

(** ** Parser state *)

Module IParserStateUtils.

Import ParseContextUtils.

(** The lexer snapshot as the parser state reads it: the token sequence and
    the two position functions, which are methods of a class that is not
    among the sources. *)
Record LexerSnapshot : Type := mkLexerSnapshot {
  tokens : list Token;
  graphemePositionStartFrom : Token -> GraphemePosition;
  columnNumberStartFrom : Token -> Z
}.

Record IParserState : Type := mkIParserState {
  localizationTemplates : string;
  lexerSnapshot : LexerSnapshot;
  tokenIndex : Z;
  maybeCurrentToken : option Token;
  maybeCurrentTokenKind : option TokenKind;
  contextState : State;
  maybeCurrentContextNode : option ParseContext.Node
}.

Record FastStateBackup : Set := mkFastStateBackup {
  backup_tokenIndex : Z;
  contextStateIdCounter : Z;
  maybeContextNodeId : option Z
}.

Definition fastStateBackup (state : IParserState) : FastStateBackup :=
  {| backup_tokenIndex := tokenIndex state;
     contextStateIdCounter := idCounter (contextState state);
     maybeContextNodeId := ParseContext.id <$> maybeCurrentContextNode state |}.

(** The ids of [map.keys()] that are greater than [backupIdCounter].  A
    JavaScript Map iterates in insertion order, which a [gmap] does not
    record; both lists are sorted before they are used, and the sorted list
    is the same for every order of iteration (lemma
    [deletionOrder_of_any_iteration]). *)
Definition newNodeIds {V : Type} (nodeById : gmap Z V) (backupIdCounter : Z)
  : list Z :=
  filter (fun nodeId => nodeId > backupIdCounter) (map_to_list nodeById).*1.

(** The order in which the first loop of [applyFastStateBackup] visits the
    AST nodes, and the second loop the context nodes. *)
Definition deletionOrder (nodeIds : list Z) : list Z :=
  reverse (JsArray.sort nodeIds).

(** The body of the first loop. *)
Definition deleteNewAst (backupIdCounter : Z) (contextState : State)
    (nodeId : Z) : State :=
  let maybeParentId :=
    parentIdById (nodeIdMapCollection contextState) !! nodeId in
  let parentWillBeDeleted :=
    match maybeParentId with
    | Some parentId => bool_decide (parentId >= backupIdCounter)
    | None => false
    end in
  deleteAst contextState nodeId parentWillBeDeleted.

(** The body of the second loop. *)
Definition deleteNewContext (contextState : State) (nodeId : Z) : State :=
  (deleteContext contextState nodeId).1.

(** [if (maybeNumber)]: [undefined] and [0] are falsy, every other integer
    is truthy. *)
Definition truthy (maybeNumber : option Z) : option Z :=
  match maybeNumber with
  | Some n => if n =? 0 then None else Some n
  | None => None
  end.

Definition applyFastStateBackup (state : IParserState)
    (backup : FastStateBackup) : Result IParserState :=
  let tokenIndex' := backup_tokenIndex backup in
  let maybeCurrentToken' := arrayGet (tokens (lexerSnapshot state)) tokenIndex' in
  let maybeCurrentTokenKind' := tok_kind <$> maybeCurrentToken' in
  let nodeIdMapCollection := nodeIdMapCollection (contextState state) in
  let backupIdCounter := contextStateIdCounter backup in
  let contextState0 := mkState nodeIdMapCollection backupIdCounter in
  let newAstNodeIds :=
    newNodeIds (astNodeById nodeIdMapCollection) backupIdCounter in
  let newContextNodeIds :=
    newNodeIds (contextNodeById nodeIdMapCollection) backupIdCounter in
  let contextState1 :=
    foldl (deleteNewAst backupIdCounter) contextState0
          (deletionOrder newAstNodeIds) in
  let contextState2 :=
    foldl deleteNewContext contextState1 (deletionOrder newContextNodeIds) in
  let restored := mkIParserState (localizationTemplates state)
                    (lexerSnapshot state) tokenIndex' maybeCurrentToken'
                    maybeCurrentTokenKind' contextState2 in
  match truthy (maybeContextNodeId backup) with
  | Some contextNodeId =>
      contextNode ← NodeIdMapUtils.assertContext
                      (contextNodeById
                         (ParseContextUtils.nodeIdMapCollection contextState2))
                      contextNodeId;
      Ok (restored (Some contextNode))
  | None => Ok (restored None)
  end.

(** *** IsX *)

Definition isTokenKind (state : IParserState) (tokenKind : TokenKind)
    (tokenIndex : Z) : bool :=
  bool_decide
    (tok_kind <$> arrayGet (tokens (lexerSnapshot state)) tokenIndex
     = Some tokenKind).

Definition isNextTokenKind (state : IParserState) (tokenKind : TokenKind)
  : bool :=
  isTokenKind state tokenKind (tokenIndex state + 1).

(** A parameter with a default value is an [option]: [None] takes the
    default. *)
Definition isOnTokenKind (state : IParserState) (tokenKind : TokenKind)
    (maybeTokenIndex : option Z) : bool :=
  isTokenKind state tokenKind (default (tokenIndex state) maybeTokenIndex).

Definition isOnGeneralizedIdentifierStart (state : IParserState)
    (maybeTokenIndex : option Z) : bool :=
  let tokenIndex := default (tokenIndex state) maybeTokenIndex in
  let maybeTokenKind :=
    tok_kind <$> arrayGet (tokens (lexerSnapshot state)) tokenIndex in
  match maybeTokenKind with
  | None => false
  | Some tokenKind =>
      match tokenKind with
      | Identifier
      | KeywordAnd
      | KeywordAs
      | KeywordEach
      | KeywordElse
      | KeywordError
      | KeywordFalse
      | KeywordHashBinary
      | KeywordHashDate
      | KeywordHashDateTime
      | KeywordHashDateTimeZone
      | KeywordHashDuration
      | KeywordHashInfinity
      | KeywordHashNan
      | KeywordHashSections
      | KeywordHashShared
      | KeywordHashTable
      | KeywordHashTime
      | KeywordIf
      | KeywordIn
      | KeywordIs
      | KeywordLet
      | KeywordMeta
      | KeywordNot
      | KeywordOr
      | KeywordOtherwise
      | KeywordSection
      | KeywordShared
      | KeywordThen
      | KeywordTrue
      | KeywordTry
      | KeywordType => true
      | _ => false
      end
  end.

Definition isRecursivePrimaryExpressionNext (state : IParserState)
    (maybeTokenIndexStart : option Z) : bool :=
  let tokenIndexStart := default (tokenIndex state) maybeTokenIndexStart in
  isTokenKind state LeftBrace tokenIndexStart
  || isTokenKind state LeftBracket tokenIndexStart
  || isTokenKind state LeftParenthesis tokenIndexStart.

(** *** Asserts *)

Definition assertTokenAt (state : IParserState) (tokenIndex : Z)
  : Result Token :=
  assertIsDefined (arrayGet (tokens (lexerSnapshot state)) tokenIndex)
    "maybeToken".

Definition assertNoMoreTokens (state : IParserState) : Result unit :=
  if tokenIndex state =? arrayLength (tokens (lexerSnapshot state)) then
    Ok tt
  else
    token ← assertTokenAt state (tokenIndex state);
    Err (ParseException
           (ParseError.UnusedTokensRemainError (localizationTemplates state)
              token
              (graphemePositionStartFrom (lexerSnapshot state) token))).

End IParserStateUtils.

(** ** Iteration over the node-id map *)

Module NodeIdMapIterator.

Import NodeIdMapUtils.

(** [MapUtils.assertGet] on [childIdsById]. *)
Definition assertIterChildIds (childIdsById : gmap Z (list Z)) (nodeId : Z)
  : Result (list Z) :=
  assertIsDefined (childIdsById !! nodeId) "key not found in given map".

(** [nodeIds.map(nodeId => assertXor(collection, nodeId))]: the first id
    that is not in the collection throws. *)
Fixpoint assertIterXor (c : Collection) (nodeIds : list Z)
  : Result (list TXorNode) :=
  match nodeIds with
  | [] => Ok []
  | nodeId :: rest =>
      xorNode ← assertXor c nodeId;
      xorNodes ← assertIterXor c rest;
      Ok (xorNode :: xorNodes)
  end.

Definition assertIterChildrenXor (c : Collection) (parentId : Z)
  : Result (list TXorNode) :=
  match childIdsById c !! parentId with
  | None => Ok []
  | Some childIds => assertIterXor c childIds
  end.

Definition maybeNthSiblingXor (c : Collection) (rootId : Z) (offset : Z)
  : Result (option TXorNode) :=
  childXorNode ← assertXor c rootId;
  match xorAttributeIndex childXorNode with
  | None => Ok None
  | Some nodeAttributeIndex =>
      let attributeIndex := nodeAttributeIndex + offset in
      if attributeIndex <? 0 then Ok None
      else
        parentXorNode ← assertParentXor c rootId;
        childIds ← assertIterChildIds (childIdsById c) (xorId parentXorNode);
        if arrayLength childIds >=? attributeIndex then Ok None
        else Ok (arrayGet childIds attributeIndex ≫= maybeXor c)
  end.

Definition maybeNextSiblingXor (c : Collection) (nodeId : Z)
  : Result (option TXorNode) :=
  maybeNthSiblingXor c nodeId 1.

End NodeIdMapIterator.

(** ** Position predicates *)

Module PositionUtils.

Definition isBeforeTokenPosition (position : Position)
    (tokenPosition : TokenPosition) (isBoundIncluded : bool) : bool :=
  let positionLineNumber := lineNumber position in
  if positionLineNumber <? lineNumber tokenPosition then true
  else if positionLineNumber >? lineNumber tokenPosition then false
  else
    let upperBound :=
      if isBoundIncluded then lineCodeUnit tokenPosition
      else JsNumber.add (lineCodeUnit tokenPosition) 1 in
    lineCodeUnit position <? upperBound.

Definition isOnTokenPosition (position : Position)
    (tokenPosition : TokenPosition) : bool :=
  (lineNumber position =? lineNumber tokenPosition)
  && (lineCodeUnit position =? lineCodeUnit tokenPosition).

Definition isAfterTokenPosition (position : Position)
    (tokenPosition : TokenPosition) (isBoundIncluded : bool) : bool :=
  let positionLineNumber := lineNumber position in
  if positionLineNumber <? lineNumber tokenPosition then false
  else if positionLineNumber >? lineNumber tokenPosition then true
  else
    let upperBound :=
      if isBoundIncluded then lineCodeUnit tokenPosition
      else JsNumber.sub (lineCodeUnit tokenPosition) 1 in
    lineCodeUnit position >? upperBound.

Definition isInToken (position : Position) (token : Token)
    (isLowerBoundIncluded isHigherBoundIncluded : bool) : bool :=
  negb (isBeforeTokenPosition position (tok_positionStart token)
          isLowerBoundIncluded)
  && negb (isAfterTokenPosition position (tok_positionEnd token)
             isHigherBoundIncluded).

Definition isBeforeAstNode (position : Position) (astNode : Ast.TNode)
    (isBoundIncluded : bool) : bool :=
  isBeforeTokenPosition position (positionStart (Ast.tokenRange astNode))
    isBoundIncluded.

Definition isAfterAstNode (position : Position) (astNode : Ast.TNode)
    (isBoundIncluded : bool) : bool :=
  isAfterTokenPosition position (positionEnd (Ast.tokenRange astNode))
    isBoundIncluded.

Definition isInAstNode (position : Position) (astNode : Ast.TNode)
    (isLowerBoundIncluded isHigherBoundIncluded : bool) : bool :=
  negb (isBeforeAstNode position astNode isLowerBoundIncluded)
  && negb (isAfterAstNode position astNode isHigherBoundIncluded).

Definition isOnAstNodeStart (position : Position) (astNode : Ast.TNode)
  : bool :=
  isOnTokenPosition position (positionStart (Ast.tokenRange astNode)).

Definition isOnAstNodeEnd (position : Position) (astNode : Ast.TNode)
  : bool :=
  isOnTokenPosition position (positionEnd (Ast.tokenRange astNode)).

Definition isBeforeContextNode (position : Position)
    (contextNode : ParseContext.Node) (isBoundIncluded : bool) : bool :=
  match ParseContext.maybeTokenStart contextNode with
  | None => false
  | Some tokenStart =>
      isBeforeTokenPosition position (tok_positionStart tokenStart)
        isBoundIncluded
  end.

Definition isOnContextNodeStart (position : Position)
    (contextNode : ParseContext.Node) : bool :=
  match ParseContext.maybeTokenStart contextNode with
  | Some tokenStart => isOnTokenPosition position (tok_positionStart tokenStart)
  | None => false
  end.

Section RightMostLeaf.

(** [NodeIdMapUtils.maybeRightMostLeaf] is not among the sources: the
    predicates below take it as given.  The spec describes it as the
    descent rightward through [childIdsById] until a leaf. *)
Variable maybeRightMostLeaf : Collection -> Z -> option Ast.TNode.

Definition isOnContextNodeEnd (position : Position)
    (contextNode : ParseContext.Node) (c : Collection) : bool :=
  match maybeRightMostLeaf c (ParseContext.id contextNode) with
  | None => false
  | Some leaf => isOnAstNodeEnd position leaf
  end.

Definition isAfterContextNode (position : Position) (c : Collection)
    (contextNode : ParseContext.Node) (isBoundIncluded : bool) : bool :=
  match maybeRightMostLeaf c (ParseContext.id contextNode) with
  | None =>
      match ParseContext.maybeTokenStart contextNode with
      | None => false
      | Some tokenStart =>
          isAfterTokenPosition position (tok_positionEnd tokenStart)
            isBoundIncluded
      end
  | Some leaf => isAfterAstNode position leaf isBoundIncluded
  end.

Definition isInContextNode (position : Position) (c : Collection)
    (contextNode : ParseContext.Node)
    (isLowerBoundIncluded isHigherBoundIncluded : bool) : bool :=
  negb (isBeforeContextNode position contextNode isLowerBoundIncluded)
  && negb (isAfterContextNode position c contextNode isHigherBoundIncluded).

Definition isBeforeXorNode (position : Position) (xorNode : TXorNode)
    (isBoundIncluded : bool) : bool :=
  match xorNode with
  | XorAst node => isBeforeAstNode position node isBoundIncluded
  | XorContext node => isBeforeContextNode position node isBoundIncluded
  end.

Definition isInXorNode (position : Position) (c : Collection)
    (xorNode : TXorNode)
    (isLowerBoundIncluded isUpperBoundIncluded : bool) : bool :=
  match xorNode with
  | XorAst node =>
      isInAstNode position node isLowerBoundIncluded isUpperBoundIncluded
  | XorContext node =>
      isInContextNode position c node isLowerBoundIncluded
        isUpperBoundIncluded
  end.

Definition isOnXorNodeStart (position : Position) (xorNode : TXorNode)
  : bool :=
  match xorNode with
  | XorAst node => isOnAstNodeStart position node
  | XorContext node => isOnContextNodeStart position node
  end.

Definition isOnXorNodeEnd (position : Position) (xorNode : TXorNode)
    (c : Collection) : bool :=
  match xorNode with
  | XorAst node => isOnAstNodeEnd position node
  | XorContext node => isOnContextNodeEnd position node c
  end.

Definition isAfterXorNode (position : Position) (c : Collection)
    (xorNode : TXorNode) (isBoundIncluded : bool) : bool :=
  match xorNode with
  | XorAst node => isAfterAstNode position node isBoundIncluded
  | XorContext node => isAfterContextNode position c node isBoundIncluded
  end.

End RightMostLeaf.

End PositionUtils.

(** ** Type inspection *)

Module Type_.

(** Modelled from the spec: the declarations of [Type.TType] are not among
    the sources.  A type is one of a closed family of kinds, paired with
    [isNullable] and optionally a richer shape. *)
Inductive TypeKind : Set :=
| AnyKind | AnyNonNullKind | BinaryKind | DateKind | DateTimeKind
| DateTimeZoneKind | DurationKind | FunctionKind | ListKind | LogicalKind
| NullKind | NumberKind | RecordKind | TableKind | TextKind | TimeKind
| TypeKind_ | ActionKind | NoneKind | UnknownKind.

Inductive TType : Set :=
| MkType (kind : TypeKind) (maybeExtendedKind : option ExtendedType)
         (isNullable : bool)
with ExtendedType : Set :=
| DefinedRecord (fields : list (string * TType)) (isOpen : bool)
| DefinedFunction (parameterTypes : list TType) (returnType : TType)
| DefinedList (elementType : TType).

Definition kind (t : TType) : TypeKind := let 'MkType k _ _ := t in k.
Definition maybeExtendedKind (t : TType) : option ExtendedType :=
  let 'MkType _ e _ := t in e.
Definition isNullable (t : TType) : bool := let 'MkType _ _ n := t in n.

End Type_.

Module InspectType.

Import Type_.

(** A scope item as the type tasks read it: the id its type is cached
    under. *)
Record TScopeItem : Set := mkScopeItem {
  scopeItem_id : Z
}.

(** [ScopeItemByKey]: an insertion-ordered map from a name to its item,
    as the list of its entries (the keys of a Map are distinct). *)
Definition ScopeItemByKey : Set := list (string * TScopeItem).

(** A value held by one of the maps of a [TypeCache].  JavaScript does not
    check what a Map holds, so one type covers both maps. *)
Inductive CacheValue : Set :=
| CachedType (t : TType)
| CachedScope (scope : ScopeItemByKey).

Record TypeCache : Type := mkTypeCache {
  cache_scopeById : gmap Z CacheValue;
  cache_typeById : gmap Z CacheValue
}.

Record CommonSettings : Set := mkCommonSettings {
  locale : string
}.

Record InspectTypeState : Type := mkInspectTypeState {
  settings : CommonSettings;
  givenTypeById : gmap Z CacheValue;
  deltaTypeById : gmap Z CacheValue;
  nodeIdMapCollection : Collection;
  leafNodeIds : list Z;
  scopeById : gmap Z CacheValue
}.

(** [XorNodeUtils.assertAstNodeKind], which is not among the sources, read
    by its name and its use: it throws unless the node is of the expected
    kind. *)
Definition assertAstNodeKind (xorNode : TXorNode)
    (expectedNodeKind : Ast.NodeKind) : Result unit :=
  if bool_decide (xorKind xorNode = expectedNodeKind) then Ok tt
  else Err (AssertionError "incorrect Ast.NodeKind").

Section InspectTypeParameter.

(** [inspectTypeFromChildAttributeIndex] of [./common] is not among the
    sources: the type inspected from the child at an attribute index. *)
Variable inspectTypeFromChildAttributeIndex :
  InspectTypeState -> TXorNode -> Z -> Result TType.

Definition inspectTypeParameter (state : InspectTypeState)
    (xorNode : TXorNode) : Result TType :=
  _ ← assertAstNodeKind xorNode Ast.ParameterNode;
  let maybeOptionalConstant :=
    NodeIdMapUtils.maybeChildAstByAttributeIndex
      (nodeIdMapCollection state) (xorId xorNode) 0 (Some [Ast.Constant]) in
  maybeParameterType ← inspectTypeFromChildAttributeIndex state xorNode 2;
  Ok (MkType (kind maybeParameterType)
        (maybeExtendedKind maybeParameterType)
        (bool_decide (maybeOptionalConstant ≠ None)
         || isNullable maybeParameterType)).

End InspectTypeParameter.

End InspectType.

Module TypeTasks.

Import Type_ InspectType.

(** A [Result<T, CommonError>] value of the library: what
    [ResultUtils.ensureResult] turns a call that may throw into. *)
Inductive Tried (A : Type) : Type :=
| TriedOk (value : A)
| TriedErr (error : Exception).

Arguments TriedOk {A} value.
Arguments TriedErr {A} error.

Definition ensureResult {A : Type} (templates : string) (call : Result A)
  : Tried A :=
  match call with Ok a => TriedOk a | Err e => TriedErr e end.

(** [getLocalizationTemplates(locale)]: the templates are an external
    collaborator; they are identified by the locale. *)
Definition getLocalizationTemplates (locale : string) : string := locale.

(** [ScopeTypeByKey]: an insertion-ordered map from a name to its type. *)
Definition ScopeTypeByKey : Set := list (string * CacheValue).

(** The [state] object literal of [tryScopeType]. *)
Definition tryScopeTypeState (settings : CommonSettings) (c : Collection)
    (leafNodeIds : list Z) (maybeTypeCache : option TypeCache)
  : InspectTypeState :=
  {| settings := settings;
     givenTypeById := default ∅ (cache_typeById <$> maybeTypeCache);
     deltaTypeById := ∅;
     nodeIdMapCollection := c;
     leafNodeIds := leafNodeIds;
     scopeById := default ∅ (cache_scopeById <$> maybeTypeCache) |}.

(** The [state] object literal of [tryType]. *)
Definition tryTypeState (settings : CommonSettings) (c : Collection)
    (leafNodeIds : list Z) (maybeTypeCache : option TypeCache)
  : InspectTypeState :=
  {| settings := settings;
     givenTypeById := default ∅ (cache_scopeById <$> maybeTypeCache);
     deltaTypeById := ∅;
     nodeIdMapCollection := c;
     leafNodeIds := leafNodeIds;
     scopeById := default ∅ (cache_typeById <$> maybeTypeCache) |}.

Section Tasks.

(** The functions of [./inspectType] the tasks call are not among the
    sources.  Each may update the caches of the state it is given, so it
    returns the state with its value. *)
Variable assertGetOrCreateScope :
  InspectTypeState -> Z -> Result (InspectTypeState * ScopeItemByKey).
Variable getOrFindScopeItemType :
  InspectTypeState -> TScopeItem -> Result (InspectTypeState * CacheValue).
Variable inspectXor : InspectTypeState -> TXorNode -> Result TType.

Definition withDeltaTypeById (state : InspectTypeState)
    (delta : gmap Z CacheValue) : InspectTypeState :=
  mkInspectTypeState (settings state) (givenTypeById state) delta
    (nodeIdMapCollection state) (leafNodeIds state) (scopeById state).

Definition withGivenTypeById (state : InspectTypeState)
    (given : gmap Z CacheValue) : InspectTypeState :=
  mkInspectTypeState (settings state) given (deltaTypeById state)
    (nodeIdMapCollection state) (leafNodeIds state) (scopeById state).

(** First loop of [inspectScopeType]: the items whose type is not given
    yet get one in [deltaTypeById]. *)
Fixpoint findDeltaTypes (state : InspectTypeState)
    (scopeItems : list TScopeItem) : Result InspectTypeState :=
  match scopeItems with
  | [] => Ok state
  | scopeItem :: rest =>
      match givenTypeById state !! scopeItem_id scopeItem with
      | Some _ => findDeltaTypes state rest
      | None =>
          '(state1, itemType) ← getOrFindScopeItemType state scopeItem;
          findDeltaTypes
            (withDeltaTypeById state1
               (<[scopeItem_id scopeItem := itemType]>
                  (deltaTypeById state1)))
            rest
      end
  end.

(** Third loop of [inspectScopeType]: every item has to have a type. *)
Fixpoint collectScopeTypes (state : InspectTypeState)
    (scopeItemByKey : ScopeItemByKey) : Result ScopeTypeByKey :=
  match scopeItemByKey with
  | [] => Ok []
  | (key, scopeItem) :: rest =>
      itemType ← assertIsDefined
                   (givenTypeById state !! scopeItem_id scopeItem)
                   "expected nodeId to be in givenTypeById";
      others ← collectScopeTypes state rest;
      Ok ((key, itemType) :: others)
  end.

Definition inspectScopeType (state : InspectTypeState) (nodeId : Z)
  : Result ScopeTypeByKey :=
  '(state1, scopeItemByKey) ← assertGetOrCreateScope state nodeId;
  state2 ← findDeltaTypes state1 scopeItemByKey.*2;
  let state3 :=
    withGivenTypeById state2
      (deltaTypeById state2 ∪ givenTypeById state2) in
  collectScopeTypes state3 scopeItemByKey.

Definition tryScopeType (settings : CommonSettings) (c : Collection)
    (leafNodeIds : list Z) (nodeId : Z) (maybeTypeCache : option TypeCache)
  : Tried ScopeTypeByKey :=
  let state := tryScopeTypeState settings c leafNodeIds maybeTypeCache in
  ensureResult (getLocalizationTemplates (locale settings))
    (inspectScopeType state nodeId).

Definition tryType (settings : CommonSettings) (c : Collection)
    (leafNodeIds : list Z) (nodeId : Z) (maybeTypeCache : option TypeCache)
  : Tried TType :=
  let state := tryTypeState settings c leafNodeIds maybeTypeCache in
  ensureResult (getLocalizationTemplates (locale settings))
    (xorNode ← NodeIdMapUtils.assertXor c nodeId;
     inspectXor state xorNode).

End Tasks.

End TypeTasks.

(** ** Scope inspection: visitNode *)

Module Inspection.

Import NodeIdMapUtils.

Record InvokeExpressionArguments : Set := mkInvokeExpressionArguments {
  numArguments : Z;
  positionArgumentIndex : Z
}.

(** The contextual nodes the inspector reports, one constructor per
    [NodeKind] of the inspection. *)
Inductive TNode : Set :=
| EachExpressionNode (maybePositionStart maybePositionEnd : option TokenPosition)
| InvokeExpressionNode (maybePositionEnd maybePositionStart : option TokenPosition)
                       (maybeName : option string)
                       (maybeArguments : option InvokeExpressionArguments)
| ListNode (maybePositionStart maybePositionEnd : option TokenPosition)
| RecordNode (maybePositionStart maybePositionEnd : option TokenPosition).

(** A position identifier of kind [Local]. *)
Record LocalIdentifier : Set := mkLocalIdentifier {
  identifier : Ast.TNode;
  definition : TXorNode
}.

(** [state.result].  The scope is a Map that iterates in insertion order:
    the list of its entries, oldest first. *)
Record Inspected : Set := mkInspected {
  scope : list (string * TXorNode);
  nodes : list TNode;
  result_maybePositionIdentifier : option LocalIdentifier
}.

Record State : Type := mkState {
  nodeIdMapCollection : Collection;
  position : Position;
  maybePositionIdentifier : option Ast.TNode;
  result : Inspected
}.

Definition withResult (state : State) (r : Inspected) : State :=
  mkState (nodeIdMapCollection state) (position state)
    (maybePositionIdentifier state) r.

(** [state.result.nodes.push(node)]. *)
Definition pushNode (state : State) (node : TNode) : State :=
  withResult state
    (mkInspected (scope (result state)) (nodes (result state) ++ [node])
       (result_maybePositionIdentifier (result state))).

Definition scopeHas (scopeMap : list (string * TXorNode)) (key : string)
  : bool :=
  bool_decide (key ∈ scopeMap.*1).

Definition addToScopeIfNew (state : State) (key : string)
    (xorNode : TXorNode) : State :=
  let scopeMap := scope (result state) in
  if negb (scopeHas scopeMap key) then
    withResult state
      (mkInspected (scopeMap ++ [(key, xorNode)]) (nodes (result state))
         (result_maybePositionIdentifier (result state)))
  else state.

Definition addAstToScopeIfNew (state : State) (key : string)
    (astNode : Ast.TNode) : State :=
  addToScopeIfNew state key (XorAst astNode).

Definition addContextToScopeIfNew (state : State) (key : string)
    (contextNode : ParseContext.Node) : State :=
  addToScopeIfNew state key (XorContext contextNode).

(** *** Positions *)

Definition isTokenPositionOnPosition (tokenPosition : TokenPosition)
    (position : Position) : bool :=
  (lineNumber tokenPosition =? lineNumber position)
  && (lineCodeUnit tokenPosition =? lineCodeUnit position).

Definition isTokenPositionBeforePostion (tokenPosition : TokenPosition)
    (position : Position) : bool :=
  (lineNumber tokenPosition <? lineNumber position)
  || ((lineNumber tokenPosition =? lineNumber position)
      && (lineCodeUnit tokenPosition <? lineCodeUnit position)).

Definition isTokenPositionOnOrBeforeBeforePostion
    (tokenPosition : TokenPosition) (position : Position) : bool :=
  isTokenPositionOnPosition tokenPosition position
  || isTokenPositionBeforePostion tokenPosition position.

Definition isPositionOnTokenRange (position : Position)
    (tokenRange : TokenRange) : bool :=
  let tokenRangeStart := positionStart tokenRange in
  if (lineNumber tokenRangeStart <? lineNumber position)
     || ((lineNumber tokenRangeStart =? lineNumber position)
         && (lineCodeUnit tokenRangeStart >? lineCodeUnit position))
  then false
  else
    let tokenRangeEnd := positionEnd tokenRange in
    if (lineNumber tokenRangeEnd >? lineNumber position)
       || ((lineNumber tokenRangeEnd =? lineNumber position)
           && (lineCodeUnit tokenRangeEnd <? lineCodeUnit position))
    then false
    else true.

Definition isPositionOnXorNode (position : Position) (xorNode : TXorNode)
  : bool :=
  match xorNode with
  | XorAst node => isPositionOnTokenRange position (Ast.tokenRange node)
  | XorContext _ => true
  end.

(** *** Reading the fields of nodes *)

Definition expectedNodeKindError (xorNode : TXorNode)
    (expected : Ast.NodeKind) : Exception :=
  InvariantError "expected xorNode to be of another kind".

(** The TypeScript types promise the fields below on the nodes they are
    read from; a node without them makes the read throw. *)
Definition readLiteral (node : Ast.TNode) : Result string :=
  match Ast.literal node with
  | Some s => Ok s
  | None => Err (TypeError "literal")
  end.

Definition readCloseWrapperConstant (node : Ast.TNode) : Result Ast.TNode :=
  match Ast.closeWrapperConstant node with
  | Some constant => Ok constant
  | None => Err (TypeError "closeWrapperConstant")
  end.

Definition readIdentifierExpression (node : Ast.TNode)
  : Result (option Ast.TNode * Ast.TNode) :=
  match Ast.fields node with
  | Ast.IdentifierExpressionFields maybeInclusiveConstant identifier =>
      Ok (maybeInclusiveConstant, identifier)
  | _ => Err (TypeError "identifier")
  end.

(** [(xorNode.node as Ast.Constant).literal]: the cast is not checked, and
    a context node has no literal. *)
Definition literalOfXor (xorNode : TXorNode) : option string :=
  match xorNode with
  | XorAst node => Ast.literal node
  | XorContext _ => None
  end.

(** [key += maybeLiteral]: JavaScript appends the text [undefined] for an
    absent value. *)
Definition appendLiteral (key : string) (maybeLiteral : option string)
  : string :=
  key +:+ default "undefined" maybeLiteral.

Definition maybePositionStartOfContext (node : ParseContext.Node)
  : option TokenPosition :=
  tok_positionStart <$> ParseContext.maybeTokenStart node.

(** *** Queries of the node-id map under their former names *)

Definition maybeChildByAttributeIndex := maybeChildXorByAttributeIndex.

Definition expectParentXorNode := assertParentXor.

Definition expectXorChildren := NodeIdMapIterator.assertIterChildrenXor.

(** Modelled from the spec: [NodeIdMap.expectChildByAttributeIndex] is not
    among the sources; the asserting form of
    [maybeChildXorByAttributeIndex]. *)
Definition expectChildByAttributeIndex (c : Collection) (parentId : Z)
    (attributeIndex : Z) (maybeAllowedNodeKinds : option (list Ast.NodeKind))
  : Result TXorNode :=
  assertIsDefined
    (maybeChildByAttributeIndex c parentId attributeIndex
       maybeAllowedNodeKinds)
    "parent has no child at the attribute index".

(** Modelled from the spec: [NodeIdMap.maybeMultipleChildByAttributeRequest]
    is not among the sources; the request names a first child by attribute
    index and allowed kinds and then, from that child on, one more child
    per drilldown. *)
Definition maybeMultipleChildByAttributeRequest (c : Collection)
    (rootNodeId : Z) (firstDrilldown : Z * option (list Ast.NodeKind))
    (drilldowns : list (Z * option (list Ast.NodeKind))) : option TXorNode :=
  foldl
    (fun maybeXorNode drilldown =>
       xorNode ← maybeXorNode;
       maybeChildByAttributeIndex c (xorId xorNode) drilldown.1 drilldown.2)
    (maybeChildByAttributeIndex c rootNodeId firstDrilldown.1 firstDrilldown.2)
    drilldowns.

Definition isParentOfNodeKind (c : Collection) (childId : Z)
    (parentNodeKind : Ast.NodeKind) : bool :=
  match parentIdById c !! childId with
  | None => false
  | Some parentNodeId =>
      match maybeXor c parentNodeId with
      | None => false
      | Some parent => bool_decide (xorKind parent = parentNodeKind)
      end
  end.

(** The loop of [nodesOnCsvFromCsvArray]: it stops at the first Csv that
    has no child at attribute index 0. *)
Fixpoint nodesOnCsv (c : Collection) (csvXorNodes : list TXorNode)
  : list TXorNode :=
  match csvXorNodes with
  | [] => []
  | csvXorNode :: rest =>
      match maybeChildByAttributeIndex c (xorId csvXorNode) 0 None with
      | None => []
      | Some csvNode => csvNode :: nodesOnCsv c rest
      end
  end.

Definition nodesOnCsvFromCsvArray (c : Collection)
    (csvArrayXorNode : TXorNode) : Result (list TXorNode) :=
  csvXorNodes ← expectXorChildren c (xorId csvArrayXorNode);
  Ok (nodesOnCsv c csvXorNodes).

End Inspection.

Module VisitNode.

Import NodeIdMapUtils Inspection.

(** A [for ... of] loop whose body may throw. *)
Fixpoint forEach {A : Type} (body : State -> A -> Result State)
    (state : State) (xs : list A) : Result State :=
  match xs with
  | [] => Ok state
  | x :: rest => state1 ← body state x; forEach body state1 rest
  end.

Definition maybeSetPositionIdentifier (state : State)
    (keyXorNode valueXorNode : TXorNode) : Result State :=
  match maybePositionIdentifier state,
        result_maybePositionIdentifier (result state) with
  | None, _ => Ok state
  | Some _, Some _ => Ok state
  | Some positionIdentifier, None =>
      match keyXorNode with
      | XorContext _ => Err (InvariantError "keyXorNode should be an Ast node")
      | XorAst keyAstNode =>
          if bool_decide (Ast.kind keyAstNode ≠ Ast.GeneralizedIdentifier)
             && bool_decide (Ast.kind keyAstNode ≠ Ast.IdentifierNode)
          then Err (InvariantError "keyAstNode is neither kind of identifier")
          else if bool_decide (Ast.literal keyAstNode
                               = Ast.literal positionIdentifier)
          then Ok (withResult state
                     (mkInspected (scope (result state))
                        (nodes (result state))
                        (Some (mkLocalIdentifier keyAstNode valueXorNode))))
          else Ok state
      end
  end.

Definition inspectEachExpression (state : State) (eachExprXorNode : TXorNode)
  : Result State :=
  let state1 := addToScopeIfNew state "_" eachExprXorNode in
  let '(maybePositionStart, maybePositionEnd) :=
    match eachExprXorNode with
    | XorAst node =>
        (Some (positionStart (Ast.tokenRange node)),
         Some (positionEnd (Ast.tokenRange node)))
    | XorContext eachExpr => (maybePositionStartOfContext eachExpr, None)
    end in
  Ok (pushNode state1 (EachExpressionNode maybePositionStart maybePositionEnd)).

Definition inspectGeneralizedIdentifier (state : State)
    (genIdentifierXorNode : TXorNode) : Result State :=
  match genIdentifierXorNode with
  | XorAst generalizedIdentifier =>
      if bool_decide (Ast.kind generalizedIdentifier ≠ Ast.GeneralizedIdentifier)
      then Err (expectedNodeKindError genIdentifierXorNode
                  Ast.GeneralizedIdentifier)
      else if isTokenPositionOnOrBeforeBeforePostion
                (positionEnd (Ast.tokenRange generalizedIdentifier))
                (position state)
      then
        key ← readLiteral generalizedIdentifier;
        Ok (addAstToScopeIfNew state key generalizedIdentifier)
      else Ok state
  | XorContext _ => Ok state
  end.

Definition inspectIdentifier (state : State) (identifierXorNode : TXorNode)
  : Result State :=
  match identifierXorNode with
  | XorAst identifier =>
      if bool_decide (Ast.kind identifier ≠ Ast.IdentifierNode)
      then Err (expectedNodeKindError identifierXorNode Ast.IdentifierNode)
      else if isParentOfNodeKind (nodeIdMapCollection state)
                (Ast.id identifier) Ast.IdentifierExpression
      then Ok state
      else if isTokenPositionOnOrBeforeBeforePostion
                (positionEnd (Ast.tokenRange identifier)) (position state)
      then
        key ← readLiteral identifier;
        Ok (addAstToScopeIfNew state key identifier)
      else Ok state
  | XorContext _ => Ok state
  end.

Definition inspectIdentifierExpression (state : State)
    (identifierExprXorNode : TXorNode) : Result State :=
  match identifierExprXorNode with
  | XorAst identifierExpression =>
      if bool_decide (Ast.kind identifierExpression ≠ Ast.IdentifierExpression)
      then Err (expectedNodeKindError identifierExprXorNode
                  Ast.IdentifierExpression)
      else
        '(maybeInclusiveConstant, identifier) ←
          readIdentifierExpression identifierExpression;
        key0 ← readLiteral identifier;
        key ← match maybeInclusiveConstant with
              | Some inclusiveConstant =>
                  constantLiteral ← readLiteral inclusiveConstant;
                  Ok (constantLiteral +:+ key0)
              | None => Ok key0
              end;
        Ok (addAstToScopeIfNew state key identifierExpression)
  | XorContext contextNode =>
      let c := nodeIdMapCollection state in
      let key0 := EmptyString in
      let key1 :=
        match maybeChildByAttributeIndex c (ParseContext.id contextNode) 0
                (Some [Ast.Constant]) with
        | Some inclusiveConstant =>
            appendLiteral key0 (literalOfXor inclusiveConstant)
        | None => key0
        end in
      let key2 :=
        match maybeChildByAttributeIndex c (ParseContext.id contextNode) 1
                (Some [Ast.IdentifierNode]) with
        | Some identifier => appendLiteral key1 (literalOfXor identifier)
        | None => key1
        end in
      if bool_decide (String.length key2 ≠ 0%nat)
      then Ok (addContextToScopeIfNew state key2 contextNode)
      else Ok state
  end.

(** The name of the invoked expression: the head of the enclosing
    RecursivePrimaryExpression when it is an identifier expression. *)
Definition invokeExpressionName (c : Collection)
    (invokeExprXorNode : TXorNode) : Result (option string) :=
  if bool_decide (xorAttributeIndex invokeExprXorNode = Some 0) then
    recursiveArrayXorNode ← expectParentXorNode c (xorId invokeExprXorNode);
    recursiveExprXorNode ←
      expectParentXorNode c (xorId recursiveArrayXorNode);
    headXorNode ←
      expectChildByAttributeIndex c (xorId recursiveExprXorNode) 0 None;
    if bool_decide (xorKind headXorNode = Ast.IdentifierExpression) then
      match headXorNode with
      | XorContext _ =>
          Err (InvariantError
                 "the younger IdentifierExpression sibling should've finished parsing before the InvokeExpression node was reached")
      | XorAst identifierExpression =>
          '(maybeInclusiveConstant, identifier) ←
            readIdentifierExpression identifierExpression;
          identifierLiteral ← readLiteral identifier;
          match maybeInclusiveConstant with
          | None => Ok (Some identifierLiteral)
          | Some inclusiveConstant =>
              constantLiteral ← readLiteral inclusiveConstant;
              Ok (Some (constantLiteral +:+ identifierLiteral))
          end
      end
    else Ok None
  else Ok None.

(** The loop over the arguments of [inspectInvokeExpression]: the state and
    [maybePositionArgumentIndex] after the arguments from [index] on. *)
Fixpoint inspectArguments (position : Position) (state : State)
    (maybePositionArgumentIndex : option Z) (index : Z)
    (argXorNodes : list TXorNode) : Result (State * option Z) :=
  match argXorNodes with
  | [] => Ok (state, maybePositionArgumentIndex)
  | argXorNode :: rest =>
      state1 ← (if bool_decide (xorKind argXorNode = Ast.IdentifierExpression)
                then inspectIdentifierExpression state argXorNode
                else Ok state);
      let maybePositionArgumentIndex1 :=
        if isPositionOnXorNode position argXorNode then Some index
        else maybePositionArgumentIndex in
      inspectArguments position state1 maybePositionArgumentIndex1
        (index + 1) rest
  end.

(** [if (isTokenPositionOnPosition(closeWrapperConstant...positionEnd,
    position)) return;] of the invoke, list and record inspectors. *)
Definition isOnCloseWrapperConstant (position : Position) (node : Ast.TNode)
  : Result bool :=
  closeWrapperConstant ← readCloseWrapperConstant node;
  Ok (isTokenPositionOnPosition
        (positionEnd (Ast.tokenRange closeWrapperConstant)) position).

Definition inspectInvokeExpression (state : State)
    (invokeExprXorNode : TXorNode) : Result State :=
  if bool_decide (xorKind invokeExprXorNode ≠ Ast.InvokeExpression)
  then Err (expectedNodeKindError invokeExprXorNode Ast.InvokeExpression)
  else
    isOnClose ← match invokeExprXorNode with
                | XorAst invokeExpr =>
                    isOnCloseWrapperConstant (position state) invokeExpr
                | XorContext _ => Ok false
                end;
    if isOnClose : bool then Ok state
    else
      maybeName ←
        invokeExpressionName (nodeIdMapCollection state) invokeExprXorNode;
      let '(maybePositionStart, maybePositionEnd) :=
        match invokeExprXorNode with
        | XorAst node =>
            (Some (positionStart (Ast.tokenRange node)),
             Some (positionEnd (Ast.tokenRange node)))
        | XorContext invokeExpr =>
            (maybePositionStartOfContext invokeExpr, None)
        end in
      match maybeChildByAttributeIndex (nodeIdMapCollection state)
              (xorId invokeExprXorNode) 1 (Some [Ast.ArrayWrapper]) with
      | None =>
          Ok (pushNode state
                (InvokeExpressionNode maybePositionEnd maybePositionStart
                   maybeName None))
      | Some csvArrayXorNode =>
          argXorNodes ←
            nodesOnCsvFromCsvArray (nodeIdMapCollection state)
              csvArrayXorNode;
          let position := position state in
          let numArguments := arrayLength argXorNodes in
          '(state1, maybePositionArgumentIndex) ←
            inspectArguments position state None 0 argXorNodes;
          let positionArgumentIndex :=
            match maybePositionArgumentIndex with
            | Some index => index
            | None => 0
            end in
          Ok (pushNode state1
                (InvokeExpressionNode maybePositionEnd maybePositionStart
                   maybeName
                   (Some (mkInvokeExpressionArguments numArguments
                            positionArgumentIndex))))
      end.

Definition inspectParameter (state : State) (parameterXorNode : TXorNode)
  : Result State :=
  match maybeChildByAttributeIndex (nodeIdMapCollection state)
          (xorId parameterXorNode) 1 (Some [Ast.IdentifierNode]) with
  | None => Ok state
  | Some nameXorNode => inspectIdentifier state nameXorNode
  end.

Definition inspectFunctionExpression (state : State)
    (fnExpressionXorNode : TXorNode) : Result State :=
  if bool_decide (xorKind fnExpressionXorNode ≠ Ast.FunctionExpression)
  then Err (expectedNodeKindError fnExpressionXorNode Ast.FunctionExpression)
  else
    match maybeMultipleChildByAttributeRequest (nodeIdMapCollection state)
            (xorId fnExpressionXorNode) (0, Some [Ast.ParameterList])
            [(1, Some [Ast.ArrayWrapper])] with
    | None => Ok state
    | Some csvArrayXorNode =>
        parameterXorNodes ←
          nodesOnCsvFromCsvArray (nodeIdMapCollection state) csvArrayXorNode;
        forEach inspectParameter state parameterXorNodes
    end.

(** The body of the loop over the key-value pairs of a let expression. *)
Definition inspectLetKeyValuePair (state : State)
    (keyValuePairXorNode : TXorNode) : Result State :=
  let c := nodeIdMapCollection state in
  let keyValuePairId := xorId keyValuePairXorNode in
  match maybeChildByAttributeIndex c keyValuePairId 0
          (Some [Ast.IdentifierNode]) with
  | None => Ok state
  | Some keyXorNode =>
      match maybeChildByAttributeIndex c keyValuePairId 2 None with
      | Some valueXorNode =>
          maybeSetPositionIdentifier state keyXorNode valueXorNode
      | None => Ok state
      end
  end.

Definition inspectLetExpression (state : State) (letExprXorNode : TXorNode)
  : Result State :=
  let c := nodeIdMapCollection state in
  match maybeChildByAttributeIndex c (xorId letExprXorNode) 1
          (Some [Ast.ArrayWrapper]) with
  | None => Ok state
  | Some csvArrayXorNode =>
      keyValuePairXorNodes ← nodesOnCsvFromCsvArray c csvArrayXorNode;
      forEach inspectLetKeyValuePair state keyValuePairXorNodes
  end.

Definition inspectListExpressionOrLiteral (state : State)
    (listXorNode : TXorNode) : Result State :=
  match listXorNode with
  | XorAst list =>
      let position := position state in
      let tokenRange := Ast.tokenRange list in
      isOnClose ← isOnCloseWrapperConstant position list;
      if isOnClose : bool then Ok state
      else if isPositionOnTokenRange position tokenRange
      then Ok (pushNode state
                 (ListNode (Some (positionStart tokenRange))
                    (Some (positionEnd tokenRange))))
      else Ok state
  | XorContext list =>
      Ok (pushNode state (ListNode (maybePositionStartOfContext list) None))
  end.

(** The body of the loop over the key-value pairs of a record. *)
Definition inspectRecordKeyValuePair (state : State)
    (keyValuePairXorNode : TXorNode) : Result State :=
  let c := nodeIdMapCollection state in
  let keyValuePairId := xorId keyValuePairXorNode in
  match maybeChildByAttributeIndex c keyValuePairId 0
          (Some [Ast.GeneralizedIdentifier]) with
  | None => Ok state
  | Some keyXorNode =>
      state1 ← inspectGeneralizedIdentifier state keyXorNode;
      match maybeChildByAttributeIndex c keyValuePairId 2 None with
      | Some valueXorNode =>
          maybeSetPositionIdentifier state1 keyXorNode valueXorNode
      | None => Ok state1
      end
  end.

(** What the first [switch] of [inspectRecordExpressionOrLiteral] does:
    [None] is its early [return]. *)
Definition reportRecord (state : State) (recordXorNode : TXorNode)
  : Result (option State) :=
  match recordXorNode with
  | XorAst record =>
      let position := position state in
      let tokenRange := Ast.tokenRange record in
      isOnClose ← isOnCloseWrapperConstant position record;
      if isOnClose : bool then Ok None
      else if isPositionOnTokenRange position tokenRange
      then Ok (Some (pushNode state
                       (RecordNode (Some (positionStart tokenRange))
                          (Some (positionEnd tokenRange)))))
      else Ok (Some state)
  | XorContext record =>
      Ok (Some (pushNode state
                  (RecordNode (maybePositionStartOfContext record) None)))
  end.

Definition inspectRecordExpressionOrLiteral (state : State)
    (recordXorNode : TXorNode) : Result State :=
  let c := nodeIdMapCollection state in
  maybeState ← reportRecord state recordXorNode;
  match maybeState with
  | None => Ok state
  | Some state1 =>
      match maybeChildByAttributeIndex c (xorId recordXorNode) 1
              (Some [Ast.ArrayWrapper]) with
      | None => Ok state1
      | Some csvArrayXorNode =>
          keyValuePairXorNodes ← nodesOnCsvFromCsvArray c csvArrayXorNode;
          forEach inspectRecordKeyValuePair state1 keyValuePairXorNodes
      end
  end.

Definition inspectRecursivePrimaryExpression (state : State)
    (recursivePrimaryExprXorNode : TXorNode) : Result State :=
  match maybeChildByAttributeIndex (nodeIdMapCollection state)
          (xorId recursivePrimaryExprXorNode) 0 None with
  | None => Ok state
  | Some headXorNode =>
      if bool_decide (xorKind headXorNode ≠ Ast.IdentifierExpression)
      then Ok state
      else inspectIdentifierExpression state headXorNode
  end.

(** The body of the loop over the members of a section. *)
Definition inspectSectionMember (state : State) (sectionMember : TXorNode)
  : Result State :=
  let c := nodeIdMapCollection state in
  match maybeChildByAttributeIndex c (xorId sectionMember) 2
          (Some [Ast.IdentifierPairedExpression]) with
  | None => Ok state
  | Some identifierPairedExprXorNode =>
      let identifierPairedExprId := xorId identifierPairedExprXorNode in
      match maybeChildByAttributeIndex c identifierPairedExprId 0
              (Some [Ast.IdentifierNode]) with
      | None => Ok state
      | Some nameXorNode =>
          state1 ← inspectIdentifier state nameXorNode;
          match maybeChildByAttributeIndex c identifierPairedExprId 2 None with
          | Some valueXorNode =>
              maybeSetPositionIdentifier state1 nameXorNode valueXorNode
          | None => Ok state1
          end
      end
  end.

Definition inspectSection (state : State) (sectionXorNode : TXorNode)
  : Result State :=
  let c := nodeIdMapCollection state in
  match maybeChildByAttributeIndex c (xorId sectionXorNode) 4
          (Some [Ast.ArrayWrapper]) with
  | None => Ok state
  | Some sectionMemberArrayXorNode =>
      sectionMemberXorNodes ←
        expectXorChildren c (xorId sectionMemberArrayXorNode);
      forEach inspectSectionMember state sectionMemberXorNodes
  end.

Definition visitNode (xorNode : TXorNode) (state : State) : Result State :=
  match xorKind xorNode with
  | Ast.EachExpression => inspectEachExpression state xorNode
  | Ast.FunctionExpression => inspectFunctionExpression state xorNode
  | Ast.IdentifierNode => inspectIdentifier state xorNode
  | Ast.IdentifierExpression => inspectIdentifierExpression state xorNode
  | Ast.InvokeExpression => inspectInvokeExpression state xorNode
  | Ast.LetExpression => inspectLetExpression state xorNode
  | Ast.ListExpression
  | Ast.ListType => inspectListExpressionOrLiteral state xorNode
  | Ast.RecordExpression
  | Ast.RecordLiteral => inspectRecordExpressionOrLiteral state xorNode
  | Ast.RecursivePrimaryExpression =>
      inspectRecursivePrimaryExpression state xorNode
  | Ast.SectionNode => inspectSection state xorNode
  | _ => Ok state
  end.

(** Modelled from the spec: the driver that calls [visitNode] is not among
    the sources; it walks the ancestry from the leaf to the root, invoking
    the visitor on each node. *)
Definition visitAncestry (ancestry : list TXorNode) (state : State)
  : Result State :=
  forEach (fun state xorNode => visitNode xorNode state) state ancestry.

End VisitNode.

(** ** A parsed document: [foo(a, b)] *)

Module FooAB.

Import Inspection.

Definition range (startUnit endUnit : Z) : TokenRange :=
  mkTokenRange 0 0 (mkPosition 0 startUnit) (mkPosition 0 endUnit).

Definition leaf (id : Z) (kind : Ast.NodeKind) (attributeIndex : Z)
    (startUnit endUnit : Z) (text : string) : Ast.TNode :=
  Ast.MkNode id kind (Some attributeIndex) (range startUnit endUnit) true
    (Ast.LiteralFields text).

Definition identifierExpression (id : Z) (attributeIndex : Z)
    (identifier : Ast.TNode) : Ast.TNode :=
  Ast.MkNode id Ast.IdentifierExpression (Some attributeIndex)
    (Ast.tokenRange identifier) false
    (Ast.IdentifierExpressionFields None identifier).

Definition fooIdentifier := leaf 3 Ast.IdentifierNode 1 0 3 "foo".
Definition foo := identifierExpression 2 0 fooIdentifier.
Definition openParenthesis := leaf 7 Ast.Constant 0 3 4 "(".
Definition aIdentifier := leaf 11 Ast.IdentifierNode 1 4 5 "a".
Definition a := identifierExpression 10 0 aIdentifier.
Definition comma := leaf 12 Ast.Constant 1 5 6 ",".
Definition bIdentifier := leaf 15 Ast.IdentifierNode 1 7 8 "b".
Definition b := identifierExpression 14 0 bIdentifier.
Definition closeParenthesis := leaf 17 Ast.Constant 2 8 9 ")".

Definition csvA : Ast.TNode :=
  Ast.MkNode 9 Ast.Csv (Some 0) (range 4 6) false Ast.NoFields.
Definition csvB : Ast.TNode :=
  Ast.MkNode 13 Ast.Csv (Some 1) (range 7 8) false Ast.NoFields.
Definition arguments : Ast.TNode :=
  Ast.MkNode 8 Ast.ArrayWrapper (Some 1) (range 4 8) false Ast.NoFields.
Definition invoke : Ast.TNode :=
  Ast.MkNode 6 Ast.InvokeExpression (Some 0) (range 3 9) false
    (Ast.WrappedFields closeParenthesis).
Definition recursiveExpressions : Ast.TNode :=
  Ast.MkNode 5 Ast.ArrayWrapper (Some 1) (range 3 9) false Ast.NoFields.
Definition root : Ast.TNode :=
  Ast.MkNode 1 Ast.RecursivePrimaryExpression None (range 0 9) false
    Ast.NoFields.

Definition allNodes : list Ast.TNode :=
  [root; foo; fooIdentifier; recursiveExpressions; invoke; openParenthesis;
   arguments; csvA; a; aIdentifier; comma; csvB; b; bIdentifier;
   closeParenthesis].

Definition collection : Collection :=
  {| astNodeById := list_to_map ((fun n => (Ast.id n, n)) <$> allNodes);
     contextNodeById := ∅;
     parentIdById :=
       list_to_map
         [(2, 1); (3, 2); (5, 1); (6, 5); (7, 6); (8, 6); (9, 8); (10, 9);
          (11, 10); (12, 9); (13, 8); (14, 13); (15, 14); (17, 6)];
     childIdsById :=
       list_to_map
         [(1, [2; 5]); (2, [3]); (5, [6]); (6, [7; 8; 17]); (8, [9; 13]);
          (9, [10; 12]); (10, [11]); (13, [14]); (14, [15])] |}.

Definition emptyInspected : Inspected := mkInspected [] [] None.

(** The inspection state for a cursor on line 0 at a code unit. *)
Definition stateAt (codeUnit : Z) : State :=
  mkState collection (mkPosition 0 codeUnit) None emptyInspected.

(** The ancestry of the leaf [a], the closest leaf of a cursor right after
    [a], from the leaf to the root. *)
Definition ancestryOfA : list TXorNode :=
  XorAst <$> [aIdentifier; a; csvA; arguments; invoke; recursiveExpressions;
              root].

End FooAB.

(** ** Parser state: the tests, the error factories and the metadata *)

Module ParserStateChecks.

Import ParseContextUtils IParserStateUtils.

(** [ParseError.TokenWithColumnNumber]. *)
Record TokenWithColumnNumber : Set := mkTokenWithColumnNumber {
  twc_token : Token;
  twc_columnNumber : Z
}.

Inductive CsvContinuationKind : Set :=
| DanglingComma
| LetExpressionContinuation.

(** The error values the tests and the factories build and return (they
    do not throw them), with the arguments each constructor is given. *)
Inductive ReturnedError : Set :=
| ExpectedTokenKindError (templates : string) (expectedTokenKind : TokenKind)
                         (maybeFoundToken : option TokenWithColumnNumber)
| ExpectedAnyTokenKindError (templates : string)
                            (expectedAnyTokenKinds : list TokenKind)
                            (maybeFoundToken : option TokenWithColumnNumber)
| ExpectedCsvContinuationError (templates : string)
                               (kind : CsvContinuationKind)
                               (maybeFoundToken : option TokenWithColumnNumber)
| UnterminatedParenthesesError (templates : string) (token : Token)
                               (positionStart : GraphemePosition)
| UnterminatedBracketError (templates : string) (token : Token)
                           (positionStart : GraphemePosition).

(** [applyState] assigns five fields of [otherState] to [originalState]; the
    templates and the snapshot stay. *)
Definition applyState (originalState otherState : IParserState)
  : IParserState :=
  mkIParserState (localizationTemplates originalState)
    (lexerSnapshot originalState) (tokenIndex otherState)
    (maybeCurrentToken otherState) (maybeCurrentTokenKind otherState)
    (contextState otherState) (maybeCurrentContextNode otherState).

Definition maybeTokenWithColumnNumber (state : IParserState) (tokenIndex : Z)
  : option TokenWithColumnNumber :=
  match arrayGet (tokens (lexerSnapshot state)) tokenIndex with
  | None => None
  | Some currentToken =>
      Some {| twc_token := currentToken;
              twc_columnNumber :=
                columnNumberStartFrom (lexerSnapshot state) currentToken |}
  end.

Definition maybeCurrentTokenWithColumnNumber (state : IParserState)
  : option TokenWithColumnNumber :=
  maybeTokenWithColumnNumber state (tokenIndex state).

Definition testCsvContinuationLetExpression (state : IParserState)
  : option ReturnedError :=
  if bool_decide (maybeCurrentTokenKind state = Some KeywordIn) then
    Some (ExpectedCsvContinuationError (localizationTemplates state)
            LetExpressionContinuation
            (maybeCurrentTokenWithColumnNumber state))
  else None.

Definition testCsvContinuationDanglingComma (state : IParserState)
    (tokenKind : TokenKind) : option ReturnedError :=
  if bool_decide (maybeCurrentTokenKind state = Some tokenKind) then
    Some (ExpectedCsvContinuationError (localizationTemplates state)
            DanglingComma (maybeCurrentTokenWithColumnNumber state))
  else None.

Definition testIsOnTokenKind (state : IParserState)
    (expectedTokenKind : TokenKind) : option ReturnedError :=
  if bool_decide (Some expectedTokenKind ≠ maybeCurrentTokenKind state) then
    let maybeToken := maybeCurrentTokenWithColumnNumber state in
    Some (ExpectedTokenKindError (localizationTemplates state)
            expectedTokenKind maybeToken)
  else None.

(** [array.indexOf(x) === -1]. *)
Definition notIndexOf {A : Type} `{EqDecision A} (xs : list A) (x : A)
  : bool :=
  bool_decide (x ∉ xs).

Definition testIsOnAnyTokenKind (state : IParserState)
    (expectedAnyTokenKinds : list TokenKind) : option ReturnedError :=
  let isError :=
    match maybeCurrentTokenKind state with
    | None => true
    | Some currentTokenKind => notIndexOf expectedAnyTokenKinds currentTokenKind
    end in
  if isError then
    let maybeToken := maybeCurrentTokenWithColumnNumber state in
    Some (ExpectedAnyTokenKindError (localizationTemplates state)
            expectedAnyTokenKinds maybeToken)
  else None.

(** [Assert.isUndefined(state.maybeCurrentContextNode)]. *)
Definition assertNoOpenContext (state : IParserState) : Result unit :=
  match maybeCurrentContextNode state with
  | None => Ok tt
  | Some _ => Err (AssertionError "maybeValue")
  end.

Definition unterminatedParenthesesError (state : IParserState)
  : Result ReturnedError :=
  token ← assertTokenAt state (tokenIndex state);
  Ok (UnterminatedParenthesesError (localizationTemplates state) token
        (graphemePositionStartFrom (lexerSnapshot state) token)).

Definition unterminatedBracketError (state : IParserState)
  : Result ReturnedError :=
  token ← assertTokenAt state (tokenIndex state);
  Ok (UnterminatedBracketError (localizationTemplates state) token
        (graphemePositionStartFrom (lexerSnapshot state) token)).

(** [isOnConstantKind]: a constant kind is the text of the constant.  The
    data of a token is always present here, so the invariant error for a
    token without data is raised only if the token itself is missing, which
    [isOnTokenKind] has excluded. *)
Definition isOnConstantKind (state : IParserState) (constantKind : string)
  : Result bool :=
  if isOnTokenKind state Identifier None then
    match arrayGet (tokens (lexerSnapshot state)) (tokenIndex state) with
    | None => Err (InvariantError "expected data on Token")
    | Some currentToken =>
        Ok (bool_decide (tok_data currentToken = constantKind))
    end
  else Ok false.

Record ContextNodeMetadata : Set := mkContextNodeMetadata {
  md_id : Z;
  md_maybeAttributeIndex : option Z;
  md_tokenRange : TokenRange
}.

Definition assertContextNodeMetadata (state : IParserState)
  : Result ContextNodeMetadata :=
  currentContextNode ←
    assertIsDefined (maybeCurrentContextNode state) "maybeValue";
  tokenStart ←
    assertIsDefined (ParseContext.maybeTokenStart currentContextNode)
      "maybeValue";
  let tokenIndexEnd := tokenIndex state - 1 in
  tokenEnd ←
    assertIsDefined (arrayGet (tokens (lexerSnapshot state)) tokenIndexEnd)
      "maybeValue";
  let tokenRange :=
    {| tokenIndexStart := ParseContext.tokenIndexStart currentContextNode;
       tokenIndexEnd := tokenIndexEnd;
       positionStart := tok_positionStart tokenStart;
       positionEnd := tok_positionEnd tokenEnd |} in
  Ok {| md_id := ParseContext.id currentContextNode;
        md_maybeAttributeIndex :=
          ParseContext.maybeAttributeIndex currentContextNode;
        md_tokenRange := tokenRange |}.

End ParserStateChecks.

(** ** Ancestry of a node *)

Module AncestryUtils.

Import NodeIdMapUtils NodeIdMapIterator.

(** The loop of [assertAncestry]: [while (maybeParentId)] follows
    [parentIdById] for as long as the parent id is truthy.  The loop does
    not end on a cyclic map, so the model counts its iterations down from
    [fuel] and is [None] when they run out. *)
Fixpoint parentChain (fuel : nat) (c : Collection) (maybeParentId : option Z)
  : option (list Z) :=
  match IParserStateUtils.truthy maybeParentId with
  | None => Some []
  | Some parentId =>
      match fuel with
      | O => None
      | S fuel' =>
          cons parentId <$> parentChain fuel' c (parentIdById c !! parentId)
      end
  end.

Definition ancestryIds (fuel : nat) (c : Collection) (rootId : Z)
  : option (list Z) :=
  cons rootId <$> parentChain fuel c (parentIdById c !! rootId).

Definition assertAncestry (fuel : nat) (c : Collection) (rootId : Z)
  : option (Result (list TXorNode)) :=
  assertIterXor c <$> ancestryIds fuel c rootId.

Definition assertLeaf (ancestry : list TXorNode) : Result TXorNode :=
  assertIsDefined (arrayGet ancestry 0) "maybeValue".

(** [Assert.isTrue(ancestry.length > 0)], then the last element. *)
Definition assertRoot (ancestry : list TXorNode) : Result TXorNode :=
  if arrayLength ancestry >? 0 then
    assertIsDefined (arrayGet ancestry (arrayLength ancestry - 1))
      "ancestry.length > 0"
  else Err (AssertionError "ancestry.length > 0").

(** The filter both [maybeNth...Xor] functions apply to the node they
    found. *)
Definition allowedOrUndefined (maybeXorNode : option TXorNode)
    (maybeAllowedNodeKinds : option (list Ast.NodeKind)) : option TXorNode :=
  match maybeXorNode, maybeAllowedNodeKinds with
  | Some xorNode, Some allowedNodeKinds =>
      if bool_decide (xorKind xorNode ∉ allowedNodeKinds) then None
      else Some xorNode
  | _, _ => maybeXorNode
  end.

(** The parameter [n] has the default 1: [None] takes it. *)
Definition maybeNthPreviousXor (ancestry : list TXorNode) (ancestryIndex : Z)
    (maybeN : option Z) (maybeAllowedNodeKinds : option (list Ast.NodeKind))
  : option TXorNode :=
  let n := default 1 maybeN in
  allowedOrUndefined (arrayGet ancestry (ancestryIndex - n))
    maybeAllowedNodeKinds.

Definition maybeNthNextXor (ancestry : list TXorNode) (ancestryIndex : Z)
    (maybeN : option Z) (maybeAllowedNodeKinds : option (list Ast.NodeKind))
  : option TXorNode :=
  let n := default 1 maybeN in
  allowedOrUndefined (arrayGet ancestry (ancestryIndex + n))
    maybeAllowedNodeKinds.

Definition maybeNextXor (ancestry : list TXorNode) (ancestryIndex : Z)
    (maybeAllowedNodeKinds : option (list Ast.NodeKind)) : option TXorNode :=
  maybeNthNextXor ancestry ancestryIndex (Some 1) maybeAllowedNodeKinds.

Definition maybePreviousXor (ancestry : list TXorNode) (ancestryIndex : Z)
    (maybeAllowedNodeKinds : option (list Ast.NodeKind)) : option TXorNode :=
  maybeNthPreviousXor ancestry ancestryIndex (Some 1) maybeAllowedNodeKinds.

Definition assertNthNextXor (ancestry : list TXorNode) (ancestryIndex : Z)
    (maybeN : option Z) (maybeAllowedNodeKinds : option (list Ast.NodeKind))
  : Result TXorNode :=
  assertIsDefined
    (maybeNthNextXor ancestry ancestryIndex (Some (default 1 maybeN))
       maybeAllowedNodeKinds)
    "no next node".

Definition assertNextXor (ancestry : list TXorNode) (ancestryIndex : Z)
    (maybeAllowedNodeKinds : option (list Ast.NodeKind)) : Result TXorNode :=
  assertNthNextXor ancestry ancestryIndex (Some 1) maybeAllowedNodeKinds.

(** [XorNodeUtils.assertAnyAstNodeKind], which is not among the sources,
    read by its name and its use: it throws unless the node's kind is one of
    the allowed kinds. *)
Definition assertAnyAstNodeKind (xorNode : TXorNode)
    (allowedNodeKinds : list Ast.NodeKind) : Result unit :=
  if bool_decide (xorKind xorNode ∈ allowedNodeKinds) then Ok tt
  else Err (AssertionError "incorrect Ast.NodeKind").

(** [assertNthPreviousXor] looks the node up without the allowed kinds and
    asserts them afterwards. *)
Definition assertNthPreviousXor (ancestry : list TXorNode) (ancestryIndex : Z)
    (maybeN : option Z) (maybeAllowedNodeKinds : option (list Ast.NodeKind))
  : Result TXorNode :=
  xorNode ← assertIsDefined
              (maybeNthPreviousXor ancestry ancestryIndex
                 (Some (default 1 maybeN)) None)
              "no previous node";
  _ ← match maybeAllowedNodeKinds with
      | Some allowedNodeKinds => assertAnyAstNodeKind xorNode allowedNodeKinds
      | None => Ok tt
      end;
  Ok xorNode.

Definition assertPreviousXor (ancestry : list TXorNode) (ancestryIndex : Z)
    (maybeAllowedNodeKinds : option (list Ast.NodeKind)) : Result TXorNode :=
  assertNthPreviousXor ancestry ancestryIndex (Some 1) maybeAllowedNodeKinds.

End AncestryUtils.

(** ** Iteration over AST children *)

Module AstChildren.

Import NodeIdMapUtils NodeIdMapIterator.

(** Modelled from the spec: [NodeIdMapUtils.assertAst] is not among the
    sources; the AST node stored under an id, asserted to exist. *)
Definition assertAst (astNodeById : gmap Z Ast.TNode) (nodeId : Z)
  : Result Ast.TNode :=
  assertIsDefined (astNodeById !! nodeId) "nodeId wasn't an astNode".

(** [childIds.map(childId => assertAst(astNodeById, childId))]. *)
Fixpoint assertAsts (astNodeById : gmap Z Ast.TNode) (childIds : list Z)
  : Result (list Ast.TNode) :=
  match childIds with
  | [] => Ok []
  | childId :: rest =>
      astNode ← assertAst astNodeById childId;
      astNodes ← assertAsts astNodeById rest;
      Ok (astNode :: astNodes)
  end.

Definition assertIterChildrenAst (c : Collection) (parentId : Z)
  : Result (list Ast.TNode) :=
  childIds ← assertIterChildIds (childIdsById c) parentId;
  assertAsts (astNodeById c) childIds.

Definition maybeIterChildrenAst (c : Collection) (parentId : Z)
  : Result (option (list Ast.TNode)) :=
  match childIdsById c !! parentId with
  | None => Ok None
  | Some childIds =>
      astNodes ← assertAsts (astNodeById c) childIds;
      Ok (Some astNodes)
  end.

End AstChildren.

(** ** Parser state: what a read does to it *)

Module ParserReads.

Import ParseContextUtils IParserStateUtils.

Definition withContext (state : IParserState) (contextState' : State)
    (maybeCurrentContextNode' : option ParseContext.Node) : IParserState :=
  mkIParserState (localizationTemplates state) (lexerSnapshot state)
    (tokenIndex state) (maybeCurrentToken state)
    (maybeCurrentTokenKind state) contextState' maybeCurrentContextNode'.

Definition startContext (state : IParserState) (nodeKind : Ast.NodeKind)
  : IParserState :=
  let started :=
    ParseContextUtils.startContext (contextState state) nodeKind
      (tokenIndex state) (maybeCurrentToken state)
      (maybeCurrentContextNode state) in
  let newContextNode := started.2 in
  withContext state started.1 (Some newContextNode).

Definition endContext (state : IParserState) (astNode : Ast.TNode)
  : Result IParserState :=
  currentContextNode ←
    assertIsDefined (maybeCurrentContextNode state)
      "can't end a context if one doesn't exist";
  let ended :=
    ParseContextUtils.endContext (contextState state) currentContextNode
      astNode in
  let maybeParentOfContextNode := ended.2 in
  Ok (withContext state ended.1 maybeParentOfContextNode).








End ParserReads.

(** ** The specification's side of the statements *)

Module Spec.

Import ParseContextUtils IParserStateUtils.

(** The keywords the specification enumerates for the start of a
    generalized identifier: and, as, each, else, error, false, if, in, is,
    let, meta, not, or, otherwise, section, shared, then, true, try,
    type. *)
Definition generalizedIdentifierKeywords : list TokenKind :=
  [KeywordAnd; KeywordAs; KeywordEach; KeywordElse; KeywordError;
   KeywordFalse; KeywordIf; KeywordIn; KeywordIs; KeywordLet; KeywordMeta;
   KeywordNot; KeywordOr; KeywordOtherwise; KeywordSection; KeywordShared;
   KeywordThen; KeywordTrue; KeywordTry; KeywordType].

(** The hash-keywords it enumerates: #binary, #date, #datetime,
    #datetimezone, #duration, #infinity, #nan, #sections, #shared, #table,
    #time. *)
Definition generalizedIdentifierHashKeywords : list TokenKind :=
  [KeywordHashBinary; KeywordHashDate; KeywordHashDateTime;
   KeywordHashDateTimeZone; KeywordHashDuration; KeywordHashInfinity;
   KeywordHashNan; KeywordHashSections; KeywordHashShared; KeywordHashTable;
   KeywordHashTime].

Definition generalizedIdentifierStartKinds : list TokenKind :=
  Identifier
    :: generalizedIdentifierKeywords ++ generalizedIdentifierHashKeywords.

(** [assertNoMoreTokens] as the specification words it: it returns exactly
    when the token index is the number of tokens, and otherwise raises
    UnusedTokensRemainError with the token at the index and that token's
    grapheme position. *)
Definition assertNoMoreTokensContract (state : IParserState) : Prop :=
  (assertNoMoreTokens state = Ok tt
   <-> tokenIndex state = arrayLength (tokens (lexerSnapshot state)))
  /\ (tokenIndex state <> arrayLength (tokens (lexerSnapshot state)) ->
      exists token,
        arrayGet (tokens (lexerSnapshot state)) (tokenIndex state)
        = Some token
        /\ assertNoMoreTokens state
           = Err (ParseException
                    (ParseError.UnusedTokensRemainError
                       (localizationTemplates state) token
                       (graphemePositionStartFrom (lexerSnapshot state)
                          token)))).



(** The node maps and the counter of the context state that
    [applyFastStateBackup] leaves: exactly the nodes with an id greater
    than the backup's counter are gone. *)
Definition deltaDeleted (state : IParserState) (backup : FastStateBackup)
    (restored : IParserState) : Prop :=
  let before := nodeIdMapCollection (contextState state) in
  let after := nodeIdMapCollection (contextState restored) in
  tokenIndex restored = backup_tokenIndex backup
  /\ idCounter (contextState restored) = contextStateIdCounter backup
  /\ forall nodeId,
       astNodeById after !! nodeId
       = (if decide (nodeId > contextStateIdCounter backup) then None
          else astNodeById before !! nodeId)
       /\ contextNodeById after !! nodeId
          = (if decide (nodeId > contextStateIdCounter backup) then None
             else contextNodeById before !! nodeId).



End Spec.

(** ** Parser states used as examples *)

Module Examples.

Import ParseContextUtils IParserStateUtils.

Definition noGraphemes (token : Token) : GraphemePosition :=
  mkGraphemePosition (lineNumber (tok_positionStart token))
    (lineCodeUnit (tok_positionStart token))
    (lineCodeUnit (tok_positionStart token)).

Definition snapshotOf (tokens : list Token) : LexerSnapshot :=
  mkLexerSnapshot tokens noGraphemes
    (fun token => lineCodeUnit (tok_positionStart token)).

Definition tokenAt (kind : TokenKind) (text : string) (startUnit : Z)
  : Token :=
  mkToken kind text (mkPosition 0 startUnit)
    (mkPosition 0 (startUnit + Z.of_nat (String.length text))).

Definition emptyCollection : Collection := mkCollection ∅ ∅ ∅ ∅.

(** A state over a token sequence, with no node and no open context. *)
Definition stateOver (tokens : list Token) (tokenIndex : Z) : IParserState :=
  mkIParserState "en-US" (snapshotOf tokens) tokenIndex
    (arrayGet tokens tokenIndex) (tok_kind <$> arrayGet tokens tokenIndex)
    (mkState emptyCollection 0) None.

(** The tokens of [1 2]. *)
Definition oneTwo : list Token :=
  [tokenAt (OtherTokenKind "NumericLiteral") "1" 0;
   tokenAt (OtherTokenKind "NumericLiteral") "2" 2].

(** The tokens of [{ 1 2]. *)
Definition brace : Token := tokenAt LeftBrace "{" 0.

Definition braceOneTwo : list Token :=
  [brace;
   tokenAt (OtherTokenKind "NumericLiteral") "1" 2;
   tokenAt (OtherTokenKind "NumericLiteral") "2" 4].

Definition contextNode (id : Z) (kind : Ast.NodeKind)
    (maybeAttributeIndex : option Z) (maybeTokenStart : option Token)
    (attributeCounter : Z) (maybeParentId : option Z) : ParseContext.Node :=
  ParseContext.mkNode id kind maybeAttributeIndex maybeTokenStart 0
    attributeCounter maybeParentId.

Definition literalAt (id : Z) (attributeIndex : Z) (startUnit : Z)
    (text : string) : Ast.TNode :=
  Ast.MkNode id (Ast.OtherNodeKind "LiteralExpression") (Some attributeIndex)
    (mkTokenRange 0 0 (mkPosition 0 startUnit)
       (mkPosition 0 (startUnit + Z.of_nat (String.length text))))
    true (Ast.LiteralFields text).

(** Node 8: a list expression of which the opening brace is read, with no
    leaf below it yet. *)
Definition list8 : ParseContext.Node :=
  contextNode 8 Ast.ListExpression None (Some brace) 0 None.

(** The parse of [{ 1 2] right after the brace: node 8 is the open context
    and the counter is 8. *)
Definition atList8 : IParserState :=
  mkIParserState "en-US" (snapshotOf braceOneTwo) 1 (arrayGet braceOneTwo 1)
    (tok_kind <$> arrayGet braceOneTwo 1)
    (mkState (mkCollection ∅ {[ 8 := list8 ]} ∅ ∅) 8)
    (Some list8).

(** The same parse two reads later: the literals 9 and 10 are children of
    node 8, the counter is 10, all tokens are consumed. *)
Definition afterTwoReads : IParserState :=
  mkIParserState "en-US" (snapshotOf braceOneTwo) 3 None None
    (mkState
       (mkCollection {[ 9 := literalAt 9 0 2 "1"; 10 := literalAt 10 1 4 "2" ]}
          {[ 8 := list8 ]}
          {[ 9 := 8; 10 := 8 ]}
          {[ 8 := [9; 10] ]})
       10)
    (Some list8).




(** A context opened at the end of the tokens: it has no start token. *)
Definition unstarted : ParseContext.Node :=
  contextNode 11 (Ast.OtherNodeKind "LiteralExpression") (Some 2) None 0
    (Some 8).

(** A collection in which no node has a leaf below it. *)
Definition noLeaf (c : Collection) (nodeId : Z) : option Ast.TNode := None.



End Examples.

(** ** A parameter: [optional x as number] *)

Module ParameterExample.

Import Type_ InspectType.

(** [optional x as number]: the parameter node 1 with its [optional]
    constant, its name and its type. *)
Definition optionalConstant : Ast.TNode :=
  FooAB.leaf 2 Ast.Constant 0 0 8 "optional".
Definition parameter : Ast.TNode :=
  Ast.MkNode 1 Ast.ParameterNode (Some 0) (FooAB.range 0 20) false
    Ast.NoFields.

Definition collection : Collection :=
  {| astNodeById := {[ 1 := parameter; 2 := optionalConstant ]};
     contextNodeById := ∅;
     parentIdById := {[ 2 := 1 ]};
     childIdsById := {[ 1 := [2] ]} |}.

Definition state : InspectTypeState :=
  mkInspectTypeState (mkCommonSettings "en-US") ∅ ∅ collection [2] ∅.

Definition number : TType := MkType NumberKind None false.

Definition declaredNumber (state : InspectTypeState) (xorNode : TXorNode)
    (attributeIndex : Z) : Result TType :=
  Ok number.

End ParameterExample.

(** ** Notions the further theorems are stated with *)

Module Properties.

Import ParseContextUtils IParserStateUtils Inspection.

(** The order of positions: by line, then by code unit. *)
Definition positionLe (a b : TokenPosition) : Prop :=
  lineNumber a < lineNumber b
  \/ (lineNumber a = lineNumber b /\ lineCodeUnit a <= lineCodeUnit b).

(** The cached current token of a state is the token at its index. *)
Definition tokenCoherent (state : IParserState) : Prop :=
  maybeCurrentToken state
  = arrayGet (tokens (lexerSnapshot state)) (tokenIndex state)
  /\ maybeCurrentTokenKind state = tok_kind <$> maybeCurrentToken state.

(** Every context node is stored under its own id. *)
Definition contextKeysAreIds (c : Collection) : Prop :=
  forall key contextNode,
    contextNodeById c !! key = Some contextNode ->
    ParseContext.id contextNode = key.

(** Every parent id is non-negative and smaller than the id of its child:
    parents are minted before their children. *)
Definition parentsAreOlder (c : Collection) : Prop :=
  forall childId parentId,
    parentIdById c !! childId = Some parentId -> 0 <= parentId < childId.

Definition scopeKeys (state : State) : list string :=
  (scope (result state)).*1.

(** A reported invoke expression names an argument that exists, or 0 when
    there is none. *)
Definition argumentIndexInRange (node : TNode) : Prop :=
  match node with
  | InvokeExpressionNode _ _ _ (Some arguments) =>
      0 <= positionArgumentIndex arguments
      < Z.max 1 (numArguments arguments)
  | _ => True
  end.

(** What an inspector may do to the inspection state: append to the scope
    and to the reported nodes, and assign the position identifier once. *)
Record onlyAppends (before after : State) : Prop := {
  same_collection : nodeIdMapCollection after = nodeIdMapCollection before;
  same_position : position after = position before;
  same_cursor_identifier :
    maybePositionIdentifier after = maybePositionIdentifier before;
  scope_grows : scope (result before) `prefix_of` scope (result after);
  nodes_grow : nodes (result before) `prefix_of` nodes (result after);
  keys_stay_distinct : NoDup (scopeKeys before) -> NoDup (scopeKeys after);
  identifier_assigned_once :
    forall assigned,
      result_maybePositionIdentifier (result before) = Some assigned ->
      result_maybePositionIdentifier (result after) = Some assigned;
  indices_stay_in_range :
    Forall argumentIndexInRange (nodes (result before)) ->
    Forall argumentIndexInRange (nodes (result after))
}.

(** What the loop of [assertAncestry] reads above an id: [ids] are the
    parents met from [maybeParentId] upwards, each one truthy and followed by
    the parent [parentIdById] records for it, up to the first parent that is
    absent or 0. *)
Fixpoint parentsAbove (c : Collection) (maybeParentId : option Z)
    (ids : list Z) : Prop :=
  match ids with
  | [] => truthy maybeParentId = None
  | parentId :: rest =>
      truthy maybeParentId = Some parentId
      /\ parentsAbove c (parentIdById c !! parentId) rest
  end.

(** One turn of the loop of [assertAncestry]: from an id to the parent
    recorded for it, which has to be truthy. *)
Definition parentStep (c : Collection) (childId parentId : Z) : Prop :=
  truthy (parentIdById c !! childId) = Some parentId.

(** A chain of ids from a node to the top of its tree. *)
Definition isParentChain (c : Collection) (ids : list Z) : Prop :=
  match ids with
  | [] => False
  | nodeId :: rest => parentsAbove c (parentIdById c !! nodeId) rest
  end.

End Properties.

(** * Theorems *)

Section ParserState.

Import ParseContextUtils IParserStateUtils Spec Examples.

Lemma arrayGet_Some_bounds {A : Type} (xs : list A) (i : Z) (x : A) :
  arrayGet xs i = Some x -> 0 <= i < arrayLength xs.
Proof.
  unfold arrayGet, arrayLength. intros H.
  destruct (Z.ltb_spec i 0) as [Hneg | Hpos]; [discriminate |].
  apply lookup_lt_Some in H. lia.
Qed.

Lemma arrayGet_in_bounds {A : Type} (xs : list A) (i : Z) :
  0 <= i < arrayLength xs -> exists x, arrayGet xs i = Some x.
Proof.
  unfold arrayGet, arrayLength. intros [Hlo Hhi].
  destruct (Z.ltb_spec i 0) as [Hneg | Hpos]; [lia |].
  destruct (lookup_lt_is_Some_2 xs (Z.to_nat i)) as [x Hx]; [lia |].
  exists x. exact Hx.
Qed.

Lemma arrayGet_out_of_bounds {A : Type} (xs : list A) (i : Z) :
  i < 0 \/ arrayLength xs <= i -> arrayGet xs i = None.
Proof.
  unfold arrayGet, arrayLength. intros H.
  destruct (Z.ltb_spec i 0) as [Hneg | Hpos]; [reflexivity |].
  apply lookup_ge_None. lia.
Qed.

(** C7.  [isOnGeneralizedIdentifierStart] is true exactly when there is a
    token at the index and its kind is Identifier, one of the twenty
    keywords or one of the eleven hash-keywords the specification
    enumerates; for any other kind, and when there is no token at the
    index, it is false. *)
Theorem isOnGeneralizedIdentifierStart_exactly
    (state : IParserState) (maybeTokenIndex : option Z) :
  isOnGeneralizedIdentifierStart state maybeTokenIndex
  = match arrayGet (tokens (lexerSnapshot state))
            (default (tokenIndex state) maybeTokenIndex) with
    | Some token =>
        bool_decide (tok_kind token ∈ generalizedIdentifierStartKinds)
    | None => false
    end.
Proof.
  unfold isOnGeneralizedIdentifierStart.
  destruct (arrayGet _ _) as [token |]; simpl; [| reflexivity].
  destruct (tok_kind token); vm_compute; reflexivity.
Qed.

End ParserState.

Section NoMoreTokens.

Import ParseContextUtils IParserStateUtils Spec Examples.

Lemma assertNoMoreTokens_returns_iff (state : IParserState) :
  assertNoMoreTokens state = Ok tt
  <-> tokenIndex state = arrayLength (tokens (lexerSnapshot state)).
Proof.
  unfold assertNoMoreTokens, assertTokenAt.
  destruct (Z.eqb_spec (tokenIndex state)
              (arrayLength (tokens (lexerSnapshot state)))) as [Heq | Hne].
  - split; [intros _; exact Heq | reflexivity].
  - split; [| intros Heq; contradiction].
    destruct (arrayGet _ _); simpl; discriminate.
Qed.

(** C9, as the specification states it, fails for a state whose token
    index is beyond the last token: with no tokens and the index at 1 the
    call does not return, and what it raises is the assertion of
    [assertTokenAt], not UnusedTokensRemainError. *)
Lemma assertNoMoreTokens_beyond_end :
  assertNoMoreTokens (stateOver [] 1) = Err (AssertionError "maybeToken")
  /\ ~ assertNoMoreTokensContract (stateOver [] 1).
Proof.
  split; [reflexivity |].
  intros [_ Hraise].
  destruct Hraise as [token [Hget _]]; [vm_compute; discriminate |].
  vm_compute in Hget. discriminate.
Qed.

(** C9, amended.  [assertNoMoreTokens] returns normally if and only if the
    token index equals the number of tokens; when there is a token at the
    index it raises UnusedTokensRemainError carrying that token and its
    grapheme position; when the index is neither (negative, or past the
    number of tokens) it raises the assertion of [assertTokenAt]. *)
Theorem assertNoMoreTokens_amended (state : IParserState) :
  (assertNoMoreTokens state = Ok tt
   <-> tokenIndex state = arrayLength (tokens (lexerSnapshot state)))
  /\ (0 <= tokenIndex state < arrayLength (tokens (lexerSnapshot state)) ->
      exists token,
        arrayGet (tokens (lexerSnapshot state)) (tokenIndex state)
        = Some token
        /\ assertNoMoreTokens state
           = Err (ParseException
                    (ParseError.UnusedTokensRemainError
                       (localizationTemplates state) token
                       (graphemePositionStartFrom (lexerSnapshot state)
                          token))))
  /\ (tokenIndex state < 0
      \/ arrayLength (tokens (lexerSnapshot state)) < tokenIndex state ->
      assertNoMoreTokens state = Err (AssertionError "maybeToken")).
Proof.
  split; [apply assertNoMoreTokens_returns_iff |].
  unfold assertNoMoreTokens, assertTokenAt. split.
  - intros Hin. destruct (arrayGet_in_bounds _ _ Hin) as [token Hget].
    exists token. split; [exact Hget |].
    destruct (Z.eqb_spec (tokenIndex state)
                (arrayLength (tokens (lexerSnapshot state)))); [lia |].
    rewrite Hget. reflexivity.
  - intros Hout.
    destruct (Z.eqb_spec (tokenIndex state)
                (arrayLength (tokens (lexerSnapshot state))));
      [unfold arrayLength in *; lia |].
    rewrite arrayGet_out_of_bounds by lia. reflexivity.
Qed.

(** The amended C9 on the tokens of [1 2] with the index on [2]. *)
Lemma assertNoMoreTokens_amended_witness :
  0 <= tokenIndex (stateOver oneTwo 1)
    < arrayLength (tokens (lexerSnapshot (stateOver oneTwo 1)))
  /\ exists token,
       arrayGet oneTwo 1 = Some token
       /\ assertNoMoreTokens (stateOver oneTwo 1)
          = Err (ParseException
                   (ParseError.UnusedTokensRemainError "en-US" token
                      (noGraphemes token))).
Proof.
  split; [vm_compute; split; [discriminate | reflexivity] |].
  apply (proj1 (proj2 (assertNoMoreTokens_amended (stateOver oneTwo 1)))).
  vm_compute. split; [discriminate | reflexivity].
Defined.

End NoMoreTokens.

Section TypeCacheOrientation.

Import InspectType TypeTasks.

(** C5.  With a type cache supplied, the state [tryType] inspects with has
    its [givenTypeById] from the cache's [scopeById] and its [scopeById]
    from the cache's [typeById]; the state of [tryScopeType] has
    [givenTypeById] from [typeById] and [scopeById] from [scopeById]: the
    two are wired the opposite way round. *)
Theorem tryType_cache_fields_swapped
    (assertGetOrCreateScope :
       InspectTypeState -> Z -> Result (InspectTypeState * ScopeItemByKey))
    (getOrFindScopeItemType :
       InspectTypeState -> TScopeItem -> Result (InspectTypeState * CacheValue))
    (inspectXor : InspectTypeState -> TXorNode -> Result Type_.TType)
    (settings : CommonSettings) (c : Collection) (leafNodeIds : list Z)
    (nodeId : Z) (typeCache : TypeCache) :
  let typeState := tryTypeState settings c leafNodeIds (Some typeCache) in
  let scopeTypeState :=
    tryScopeTypeState settings c leafNodeIds (Some typeCache) in
  tryType inspectXor settings c leafNodeIds nodeId (Some typeCache)
  = ensureResult (getLocalizationTemplates (locale settings))
      (xorNode ← NodeIdMapUtils.assertXor c nodeId;
       inspectXor typeState xorNode)
  /\ tryScopeType assertGetOrCreateScope getOrFindScopeItemType settings c
       leafNodeIds nodeId (Some typeCache)
     = ensureResult (getLocalizationTemplates (locale settings))
         (inspectScopeType assertGetOrCreateScope getOrFindScopeItemType
            scopeTypeState nodeId)
  /\ givenTypeById typeState = cache_scopeById typeCache
  /\ scopeById typeState = cache_typeById typeCache
  /\ givenTypeById scopeTypeState = cache_typeById typeCache
  /\ scopeById scopeTypeState = cache_scopeById typeCache.
Proof.
  intros typeState scopeTypeState.
  repeat split.
Qed.

End TypeCacheOrientation.

Section NthSibling.

Import NodeIdMapUtils NodeIdMapIterator.

(** Whatever the collection, [maybeNthSiblingXor] never returns a sibling:
    past its guard the index is beyond the child ids. *)
Lemma maybeNthSiblingXor_never_Some (c : Collection) (rootId offset : Z)
    (sibling : TXorNode) :
  maybeNthSiblingXor c rootId offset <> Ok (Some sibling).
Proof.
  unfold maybeNthSiblingXor.
  destruct (assertXor c rootId) as [childXorNode | e]; simpl; [| discriminate].
  destruct (xorAttributeIndex childXorNode) as [nodeAttributeIndex |];
    [| discriminate].
  destruct (Z.ltb_spec (nodeAttributeIndex + offset) 0); [discriminate |].
  destruct (assertParentXor c rootId) as [parentXorNode | e]; simpl;
    [| discriminate].
  destruct (assertIterChildIds _ _) as [childIds | e]; simpl; [| discriminate].
  destruct (Z.geb_spec (arrayLength childIds) (nodeAttributeIndex + offset));
    [discriminate |].
  rewrite arrayGet_out_of_bounds by lia. discriminate.
Qed.

(** C6.  For a node with a defined attribute index whose target index
    (attribute index plus offset) is nonnegative and at most the number of
    the parent's child ids, [maybeNthSiblingXor] returns undefined; and a
    sibling can only be returned when the target index is greater than the
    number of child ids. *)
Theorem maybeNthSiblingXor_rejects_in_bounds
    (c : Collection) (rootId offset : Z) (childXorNode parentXorNode : TXorNode)
    (nodeAttributeIndex : Z) (childIds : list Z) :
  assertXor c rootId = Ok childXorNode ->
  xorAttributeIndex childXorNode = Some nodeAttributeIndex ->
  assertParentXor c rootId = Ok parentXorNode ->
  childIdsById c !! xorId parentXorNode = Some childIds ->
  (0 <= nodeAttributeIndex + offset <= arrayLength childIds ->
   maybeNthSiblingXor c rootId offset = Ok None)
  /\ (forall sibling,
        maybeNthSiblingXor c rootId offset = Ok (Some sibling) ->
        arrayLength childIds < nodeAttributeIndex + offset).
Proof.
  intros Hchild Hindex Hparent Hids. split.
  - intros [Hlo Hhi]. unfold maybeNthSiblingXor.
    rewrite Hchild. simpl. rewrite Hindex.
    destruct (Z.ltb_spec (nodeAttributeIndex + offset) 0); [lia |].
    rewrite Hparent. simpl. unfold assertIterChildIds. rewrite Hids. simpl.
    destruct (Z.geb_spec (arrayLength childIds) (nodeAttributeIndex + offset));
      [reflexivity | lia].
  - intros sibling Hsome.
    exfalso. exact (maybeNthSiblingXor_never_Some c rootId offset sibling Hsome).
Qed.

(** C6 on [foo(a, b)]: the next sibling of the opening parenthesis of the
    invoke expression (attribute index 0, target 1, three children) is the
    argument array, and it is not returned. *)
Lemma maybeNthSiblingXor_rejects_in_bounds_witness :
  maybeXor FooAB.collection 8 = Some (XorAst FooAB.arguments)
  /\ maybeNextSiblingXor FooAB.collection 7 = Ok None.
Proof.
  split; [vm_compute; reflexivity |].
  apply (proj1 (maybeNthSiblingXor_rejects_in_bounds FooAB.collection 7 1
                  (XorAst FooAB.openParenthesis) (XorAst FooAB.invoke) 0
                  [7; 8; 17]
                  ltac:(vm_compute; reflexivity) ltac:(reflexivity)
                  ltac:(vm_compute; reflexivity)
                  ltac:(vm_compute; reflexivity))).
  vm_compute. split; discriminate.
Defined.

End NthSibling.

Section ParameterNullability.

Import NodeIdMapUtils Type_ InspectType.

Variable inspectTypeFromChildAttributeIndex :
  InspectTypeState -> TXorNode -> Z -> Result TType.

(** C8.  For a Parameter node whose declared type (the child at attribute
    index 2) inspects to [parameterType], [inspectTypeParameter] returns
    [parameterType] with [isNullable] replaced by the disjunction of (a)
    the presence of a Constant AST child at attribute index 0, the
    [optional] marker, and (b) [parameterType.isNullable]. *)
Theorem inspectTypeParameter_isNullable
    (state : InspectTypeState) (xorNode : TXorNode) (parameterType : TType) :
  xorKind xorNode = Ast.ParameterNode ->
  inspectTypeFromChildAttributeIndex state xorNode 2 = Ok parameterType ->
  exists type,
    inspectTypeParameter inspectTypeFromChildAttributeIndex state xorNode
    = Ok type
    /\ isNullable type
       = bool_decide
           (is_Some
              (maybeChildAstByAttributeIndex (nodeIdMapCollection state)
                 (xorId xorNode) 0 (Some [Ast.Constant])))
         || isNullable parameterType
    /\ kind type = kind parameterType
    /\ maybeExtendedKind type = maybeExtendedKind parameterType.
Proof.
  intros Hkind Hchild. unfold inspectTypeParameter, assertAstNodeKind.
  rewrite (bool_decide_eq_true_2 (xorKind xorNode = Ast.ParameterNode))
    by exact Hkind.
  simpl.
  rewrite Hchild. simpl. eexists. split; [reflexivity |].
  simpl. repeat split.
  destruct (maybeChildAstByAttributeIndex _ _ _ _) as [constant |].
  - rewrite !bool_decide_eq_true_2; [reflexivity | eauto | discriminate].
  - rewrite !bool_decide_eq_false_2; [reflexivity | | auto].
    intros [x Hx]. discriminate.
Qed.

End ParameterNullability.

Section ParameterNullabilityWitness.

Import Type_ InspectType.

(** C8 on [optional x as number]: the declared type is not nullable, the
    parameter's type is. *)
Lemma inspectTypeParameter_isNullable_witness :
  exists type,
    inspectTypeParameter ParameterExample.declaredNumber
      ParameterExample.state (XorAst ParameterExample.parameter) = Ok type
    /\ isNullable type
       = bool_decide
           (is_Some
              (NodeIdMapUtils.maybeChildAstByAttributeIndex
                 ParameterExample.collection 1 0 (Some [Ast.Constant])))
         || isNullable ParameterExample.number
    /\ kind type = NumberKind
    /\ maybeExtendedKind type = None.
Proof.
  apply (inspectTypeParameter_isNullable ParameterExample.declaredNumber
           ParameterExample.state (XorAst ParameterExample.parameter)
           ParameterExample.number);
    reflexivity.
Defined.

End ParameterNullabilityWitness.

Section ContextWithoutLeaf.

Import PositionUtils Examples.

(** C4, as the specification states it, fails for a context node that has
    a start token: a list expression of which only the opening brace at
    0:0-0:1 is read has no right-most leaf, the cursor at 1:0 is at or
    after its start, and still the cursor is after the node and not in
    it. *)
Lemma isAfterXorNode_opened_list :
  noLeaf emptyCollection (ParseContext.id list8) = None
  /\ isBeforeXorNode (mkPosition 1 0) (XorContext list8) true = false
  /\ isAfterXorNode noLeaf (mkPosition 1 0) emptyCollection
       (XorContext list8) true = true
  /\ isInXorNode noLeaf (mkPosition 1 0) emptyCollection
       (XorContext list8) true true = false.
Proof. repeat split. Qed.

Variable maybeRightMostLeaf : Collection -> Z -> option Ast.TNode.

(** C4, amended.  For a context node whose right-most leaf is absent and
    any cursor position: when the node has no start token either,
    [isAfterXorNode] returns false and [isInXorNode] returns true; when it
    has a start token, the node is taken to end where that token ends:
    [isAfterXorNode] is [isAfterTokenPosition] against the token's end, and
    [isInXorNode] is [isInToken] of the start token. *)
Theorem context_node_without_leaf
    (position : Position) (c : Collection) (contextNode : ParseContext.Node)
    (isLowerBoundIncluded isUpperBoundIncluded : bool) :
  maybeRightMostLeaf c (ParseContext.id contextNode) = None ->
  match ParseContext.maybeTokenStart contextNode with
  | None =>
      isAfterXorNode maybeRightMostLeaf position c (XorContext contextNode)
        isUpperBoundIncluded = false
      /\ isInXorNode maybeRightMostLeaf position c (XorContext contextNode)
           isLowerBoundIncluded isUpperBoundIncluded = true
  | Some tokenStart =>
      isAfterXorNode maybeRightMostLeaf position c (XorContext contextNode)
        isUpperBoundIncluded
      = isAfterTokenPosition position (tok_positionEnd tokenStart)
          isUpperBoundIncluded
      /\ isInXorNode maybeRightMostLeaf position c (XorContext contextNode)
           isLowerBoundIncluded isUpperBoundIncluded
         = isInToken position tokenStart isLowerBoundIncluded
             isUpperBoundIncluded
  end.
Proof.
  intros Hleaf. simpl.
  unfold isInContextNode, isAfterContextNode, isBeforeContextNode, isInToken.
  rewrite Hleaf.
  destruct (ParseContext.maybeTokenStart contextNode) as [tokenStart |];
    split; reflexivity.
Qed.

End ContextWithoutLeaf.

Section ContextWithoutLeafWitness.

Import PositionUtils Examples.

(** The amended C4 on a context node with neither a leaf nor a start
    token, and on the list expression of which only the brace is read. *)
Lemma context_node_without_leaf_witness :
  (isAfterXorNode noLeaf (mkPosition 1 0) emptyCollection (XorContext unstarted)
     true = false
   /\ isInXorNode noLeaf (mkPosition 1 0) emptyCollection (XorContext unstarted)
        true true = true)
  /\ (isAfterXorNode noLeaf (mkPosition 0 1) emptyCollection
        (XorContext list8) true = false
      /\ isInXorNode noLeaf (mkPosition 0 1) emptyCollection
           (XorContext list8) true true = true).
Proof.
  split.
  - exact (context_node_without_leaf noLeaf (mkPosition 1 0) emptyCollection
             unstarted true true eq_refl).
  - exact (context_node_without_leaf noLeaf (mkPosition 0 1) emptyCollection
             list8 true true eq_refl).
Defined.

End ContextWithoutLeafWitness.

Section DefaultSort.

Import JsArray IParserStateUtils.

Lemma string_compare_Lt_trans (s1 s2 s3 : string) :
  String.compare s1 s2 = Lt -> String.compare s2 s3 = Lt ->
  String.compare s1 s3 = Lt.
Proof.
  revert s2 s3. induction s1 as [| a s1 IH]; intros [| b s2] [| c s3]; simpl;
    try discriminate; try reflexivity.
  unfold Ascii.compare.
  destruct (N.compare_spec (N_of_ascii a) (N_of_ascii b)) as [Hab | Hab | Hab];
    destruct (N.compare_spec (N_of_ascii b) (N_of_ascii c)) as [Hbc | Hbc | Hbc];
    try discriminate; intros H12 H23.
  - rewrite Hab, Hbc, N.compare_refl. eauto.
  - rewrite Hab. rewrite (proj2 (N.compare_lt_iff _ _) Hbc). reflexivity.
  - rewrite <- Hbc. rewrite (proj2 (N.compare_lt_iff _ _) Hab). reflexivity.
  - rewrite (proj2 (N.compare_lt_iff _ _)) by lia. reflexivity.
Qed.

Lemma string_leb_trans (s1 s2 s3 : string) :
  String.leb s1 s2 = true -> String.leb s2 s3 = true ->
  String.leb s1 s3 = true.
Proof.
  unfold String.leb.
  destruct (String.compare s1 s2) eqn:H12; try discriminate;
    destruct (String.compare s2 s3) eqn:H23; try discriminate; intros _ _.
  - apply String.compare_eq_iff in H12 as ->. rewrite H23. reflexivity.
  - apply String.compare_eq_iff in H12 as ->. rewrite H23. reflexivity.
  - apply String.compare_eq_iff in H23 as <-. rewrite H12. reflexivity.
  - rewrite (string_compare_Lt_trans _ _ _ H12 H23). reflexivity.
Qed.

(** Two integers that print the same are the same. *)
Lemma numberToString_inj (a b : Z) :
  numberToString a = numberToString b -> a = b.
Proof.
  unfold numberToString. intros Heq.
  assert (Hread : forall z,
             NilZero.int_of_string (NilZero.string_of_int (Z.to_int z))
             = Some (Z.to_int z)).
  { intros z. apply NilZero.isi; destruct z as [| p | p]; simpl;
      try discriminate; intros [= Hnil];
      exact (DecimalPos.Unsigned.to_uint_nonnil p Hnil). }
  apply (f_equal NilZero.int_of_string) in Heq. rewrite !Hread in Heq.
  rewrite <- (DecimalZ.of_to a), <- (DecimalZ.of_to b). congruence.
Qed.

#[local] Instance defaultLe_trans : Transitive defaultLe.
Proof. intros a b c. apply string_leb_trans. Qed.

#[local] Instance defaultLe_total : Total defaultLe.
Proof. intros a b. apply String.leb_total. Qed.

#[local] Instance defaultLe_antisym : AntiSymm (=) defaultLe.
Proof.
  intros a b Hab Hba. apply numberToString_inj.
  apply String.leb_antisym; assumption.
Qed.

(** The result of [sort()] on ids does not depend on the order the ids
    come in. *)
Lemma sort_Permutation (xs ys : list Z) :
  xs ≡ₚ ys -> sort xs = sort ys.
Proof.
  intros Hperm. unfold sort.
  apply (Sorted_unique defaultLe);
    [apply Sorted_merge_sort, _ | apply Sorted_merge_sort, _ |].
  rewrite !merge_sort_Permutation. exact Hperm.
Qed.

(** So the ids [applyFastStateBackup] deletes, and their order, are the same
    for every order in which the keys of the Map are iterated. *)
Lemma deletionOrder_of_any_iteration {V : Type} (nodeById : gmap Z V)
    (backupIdCounter : Z) (keys : list Z) :
  keys ≡ₚ (map_to_list nodeById).*1 ->
  deletionOrder (filter (fun nodeId => nodeId > backupIdCounter) keys)
  = deletionOrder (newNodeIds nodeById backupIdCounter).
Proof.
  intros Hperm. unfold deletionOrder, newNodeIds.
  f_equal. apply sort_Permutation. rewrite Hperm. reflexivity.
Qed.

End DefaultSort.

Section FastStateBackup.

Import ParseContextUtils IParserStateUtils Spec Examples.

(** *** The ids the restore deletes *)

Lemma elem_of_deletionOrder (nodeIds : list Z) (nodeId : Z) :
  nodeId ∈ deletionOrder nodeIds <-> nodeId ∈ nodeIds.
Proof.
  unfold deletionOrder, JsArray.sort.
  rewrite elem_of_reverse, merge_sort_Permutation. reflexivity.
Qed.

Lemma elem_of_newNodeIds {V : Type} (nodeById : gmap Z V)
    (backupIdCounter nodeId : Z) :
  nodeId ∈ newNodeIds nodeById backupIdCounter
  <-> nodeId > backupIdCounter /\ is_Some (nodeById !! nodeId).
Proof.
  unfold newNodeIds. rewrite list_elem_of_filter, list_elem_of_fmap.
  split.
  - intros [Hgt [[k v] [-> Hin]]]. apply elem_of_map_to_list in Hin.
    simpl in *. eauto.
  - intros [Hgt [v Hv]]. split; [exact Hgt |].
    exists (nodeId, v). split; [reflexivity |].
    apply elem_of_map_to_list. exact Hv.
Qed.

(** *** What one deletion changes *)

Lemma unlinkFromParent_nodes (c : Collection) (nodeId : Z) :
  astNodeById (unlinkFromParent c nodeId) = astNodeById c
  /\ contextNodeById (unlinkFromParent c nodeId) = contextNodeById c
  /\ parentIdById (unlinkFromParent c nodeId) = parentIdById c.
Proof.
  unfold unlinkFromParent. destruct (parentIdById c !! nodeId); auto.
Qed.

Lemma deleteNewAst_effect (backupIdCounter : Z) (contextState : State)
    (nodeId : Z) :
  let after := deleteNewAst backupIdCounter contextState nodeId in
  astNodeById (nodeIdMapCollection after)
  = delete nodeId (astNodeById (nodeIdMapCollection contextState))
  /\ contextNodeById (nodeIdMapCollection after)
     = contextNodeById (nodeIdMapCollection contextState)
  /\ idCounter after = idCounter contextState.
Proof.
  unfold deleteNewAst, deleteAst. simpl.
  destruct (match parentIdById (nodeIdMapCollection contextState) !! nodeId
            with Some _ => _ | None => _ end); simpl.
  - auto.
  - destruct (unlinkFromParent_nodes (nodeIdMapCollection contextState) nodeId)
      as (-> & -> & _). auto.
Qed.

Lemma deleteNewContext_effect (contextState : State) (nodeId : Z) :
  let after := deleteNewContext contextState nodeId in
  astNodeById (nodeIdMapCollection after)
  = astNodeById (nodeIdMapCollection contextState)
  /\ contextNodeById (nodeIdMapCollection after)
     = delete nodeId (contextNodeById (nodeIdMapCollection contextState))
  /\ idCounter after = idCounter contextState.
Proof.
  unfold deleteNewContext, deleteContext. simpl.
  destruct (unlinkFromParent_nodes (nodeIdMapCollection contextState) nodeId)
    as (-> & -> & _). auto.
Qed.

(** *** What a loop of deletions changes *)

#[local] Arguments deleteNewAst : simpl never.
#[local] Arguments deleteNewContext : simpl never.

Lemma lookup_delete_all {V : Type} (nodeIds : list Z) (nodeById : gmap Z V)
    (nodeId : Z) :
  foldl (fun m deleted => delete deleted m) nodeById nodeIds !! nodeId
  = if decide (nodeId ∈ nodeIds) then None else nodeById !! nodeId.
Proof.
  revert nodeById. induction nodeIds as [| deleted rest IH]; intros nodeById.
  - simpl. destruct (decide (nodeId ∈ [])) as [Hin | _]; [| reflexivity].
    inversion Hin.
  - simpl. rewrite IH.
    destruct (decide (nodeId ∈ rest)) as [Hrest | Hrest].
    + rewrite decide_True by (right; exact Hrest). reflexivity.
    + destruct (decide (nodeId = deleted)) as [-> | Hne].
      * rewrite decide_True by left. apply lookup_delete_eq.
      * rewrite decide_False.
        -- apply lookup_delete_ne. congruence.
        -- intros Hin. inversion Hin; subst; contradiction.
Qed.

Lemma deleteNewAst_loop (backupIdCounter : Z) (nodeIds : list Z)
    (contextState : State) :
  let after := foldl (deleteNewAst backupIdCounter) contextState nodeIds in
  astNodeById (nodeIdMapCollection after)
  = foldl (fun m deleted => delete deleted m)
      (astNodeById (nodeIdMapCollection contextState)) nodeIds
  /\ contextNodeById (nodeIdMapCollection after)
     = contextNodeById (nodeIdMapCollection contextState)
  /\ idCounter after = idCounter contextState.
Proof.
  revert contextState.
  induction nodeIds as [| nodeId rest IH]; intros contextState; simpl.
  - auto.
  - destruct (IH (deleteNewAst backupIdCounter contextState nodeId))
      as (Hast & Hcontext & Hcounter).
    destruct (deleteNewAst_effect backupIdCounter contextState nodeId)
      as (Hast1 & Hcontext1 & Hcounter1).
    cbv zeta in *.
    rewrite Hast, Hcontext, Hcounter, Hast1, Hcontext1, Hcounter1.
    auto.
Qed.

Lemma deleteNewContext_loop (nodeIds : list Z) (contextState : State) :
  let after := foldl deleteNewContext contextState nodeIds in
  astNodeById (nodeIdMapCollection after)
  = astNodeById (nodeIdMapCollection contextState)
  /\ contextNodeById (nodeIdMapCollection after)
     = foldl (fun m deleted => delete deleted m)
         (contextNodeById (nodeIdMapCollection contextState)) nodeIds
  /\ idCounter after = idCounter contextState.
Proof.
  revert contextState.
  induction nodeIds as [| nodeId rest IH]; intros contextState; simpl.
  - auto.
  - destruct (IH (deleteNewContext contextState nodeId))
      as (Hast & Hcontext & Hcounter).
    destruct (deleteNewContext_effect contextState nodeId)
      as (Hast1 & Hcontext1 & Hcounter1).
    cbv zeta in *.
    rewrite Hast, Hcontext, Hcounter, Hast1, Hcontext1, Hcounter1.
    auto.
Qed.

Lemma lookup_after_deletions {V : Type} (nodeById : gmap Z V)
    (backupIdCounter nodeId : Z) :
  foldl (fun m deleted => delete deleted m) nodeById
    (deletionOrder (newNodeIds nodeById backupIdCounter)) !! nodeId
  = if decide (nodeId > backupIdCounter) then None else nodeById !! nodeId.
Proof.
  rewrite lookup_delete_all.
  destruct (decide (nodeId ∈ _)) as [Hin | Hout].
  - apply elem_of_deletionOrder, elem_of_newNodeIds in Hin as [Hgt _].
    rewrite decide_True by exact Hgt. reflexivity.
  - destruct (decide (nodeId > backupIdCounter)) as [Hgt | Hle];
      [| reflexivity].
    destruct (nodeById !! nodeId) as [v |] eqn:Hv; [| reflexivity].
    exfalso. apply Hout.
    apply elem_of_deletionOrder, elem_of_newNodeIds. eauto.
Qed.

(** [applyFastStateBackup] as one context state [restoredContext] that the
    two loops leave, and the rebinding of the current context on top. *)
Lemma applyFastStateBackup_unfold (state : IParserState)
    (backup : FastStateBackup) :
  exists restoredContext : State,
    (forall restored,
       contextState restored = restoredContext ->
       tokenIndex restored = backup_tokenIndex backup ->
       deltaDeleted state backup restored)
    /\ applyFastStateBackup state backup
       = (let restored :=
            mkIParserState (localizationTemplates state)
              (lexerSnapshot state) (backup_tokenIndex backup)
              (arrayGet (tokens (lexerSnapshot state))
                 (backup_tokenIndex backup))
              (tok_kind <$> arrayGet (tokens (lexerSnapshot state))
                              (backup_tokenIndex backup))
              restoredContext in
          match truthy (maybeContextNodeId backup) with
          | Some contextNodeId =>
              contextNode ← NodeIdMapUtils.assertContext
                              (contextNodeById
                                 (nodeIdMapCollection restoredContext))
                              contextNodeId;
              Ok (restored (Some contextNode))
          | None => Ok (restored None)
          end).
Proof.
  unfold applyFastStateBackup, deltaDeleted.
  set (c := nodeIdMapCollection (contextState state)).
  set (k := contextStateIdCounter backup).
  set (cs0 := mkState c k).
  set (cs1 := foldl (deleteNewAst k) cs0
                (deletionOrder (newNodeIds (astNodeById c) k))).
  set (cs2 := foldl deleteNewContext cs1
                (deletionOrder (newNodeIds (contextNodeById c) k))).
  destruct (deleteNewAst_loop k (deletionOrder (newNodeIds (astNodeById c) k))
              cs0) as (Hast1 & Hcontext1 & Hcounter1).
  destruct (deleteNewContext_loop
              (deletionOrder (newNodeIds (contextNodeById c) k)) cs1)
    as (Hast2 & Hcontext2 & Hcounter2).
  fold cs1 in Hast1, Hcontext1, Hcounter1.
  fold cs2 in Hast2, Hcontext2, Hcounter2.
  exists cs2. split; [| reflexivity].
  intros restored -> Htoken. split; [exact Htoken |].
  split; [rewrite Hcounter2, Hcounter1; reflexivity |].
  intros nodeId. rewrite Hast2, Hast1, Hcontext2, Hcontext1. simpl.
  split; apply lookup_after_deletions.
Qed.

(** When [applyFastStateBackup] returns, the nodes with an id greater than
    the backup's counter are deleted and no other, and the current context
    is the context node stored under the backup's id, if that id is
    truthy. *)
Lemma applyFastStateBackup_deltaDeleted (state : IParserState)
    (backup : FastStateBackup) (restored : IParserState) :
  applyFastStateBackup state backup = Ok restored ->
  deltaDeleted state backup restored
  /\ maybeCurrentContextNode restored
     = (contextNodeId ← truthy (maybeContextNodeId backup);
        contextNodeById (nodeIdMapCollection (contextState restored))
          !! contextNodeId).
Proof.
  destruct (applyFastStateBackup_unfold state backup)
    as (restoredContext & Hdelta & ->).
  cbv zeta.
  destruct (truthy (maybeContextNodeId backup)) as [contextNodeId |]; simpl.
  - unfold NodeIdMapUtils.assertContext, assertIsDefined.
    destruct (contextNodeById (nodeIdMapCollection restoredContext)
                !! contextNodeId) as [contextNode |] eqn:Hnode; simpl;
      [| discriminate].
    intros [= <-]. simpl. rewrite Hnode.
    split; [apply Hdelta; reflexivity | reflexivity].
  - intros [= <-]. simpl.
    split; [apply Hdelta; reflexivity | reflexivity].
Qed.

End FastStateBackup.

Section RoundTrip.

Import ParseContextUtils IParserStateUtils ParserReads Spec Examples.











(** C3 on the same parse.  The backup is taken at counter 8 with node 8
    open; the reads add the AST nodes 9 and 10 below node 8.  The restore
    deletes node 9 before node 10, because [sort()] orders the ids as the
    strings "10" and "9"; and it leaves both in the child list of node 8,
    because [parentWillBeDeleted] holds for a parent whose id equals the
    counter although only greater ids are deleted. *)
Theorem applyFastStateBackup_order_and_unlink :
  let backup := fastStateBackup atList8 in
  let newAstNodeIds :=
    newNodeIds
      (astNodeById (nodeIdMapCollection (contextState afterTwoReads)))
      (contextStateIdCounter backup) in
  deletionOrder newAstNodeIds = [9; 10]
  /\ parentIdById (nodeIdMapCollection (contextState afterTwoReads)) !! 9
     = Some 8
  /\ exists restored,
       applyFastStateBackup afterTwoReads backup = Ok restored
       /\ astNodeById (nodeIdMapCollection (contextState restored)) = ∅
       /\ contextNodeById (nodeIdMapCollection (contextState restored)) !! 8
          = Some list8
       /\ childIdsById (nodeIdMapCollection (contextState restored)) !! 8
          = Some [9; 10].
Proof.
  cbv zeta. split; [vm_compute; reflexivity |].
  split; [vm_compute; reflexivity |].
  eexists. split; [vm_compute; reflexivity |].
  split; [| split]; vm_compute; reflexivity.
Qed.

End RoundTrip.

Section InvokeExpression.

Import NodeIdMapUtils Inspection VisitNode.

(** C1 on [foo(a, b)] with the cursor right after [a], at 0:5.  The walk
    from the leaf [a] to the root reaches the invoke expression, whose loop
    over the arguments adds every identifier-expression argument to the
    scope without looking at the cursor: the scope ends up with the key
    [b], whose node starts at 0:7, after the cursor. *)
Theorem visitNode_adds_argument_after_cursor :
  exists inspected,
    visitAncestry FooAB.ancestryOfA (FooAB.stateAt 5) = Ok inspected
    /\ position inspected = mkPosition 0 5
    /\ scope (result inspected)
       = [("a", XorAst FooAB.a); ("b", XorAst FooAB.b);
          ("foo", XorAst FooAB.foo)]
    /\ positionStart (Ast.tokenRange FooAB.b) = mkPosition 0 7
    /\ PositionUtils.isBeforeTokenPosition (position inspected)
         (positionStart (Ast.tokenRange FooAB.b)) true = true.
Proof.
  eexists. split; [vm_compute; reflexivity |]. repeat split.
Qed.







End InvokeExpression.

Section Further.

Import ParseContextUtils IParserStateUtils NodeIdMapUtils NodeIdMapIterator.
Import Spec Examples.

(** When [applyFastStateBackup] returns, exactly the nodes with an id
    strictly greater than the backup's counter are deleted: under such an id
    neither node map has an entry, under any other id both have the entry
    they had. *)
Theorem applyFastStateBackup_deletes_exactly_new
    (state : IParserState) (backup : FastStateBackup)
    (restored : IParserState) :
  applyFastStateBackup state backup = Ok restored ->
  forall nodeId,
    astNodeById (nodeIdMapCollection (contextState restored)) !! nodeId
    = (if decide (nodeId > contextStateIdCounter backup) then None
       else astNodeById (nodeIdMapCollection (contextState state)) !! nodeId)
    /\ contextNodeById (nodeIdMapCollection (contextState restored)) !! nodeId
       = (if decide (nodeId > contextStateIdCounter backup) then None
          else contextNodeById (nodeIdMapCollection (contextState state))
                 !! nodeId).
Proof.
  intros Hrestored nodeId.
  apply applyFastStateBackup_deltaDeleted in Hrestored
    as [(_ & _ & Hmaps) _].
  exact (Hmaps nodeId).
Qed.

(** On [{ 1 2] restored to the state after the brace: the literal 9 is
    gone, the list expression 8 is kept. *)
Lemma applyFastStateBackup_deletes_exactly_new_witness :
  exists restored,
    applyFastStateBackup afterTwoReads (fastStateBackup atList8) = Ok restored
    /\ astNodeById (nodeIdMapCollection (contextState restored)) !! 9 = None
    /\ contextNodeById (nodeIdMapCollection (contextState restored)) !! 8
       = Some list8.
Proof.
  destruct (applyFastStateBackup afterTwoReads (fastStateBackup atList8))
    as [restored | e] eqn:Hrestored; [| vm_compute in Hrestored; discriminate].
  exists restored. split; [reflexivity |].
  split.
  - exact (proj1 (applyFastStateBackup_deletes_exactly_new _ _ _ Hrestored 9)).
  - exact (proj2 (applyFastStateBackup_deletes_exactly_new _ _ _ Hrestored 8)).
Defined.

(** [maybeNthSiblingXor] never returns a sibling: whenever it returns, it
    returns undefined. *)
Theorem maybeNthSiblingXor_always_undefined (c : Collection)
    (rootId offset : Z) (result : option TXorNode) :
  maybeNthSiblingXor c rootId offset = Ok result -> result = None.
Proof.
  destruct result as [sibling |]; [| reflexivity].
  intros Hsome. exfalso.
  exact (maybeNthSiblingXor_never_Some c rootId offset sibling Hsome).
Qed.

(** In [foo(a, b)] the first argument's Csv (node 9) has the second
    argument's Csv (node 13) as its next sibling, and it is not returned. *)
Lemma maybeNthSiblingXor_always_undefined_witness :
  maybeXor FooAB.collection 13 = Some (XorAst FooAB.csvB)
  /\ maybeNextSiblingXor FooAB.collection 9 = Ok None.
Proof.
  split; [vm_compute; reflexivity |].
  destruct (maybeNextSiblingXor FooAB.collection 9) as [result | e] eqn:Hcall;
    [| vm_compute in Hcall; discriminate].
  rewrite (maybeNthSiblingXor_always_undefined FooAB.collection 9 1 result Hcall).
  reflexivity.
Defined.

End Further.

Section PositionOrder.

Import PositionUtils Properties.

(** With the bound included, a position is before a token position, on it
    or after it, and exactly one of the three. *)
Theorem position_before_on_after (position : Position)
    (tokenPosition : TokenPosition) :
  (isBeforeTokenPosition position tokenPosition true = true
   /\ isOnTokenPosition position tokenPosition = false
   /\ isAfterTokenPosition position tokenPosition true = false)
  \/ (isBeforeTokenPosition position tokenPosition true = false
      /\ isOnTokenPosition position tokenPosition = true
      /\ isAfterTokenPosition position tokenPosition true = false)
  \/ (isBeforeTokenPosition position tokenPosition true = false
      /\ isOnTokenPosition position tokenPosition = false
      /\ isAfterTokenPosition position tokenPosition true = true).
Proof.
  unfold isBeforeTokenPosition, isOnTokenPosition, isAfterTokenPosition.
  destruct position as [pl pu], tokenPosition as [tl tu]. simpl.
  destruct (Z.ltb_spec pl tl), (Z.gtb_spec pl tl); simpl; lia.
Qed.

Lemma toDouble_safe (n : Z) :
  - 2 ^ 53 <= n <= 2 ^ 53 -> JsNumber.toDouble n = n.
Proof.
  unfold JsNumber.toDouble. cbv zeta.
  change (2 ^ 53) with 9007199254740992. intros Hrange.
  destruct (Z.ltb_spec (Z.abs n) 9007199254740992) as [_ | Hlarge];
    [reflexivity |].
  assert (n = 9007199254740992 \/ n = - 9007199254740992) as [-> | ->]
    by lia; vm_compute; reflexivity.
Qed.

Lemma add_one_safe (n : Z) :
  JsNumber.isSafeInteger n -> JsNumber.add n 1 = n + 1.
Proof.
  unfold JsNumber.isSafeInteger, JsNumber.add.
  change (2 ^ 53) with 9007199254740992. intros Hsafe.
  apply toDouble_safe. change (2 ^ 53) with 9007199254740992. lia.
Qed.

Lemma sub_one_safe (n : Z) :
  JsNumber.isSafeInteger n -> JsNumber.sub n 1 = n - 1.
Proof.
  unfold JsNumber.isSafeInteger, JsNumber.sub.
  change (2 ^ 53) with 9007199254740992. intros Hsafe.
  apply toDouble_safe. change (2 ^ 53) with 9007199254740992. lia.
Qed.

(** Without the bound included, "before" and "after" each take in the
    position on the bound itself, for a token position whose code unit is a
    safe integer (the bound moved by one is then exact). *)
Theorem position_bound_excluded (position : Position)
    (tokenPosition : TokenPosition) :
  JsNumber.isSafeInteger (lineCodeUnit tokenPosition) ->
  isBeforeTokenPosition position tokenPosition false
  = isBeforeTokenPosition position tokenPosition true
    || isOnTokenPosition position tokenPosition
  /\ isAfterTokenPosition position tokenPosition false
     = isAfterTokenPosition position tokenPosition true
       || isOnTokenPosition position tokenPosition.
Proof.
  intros Hsafe.
  unfold isBeforeTokenPosition, isOnTokenPosition, isAfterTokenPosition.
  cbv zeta. rewrite (add_one_safe _ Hsafe), (sub_one_safe _ Hsafe).
  destruct position as [pl pu], tokenPosition as [tl tu]. simpl.
  destruct (Z.ltb_spec pl tl), (Z.gtb_spec pl tl); simpl; lia.
Qed.

(** A cursor at 0:5 on a token position 0:5. *)
Lemma position_bound_excluded_witness :
  JsNumber.isSafeInteger 5
  /\ isBeforeTokenPosition (mkPosition 0 5) (mkPosition 0 5) false = true
  /\ isAfterTokenPosition (mkPosition 0 5) (mkPosition 0 5) false = true.
Proof.
  assert (JsNumber.isSafeInteger 5) as Hsafe by (split; reflexivity).
  split; [exact Hsafe |].
  destruct (position_bound_excluded (mkPosition 0 5) (mkPosition 0 5) Hsafe)
    as [Hbefore Hafter].
  rewrite Hbefore, Hafter. split; reflexivity.
Defined.

(** Beyond the safe integers the bound moved by one is rounded: at the code
    unit 2^53 a position is on the token position and yet not before it
    with the bound excluded, while it is after it. *)
Lemma position_bound_beyond_safe_integers :
  let position := mkPosition 0 (2 ^ 53) in
  isOnTokenPosition position position = true
  /\ isBeforeTokenPosition position position false = false
  /\ isAfterTokenPosition position position false = true.
Proof. cbv zeta. repeat split; vm_compute; reflexivity. Qed.

(** "Before" and "after" mirror each other: one position is before another
    exactly when the other is after it, for either setting of the bound,
    when the code units of both are safe integers. *)
Theorem position_before_after_mirror (a b : TokenPosition)
    (isBoundIncluded : bool) :
  JsNumber.isSafeInteger (lineCodeUnit a) ->
  JsNumber.isSafeInteger (lineCodeUnit b) ->
  isBeforeTokenPosition a b isBoundIncluded
  = isAfterTokenPosition b a isBoundIncluded.
Proof.
  intros Ha Hb. unfold isBeforeTokenPosition, isAfterTokenPosition.
  cbv zeta. rewrite (add_one_safe _ Hb), (sub_one_safe _ Ha).
  destruct a as [al au], b as [bl bu], isBoundIncluded; simpl;
    destruct (Z.ltb_spec al bl), (Z.gtb_spec al bl), (Z.ltb_spec bl al),
      (Z.gtb_spec bl al); simpl; lia.
Qed.

(** The start 0:4 of the argument [a] of [foo(a, b)] is before its end
    0:5, and the end is after the start. *)
Lemma position_before_after_mirror_witness :
  JsNumber.isSafeInteger 4
  /\ JsNumber.isSafeInteger 5
  /\ isBeforeTokenPosition (mkPosition 0 4) (mkPosition 0 5) false = true
  /\ isAfterTokenPosition (mkPosition 0 5) (mkPosition 0 4) false = true.
Proof.
  assert (JsNumber.isSafeInteger 4) as Ha by (split; reflexivity).
  assert (JsNumber.isSafeInteger 5) as Hb by (split; reflexivity).
  split; [exact Ha |]. split; [exact Hb |].
  rewrite <- (position_before_after_mirror (mkPosition 0 4) (mkPosition 0 5)
                false Ha Hb).
  split; reflexivity.
Defined.

(** With both bounds included a position is in a token exactly when it lies
    between the token's start and end in the order of positions. *)
Theorem isInToken_between (position : Position) (token : Token) :
  isInToken position token true true = true
  <-> positionLe (tok_positionStart token) position
      /\ positionLe position (tok_positionEnd token).
Proof.
  unfold isInToken, isBeforeTokenPosition, isAfterTokenPosition, positionLe.
  destruct position as [pl pu], token as [k d [sl su] [el eu]]. simpl.
  destruct (Z.ltb_spec pl sl), (Z.gtb_spec pl sl), (Z.ltb_spec pl el),
    (Z.gtb_spec pl el); simpl; lia.
Qed.

End PositionOrder.

Section VisitNodeFrame.

Import NodeIdMapUtils Inspection VisitNode Properties.

(** [isPositionOnTokenRange] calls a range that starts on an earlier line
    than the cursor "not on": for a range whose start is not after its end,
    the cursor is on the range exactly when the range lies within the
    cursor's line and spans the cursor's code unit. *)
Theorem isPositionOnTokenRange_single_line (position : Position)
    (tokenRange : TokenRange) :
  positionLe (positionStart tokenRange) (positionEnd tokenRange) ->
  isPositionOnTokenRange position tokenRange = true
  <-> lineNumber (positionStart tokenRange) = lineNumber position
      /\ lineNumber (positionEnd tokenRange) = lineNumber position
      /\ lineCodeUnit (positionStart tokenRange) <= lineCodeUnit position
         <= lineCodeUnit (positionEnd tokenRange).
Proof.
  unfold isPositionOnTokenRange, positionLe.
  destruct position as [pl pu], tokenRange as [i j [sl su] [el eu]]. simpl.
  intros Hordered.
  destruct ((sl <? pl) || (sl =? pl) && (su >? pu)) eqn:Hstart;
    destruct ((el >? pl) || (el =? pl) && (eu <? pu)) eqn:Hend; lia.
Qed.

(** A range over the lines 0 to 2 is not under a cursor on line 1; the
    argument [a] of [foo(a, b)] is under a cursor at 0:5. *)
Lemma isPositionOnTokenRange_single_line_witness :
  isPositionOnTokenRange (mkPosition 1 0)
    (mkTokenRange 0 3 (mkPosition 0 0) (mkPosition 2 0)) = false
  /\ (isPositionOnTokenRange (mkPosition 0 5) (Ast.tokenRange FooAB.a) = true
      <-> 0 = 0 /\ 0 = 0 /\ 4 <= 5 <= 5).
Proof.
  split; [reflexivity |].
  apply (isPositionOnTokenRange_single_line (mkPosition 0 5)
           (Ast.tokenRange FooAB.a)).
  right. simpl. lia.
Defined.

Lemma onlyAppends_refl (state : State) : onlyAppends state state.
Proof. split; auto. Qed.

Lemma onlyAppends_trans (a b c : State) :
  onlyAppends a b -> onlyAppends b c -> onlyAppends a c.
Proof.
  intros [] []. split; try congruence; try (etrans; eassumption); auto.
Qed.

Lemma addToScopeIfNew_appends (state : State) (key : string)
    (xorNode : TXorNode) :
  onlyAppends state (addToScopeIfNew state key xorNode).
Proof.
  unfold addToScopeIfNew, scopeHas.
  destruct (bool_decide_reflect (key ∈ (scope (result state)).*1))
    as [Hin | Hout]; simpl; [apply onlyAppends_refl |].
  split; simpl; auto.
  - apply prefix_app_r. reflexivity.
  - unfold scopeKeys. simpl. rewrite fmap_app. simpl. intros Hdistinct.
    apply NoDup_app. split; [exact Hdistinct |].
    split; [| apply NoDup_singleton].
    intros k Hk Hk'. apply list_elem_of_singleton in Hk'. subst. contradiction.
Qed.

Lemma pushNode_appends (state : State) (node : TNode) :
  argumentIndexInRange node -> onlyAppends state (pushNode state node).
Proof.
  intros Hnode. split; simpl; auto.
  - apply prefix_app_r. reflexivity.
  - intros Hall. apply Forall_app. split; [exact Hall |].
    constructor; [exact Hnode | constructor].
Qed.

Lemma maybeSetPositionIdentifier_appends (state state1 : State)
    (keyXorNode valueXorNode : TXorNode) :
  maybeSetPositionIdentifier state keyXorNode valueXorNode = Ok state1 ->
  onlyAppends state state1.
Proof.
  unfold maybeSetPositionIdentifier.
  destruct (maybePositionIdentifier state) as [positionIdentifier |];
    [| intros [= <-]; apply onlyAppends_refl].
  destruct (result_maybePositionIdentifier (result state)) as [assigned |]
    eqn:Hassigned; [intros [= <-]; apply onlyAppends_refl |].
  destruct keyXorNode as [keyAstNode | contextNode]; [| discriminate].
  destruct (_ && _); [discriminate |].
  destruct (bool_decide _); intros [= <-]; [| apply onlyAppends_refl].
  split; simpl; auto. intros assigned. rewrite Hassigned. discriminate.
Qed.

Lemma forEach_appends {A : Type} (body : State -> A -> Result State) :
  (forall state x state1, body state x = Ok state1 -> onlyAppends state state1) ->
  forall (xs : list A) (state state1 : State),
    forEach body state xs = Ok state1 -> onlyAppends state state1.
Proof.
  intros Hbody xs. induction xs as [| x rest IH]; intros state state1; simpl.
  - intros [= <-]. apply onlyAppends_refl.
  - destruct (body state x) as [state0 | e] eqn:Hstep; simpl; [| discriminate].
    intros Hrest. eapply onlyAppends_trans; eauto.
Qed.

Lemma inspectGeneralizedIdentifier_appends (state state1 : State)
    (xorNode : TXorNode) :
  inspectGeneralizedIdentifier state xorNode = Ok state1 ->
  onlyAppends state state1.
Proof.
  unfold inspectGeneralizedIdentifier.
  destruct xorNode as [node | node]; [| intros [= <-]; apply onlyAppends_refl].
  destruct (bool_decide _); [discriminate |].
  destruct (isTokenPositionOnOrBeforeBeforePostion _ _);
    [| intros [= <-]; apply onlyAppends_refl].
  destruct (readLiteral node) as [key | e]; simpl; [| discriminate].
  intros [= <-]. apply addToScopeIfNew_appends.
Qed.

Lemma inspectIdentifier_appends (state state1 : State) (xorNode : TXorNode) :
  inspectIdentifier state xorNode = Ok state1 -> onlyAppends state state1.
Proof.
  unfold inspectIdentifier.
  destruct xorNode as [node | node]; [| intros [= <-]; apply onlyAppends_refl].
  destruct (bool_decide _); [discriminate |].
  destruct (isParentOfNodeKind _ _ _); [intros [= <-]; apply onlyAppends_refl |].
  destruct (isTokenPositionOnOrBeforeBeforePostion _ _);
    [| intros [= <-]; apply onlyAppends_refl].
  destruct (readLiteral node) as [key | e]; simpl; [| discriminate].
  intros [= <-]. apply addToScopeIfNew_appends.
Qed.

Lemma inspectIdentifierExpression_appends (state state1 : State)
    (xorNode : TXorNode) :
  inspectIdentifierExpression state xorNode = Ok state1 ->
  onlyAppends state state1.
Proof.
  unfold inspectIdentifierExpression.
  destruct xorNode as [identifierExpression | contextNode].
  - destruct (bool_decide _); [discriminate |].
    destruct (readIdentifierExpression identifierExpression)
      as [[maybeInclusiveConstant identifier] | e]; simpl; [| discriminate].
    destruct (readLiteral identifier) as [key0 | e]; simpl; [| discriminate].
    destruct maybeInclusiveConstant as [inclusiveConstant |]; simpl.
    + destruct (readLiteral inclusiveConstant) as [constantLiteral | e];
        simpl; [| discriminate].
      intros [= <-]. apply addToScopeIfNew_appends.
    + intros [= <-]. apply addToScopeIfNew_appends.
  - destruct (bool_decide _); intros [= <-];
      [apply addToScopeIfNew_appends | apply onlyAppends_refl].
Qed.

Lemma inspectEachExpression_appends (state state1 : State)
    (xorNode : TXorNode) :
  inspectEachExpression state xorNode = Ok state1 -> onlyAppends state state1.
Proof.
  unfold inspectEachExpression.
  destruct xorNode as [node | node]; intros [= <-];
    (eapply onlyAppends_trans;
     [apply addToScopeIfNew_appends | apply pushNode_appends; exact I]).
Qed.

Lemma inspectParameter_appends (state : State) (xorNode : TXorNode)
    (state1 : State) :
  inspectParameter state xorNode = Ok state1 -> onlyAppends state state1.
Proof.
  unfold inspectParameter.
  destruct (maybeChildByAttributeIndex _ _ _ _) as [nameXorNode |];
    [apply inspectIdentifier_appends | intros [= <-]; apply onlyAppends_refl].
Qed.

Lemma inspectFunctionExpression_appends (state state1 : State)
    (xorNode : TXorNode) :
  inspectFunctionExpression state xorNode = Ok state1 ->
  onlyAppends state state1.
Proof.
  unfold inspectFunctionExpression.
  destruct (bool_decide _); [discriminate |].
  destruct (maybeMultipleChildByAttributeRequest _ _ _ _)
    as [csvArrayXorNode |]; [| intros [= <-]; apply onlyAppends_refl].
  destruct (nodesOnCsvFromCsvArray _ _) as [parameters | e]; simpl;
    [| discriminate].
  apply forEach_appends. exact inspectParameter_appends.
Qed.

Lemma inspectLetKeyValuePair_appends (state : State) (xorNode : TXorNode)
    (state1 : State) :
  inspectLetKeyValuePair state xorNode = Ok state1 -> onlyAppends state state1.
Proof.
  unfold inspectLetKeyValuePair.
  destruct (maybeChildByAttributeIndex _ _ 0 _) as [keyXorNode |];
    [| intros [= <-]; apply onlyAppends_refl].
  destruct (maybeChildByAttributeIndex _ _ 2 _) as [valueXorNode |];
    [apply maybeSetPositionIdentifier_appends
    | intros [= <-]; apply onlyAppends_refl].
Qed.

Lemma inspectLetExpression_appends (state state1 : State)
    (xorNode : TXorNode) :
  inspectLetExpression state xorNode = Ok state1 -> onlyAppends state state1.
Proof.
  unfold inspectLetExpression.
  destruct (maybeChildByAttributeIndex _ _ _ _) as [csvArrayXorNode |];
    [| intros [= <-]; apply onlyAppends_refl].
  destruct (nodesOnCsvFromCsvArray _ _) as [pairs | e]; simpl; [| discriminate].
  apply forEach_appends. exact inspectLetKeyValuePair_appends.
Qed.

Lemma inspectListExpressionOrLiteral_appends (state state1 : State)
    (xorNode : TXorNode) :
  inspectListExpressionOrLiteral state xorNode = Ok state1 ->
  onlyAppends state state1.
Proof.
  unfold inspectListExpressionOrLiteral.
  destruct xorNode as [list | list].
  - destruct (isOnCloseWrapperConstant _ _) as [[|] | e]; simpl;
      [intros [= <-]; apply onlyAppends_refl | | discriminate].
    destruct (isPositionOnTokenRange _ _); intros [= <-];
      [apply pushNode_appends; exact I | apply onlyAppends_refl].
  - intros [= <-]. apply pushNode_appends. exact I.
Qed.

Lemma reportRecord_appends (state : State) (xorNode : TXorNode)
    (state1 : State) :
  reportRecord state xorNode = Ok (Some state1) -> onlyAppends state state1.
Proof.
  unfold reportRecord.
  destruct xorNode as [record | record].
  - destruct (isOnCloseWrapperConstant _ _) as [[|] | e]; simpl;
      [discriminate | | discriminate].
    destruct (isPositionOnTokenRange _ _); intros [= <-];
      [apply pushNode_appends; exact I | apply onlyAppends_refl].
  - intros [= <-]. apply pushNode_appends. exact I.
Qed.

Lemma inspectRecordKeyValuePair_appends (state : State) (xorNode : TXorNode)
    (state1 : State) :
  inspectRecordKeyValuePair state xorNode = Ok state1 ->
  onlyAppends state state1.
Proof.
  unfold inspectRecordKeyValuePair.
  destruct (maybeChildByAttributeIndex _ _ 0 _) as [keyXorNode |];
    [| intros [= <-]; apply onlyAppends_refl].
  destruct (inspectGeneralizedIdentifier state keyXorNode) as [state0 | e]
    eqn:Hkey; simpl; [| discriminate].
  apply inspectGeneralizedIdentifier_appends in Hkey.
  destruct (maybeChildByAttributeIndex _ _ 2 _) as [valueXorNode |].
  - intros Hset. apply maybeSetPositionIdentifier_appends in Hset.
    eapply onlyAppends_trans; eassumption.
  - intros [= <-]. exact Hkey.
Qed.

Lemma inspectRecordExpressionOrLiteral_appends (state state1 : State)
    (xorNode : TXorNode) :
  inspectRecordExpressionOrLiteral state xorNode = Ok state1 ->
  onlyAppends state state1.
Proof.
  unfold inspectRecordExpressionOrLiteral.
  destruct (reportRecord state xorNode) as [[state0 |] | e] eqn:Hreport;
    simpl; [| intros [= <-]; apply onlyAppends_refl | discriminate].
  apply reportRecord_appends in Hreport.
  destruct (maybeChildByAttributeIndex _ _ _ _) as [csvArrayXorNode |];
    [| intros [= <-]; exact Hreport].
  destruct (nodesOnCsvFromCsvArray _ _) as [pairs | e]; simpl; [| discriminate].
  intros Hloop. eapply onlyAppends_trans; [exact Hreport |].
  revert Hloop. apply forEach_appends. exact inspectRecordKeyValuePair_appends.
Qed.

Lemma inspectRecursivePrimaryExpression_appends (state state1 : State)
    (xorNode : TXorNode) :
  inspectRecursivePrimaryExpression state xorNode = Ok state1 ->
  onlyAppends state state1.
Proof.
  unfold inspectRecursivePrimaryExpression.
  destruct (maybeChildByAttributeIndex _ _ _ _) as [headXorNode |];
    [| intros [= <-]; apply onlyAppends_refl].
  destruct (bool_decide _);
    [intros [= <-]; apply onlyAppends_refl
    | apply inspectIdentifierExpression_appends].
Qed.

Lemma inspectSectionMember_appends (state : State) (xorNode : TXorNode)
    (state1 : State) :
  inspectSectionMember state xorNode = Ok state1 -> onlyAppends state state1.
Proof.
  unfold inspectSectionMember.
  destruct (maybeChildByAttributeIndex _ _ 2 _) as [pairXorNode |];
    [| intros [= <-]; apply onlyAppends_refl].
  destruct (maybeChildByAttributeIndex _ _ 0 _) as [nameXorNode |];
    [| intros [= <-]; apply onlyAppends_refl].
  destruct (inspectIdentifier state nameXorNode) as [state0 | e] eqn:Hname;
    simpl; [| discriminate].
  apply inspectIdentifier_appends in Hname.
  destruct (maybeChildByAttributeIndex _ _ 2 _) as [valueXorNode |].
  - intros Hset. apply maybeSetPositionIdentifier_appends in Hset.
    eapply onlyAppends_trans; eassumption.
  - intros [= <-]. exact Hname.
Qed.

Lemma inspectSection_appends (state state1 : State) (xorNode : TXorNode) :
  inspectSection state xorNode = Ok state1 -> onlyAppends state state1.
Proof.
  unfold inspectSection.
  destruct (maybeChildByAttributeIndex _ _ _ _) as [arrayXorNode |];
    [| intros [= <-]; apply onlyAppends_refl].
  destruct (expectXorChildren _ _) as [members | e]; simpl; [| discriminate].
  apply forEach_appends. exact inspectSectionMember_appends.
Qed.

(** The loop over the arguments appends to the scope only, and the index it
    ends with is the one it started with or the index of an argument. *)
Lemma inspectArguments_appends (position : Position)
    (argXorNodes : list TXorNode) :
  forall (state state1 : State) (maybeIndex maybeIndex1 : option Z)
         (index : Z),
    inspectArguments position state maybeIndex index argXorNodes
    = Ok (state1, maybeIndex1) ->
    onlyAppends state state1
    /\ (maybeIndex1 = maybeIndex
        \/ exists found,
             maybeIndex1 = Some found
             /\ index <= found < index + arrayLength argXorNodes).
Proof.
  induction argXorNodes as [| argXorNode rest IH];
    intros state state1 maybeIndex maybeIndex1 index; simpl.
  - intros [= <- <-]. split; [apply onlyAppends_refl | auto].
  - assert (Hlength : arrayLength (argXorNode :: rest) = 1 + arrayLength rest)
      by (unfold arrayLength; simpl; lia).
    destruct (if bool_decide (xorKind argXorNode = Ast.IdentifierExpression)
              then inspectIdentifierExpression state argXorNode
              else Ok state) as [state0 | e] eqn:Hstep; simpl;
      [| discriminate].
    assert (Hfirst : onlyAppends state state0).
    { destruct (bool_decide _);
        [apply inspectIdentifierExpression_appends in Hstep; exact Hstep
        | injection Hstep as <-; apply onlyAppends_refl]. }
    intros Hrest. apply IH in Hrest as [Hsecond Hindex].
    split; [eapply onlyAppends_trans; eassumption |].
    destruct Hindex as [-> | (found & -> & Hfound)].
    + destruct (isPositionOnXorNode position argXorNode); [| auto].
      right. exists index.
      split; [reflexivity | rewrite Hlength; unfold arrayLength; lia].
    + right. exists found. split; [reflexivity | rewrite Hlength; lia].
Qed.

Lemma inspectInvokeExpression_appends (state state1 : State)
    (xorNode : TXorNode) :
  inspectInvokeExpression state xorNode = Ok state1 -> onlyAppends state state1.
Proof.
  unfold inspectInvokeExpression.
  destruct (bool_decide _); [discriminate |].
  destruct (match xorNode with
            | XorAst invokeExpr =>
                isOnCloseWrapperConstant (position state) invokeExpr
            | XorContext _ => Ok false
            end) as [[|] | e]; simpl;
    [intros [= <-]; apply onlyAppends_refl | | discriminate].
  destruct (invokeExpressionName _ _) as [maybeName | e]; simpl;
    [| discriminate].
  destruct (match xorNode with
            | XorAst node => _
            | XorContext invokeExpr => _
            end) as [maybePositionStart maybePositionEnd].
  destruct (maybeChildByAttributeIndex _ _ _ _) as [csvArrayXorNode |].
  - destruct (nodesOnCsvFromCsvArray _ _) as [argXorNodes | e]; simpl;
      [| discriminate].
    destruct (inspectArguments _ _ _ _ _) as [[state0 maybeIndex] | e]
      eqn:Hloop; simpl; [| discriminate].
    apply inspectArguments_appends in Hloop as [Hloop Hindex].
    intros [= <-]. eapply onlyAppends_trans; [exact Hloop |].
    apply pushNode_appends. simpl.
    destruct Hindex as [-> | (found & -> & Hfound)]; lia.
  - intros [= <-]. apply pushNode_appends. exact I.
Qed.

Lemma visitNode_appends (xorNode : TXorNode) (state state1 : State) :
  visitNode xorNode state = Ok state1 -> onlyAppends state state1.
Proof.
  unfold visitNode.
  destruct (xorKind xorNode);
    eauto using inspectEachExpression_appends,
      inspectFunctionExpression_appends, inspectIdentifier_appends,
      inspectIdentifierExpression_appends, inspectInvokeExpression_appends,
      inspectLetExpression_appends, inspectListExpressionOrLiteral_appends,
      inspectRecordExpressionOrLiteral_appends,
      inspectRecursivePrimaryExpression_appends, inspectSection_appends;
    intros [= <-]; apply onlyAppends_refl.
Qed.

(** Whatever node it visits, [visitNode] only appends: the collection and
    the cursor stay, the scope and the reported nodes keep what they had in
    front of what is new, so a key in scope keeps the node it was first
    bound to, distinct scope keys stay distinct, and a position identifier
    that is assigned is not assigned again. *)
Theorem visitNode_only_appends (xorNode : TXorNode) (state state1 : State) :
  visitNode xorNode state = Ok state1 ->
  nodeIdMapCollection state1 = nodeIdMapCollection state
  /\ position state1 = position state
  /\ scope (result state) `prefix_of` scope (result state1)
  /\ nodes (result state) `prefix_of` nodes (result state1)
  /\ (NoDup (scopeKeys state) -> NoDup (scopeKeys state1))
  /\ (forall assigned,
        result_maybePositionIdentifier (result state) = Some assigned ->
        result_maybePositionIdentifier (result state1) = Some assigned).
Proof.
  intros Hvisit. apply visitNode_appends in Hvisit as [].
  repeat split; auto.
Qed.

(** Visiting the invoke expression of [foo(a, b)] with the key [a] already
    in scope: the binding of [a] stays in front and is not doubled. *)
Lemma visitNode_only_appends_witness :
  let before :=
    addToScopeIfNew (FooAB.stateAt 5) "a" (XorAst FooAB.aIdentifier) in
  exists after,
    visitNode (XorAst FooAB.invoke) before = Ok after
    /\ scope (result before) `prefix_of` scope (result after)
    /\ NoDup (scopeKeys after).
Proof.
  cbv zeta.
  destruct (visitNode (XorAst FooAB.invoke)
              (addToScopeIfNew (FooAB.stateAt 5) "a"
                 (XorAst FooAB.aIdentifier))) as [after | e] eqn:Hvisit;
    [| vm_compute in Hvisit; discriminate].
  exists after. split; [reflexivity |].
  destruct (visitNode_only_appends _ _ _ Hvisit)
    as (_ & _ & Hscope & _ & Hkeys & _).
  split; [exact Hscope |].
  apply Hkeys. vm_compute. apply NoDup_singleton.
Defined.

(** Every invoke expression [visitNode] reports names an argument that
    exists: the reported [positionArgumentIndex] is at least 0 and less than
    [numArguments], or 0 when there is no argument. *)
Theorem visitNode_argument_index_in_range (xorNode : TXorNode)
    (state state1 : State) :
  visitNode xorNode state = Ok state1 ->
  Forall argumentIndexInRange (nodes (result state)) ->
  Forall argumentIndexInRange (nodes (result state1)).
Proof.
  intros Hvisit. apply visitNode_appends in Hvisit as []. assumption.
Qed.

(** On [foo(a, b)] with the cursor on [b], at 0:7: index 1 of 2. *)
Lemma visitNode_argument_index_in_range_witness :
  exists after,
    visitNode (XorAst FooAB.invoke) (FooAB.stateAt 7) = Ok after
    /\ Forall argumentIndexInRange (nodes (result after))
    /\ nodes (result after)
       = [InvokeExpressionNode (Some (mkPosition 0 9)) (Some (mkPosition 0 3))
            (Some "foo")
            (Some {| numArguments := 2; positionArgumentIndex := 1 |})].
Proof.
  destruct (visitNode (XorAst FooAB.invoke) (FooAB.stateAt 7))
    as [after | e] eqn:Hvisit; [| vm_compute in Hvisit; discriminate].
  exists after. split; [reflexivity |].
  split.
  - apply (visitNode_argument_index_in_range _ _ _ Hvisit). constructor.
  - vm_compute in Hvisit. injection Hvisit as <-. reflexivity.
Defined.

End VisitNodeFrame.

Section ParserStateChecksFacts.

Import ParseContextUtils IParserStateUtils ParserStateChecks Spec Properties.
Import Examples.

(** *** Restoring twice *)

Lemma newNodeIds_none {V : Type} (nodeById : gmap Z V) (backupIdCounter : Z) :
  (forall nodeId, nodeId > backupIdCounter -> nodeById !! nodeId = None) ->
  newNodeIds nodeById backupIdCounter = [].
Proof.
  intros Hnone. apply elem_of_nil_inv. intros nodeId Hin.
  apply elem_of_newNodeIds in Hin as [Hgt [v Hv]].
  rewrite (Hnone nodeId Hgt) in Hv. discriminate.
Qed.

(** The shape of a restored state: its fields, with the context state the
    two loops leave. *)
Lemma applyFastStateBackup_Ok (state : IParserState)
    (backup : FastStateBackup) (restored : IParserState) :
  applyFastStateBackup state backup = Ok restored ->
  localizationTemplates restored = localizationTemplates state
  /\ lexerSnapshot restored = lexerSnapshot state
  /\ tokenIndex restored = backup_tokenIndex backup
  /\ maybeCurrentToken restored
     = arrayGet (tokens (lexerSnapshot state)) (backup_tokenIndex backup)
  /\ maybeCurrentTokenKind restored
     = tok_kind <$> arrayGet (tokens (lexerSnapshot state))
                      (backup_tokenIndex backup)
  /\ deltaDeleted state backup restored
  /\ maybeCurrentContextNode restored
     = (contextNodeId ← truthy (maybeContextNodeId backup);
        contextNodeById (nodeIdMapCollection (contextState restored))
          !! contextNodeId)
  /\ (forall contextNodeId,
        truthy (maybeContextNodeId backup) = Some contextNodeId ->
        is_Some (contextNodeById (nodeIdMapCollection (contextState restored))
                   !! contextNodeId)).
Proof.
  intros Hrestored.
  destruct (applyFastStateBackup_deltaDeleted _ _ _ Hrestored)
    as [Hdelta Hcurrent].
  destruct (applyFastStateBackup_unfold state backup)
    as (restoredContext & _ & Hcall).
  rewrite Hcall in Hrestored. cbv zeta in Hrestored.
  destruct (truthy (maybeContextNodeId backup)) as [contextNodeId |].
  - unfold NodeIdMapUtils.assertContext in Hrestored.
    destruct (contextNodeById (nodeIdMapCollection restoredContext)
                !! contextNodeId) as [contextNode |] eqn:Hnode;
      simpl in Hrestored; [| discriminate].
    injection Hrestored as <-. simpl in *.
    assert (Hfound : forall found : Z,
               Some contextNodeId = Some found ->
               is_Some (contextNodeById (nodeIdMapCollection restoredContext)
                          !! found))
      by (intros ? [= <-]; eauto).
    auto 12.
  - injection Hrestored as <-. simpl in *.
    assert (Hfound : forall found : Z,
               @None Z = Some found ->
               is_Some (contextNodeById (nodeIdMapCollection restoredContext)
                          !! found))
      by discriminate.
    auto 12.
Qed.

(** Restoring a backup is idempotent: applied to the state it has restored,
    the same backup returns that state again. *)
Theorem applyFastStateBackup_idempotent (state : IParserState)
    (backup : FastStateBackup) (restored : IParserState) :
  applyFastStateBackup state backup = Ok restored ->
  applyFastStateBackup restored backup = Ok restored.
Proof.
  intros Hrestored.
  destruct (applyFastStateBackup_Ok _ _ _ Hrestored)
    as (Htemplates & Hsnapshot & Hindex & Htoken & Hkind & Hdelta & Hcurrent
        & Hfound).
  destruct Hdelta as (_ & Hcounter & Hmaps).
  destruct restored as [templates snapshot index token kind
                          [[asts contexts parents children] counter] current].
  simpl in *. subst.
  unfold applyFastStateBackup. simpl.
  rewrite !newNodeIds_none.
  - simpl. destruct (truthy (maybeContextNodeId backup)) as [contextNodeId |];
      simpl; [| reflexivity].
    unfold NodeIdMapUtils.assertContext.
    destruct (Hfound contextNodeId eq_refl) as [contextNode ->]. reflexivity.
  - intros nodeId Hgt. rewrite (proj2 (Hmaps nodeId)).
    rewrite decide_True by exact Hgt. reflexivity.
  - intros nodeId Hgt. rewrite (proj1 (Hmaps nodeId)).
    rewrite decide_True by exact Hgt. reflexivity.
Qed.

(** On [{ 1 2]: restoring the state after the brace a second time changes
    nothing. *)
Lemma applyFastStateBackup_idempotent_witness :
  exists restored,
    applyFastStateBackup afterTwoReads (fastStateBackup atList8) = Ok restored
    /\ applyFastStateBackup restored (fastStateBackup atList8) = Ok restored.
Proof.
  destruct (applyFastStateBackup afterTwoReads (fastStateBackup atList8))
    as [restored | e] eqn:Hrestored; [| vm_compute in Hrestored; discriminate].
  exists restored. split; [reflexivity |].
  exact (applyFastStateBackup_idempotent _ _ _ Hrestored).
Defined.

(** *** The backup of a restored state *)

(** The backup taken of a restored state is the backup it was restored
    from, when every context node is stored under its own id and the
    backup's context id is none or not 0. *)
Theorem fastStateBackup_of_restored (state : IParserState)
    (backup : FastStateBackup) (restored : IParserState) :
  contextKeysAreIds (nodeIdMapCollection (contextState state)) ->
  truthy (maybeContextNodeId backup) = maybeContextNodeId backup ->
  applyFastStateBackup state backup = Ok restored ->
  fastStateBackup restored = backup.
Proof.
  intros Hkeys Htruthy Hrestored.
  destruct (applyFastStateBackup_Ok _ _ _ Hrestored)
    as (_ & _ & Hindex & _ & _ & (_ & Hcounter & Hmaps) & Hcurrent & _).
  destruct (applyFastStateBackup_unfold state backup)
    as (restoredContext & _ & Hcall).
  rewrite Hcall in Hrestored. cbv zeta in Hrestored.
  rewrite Htruthy in Hrestored, Hcurrent.
  destruct backup as [backupIndex backupCounter backupContextId].
  unfold fastStateBackup. simpl in *. rewrite Hindex, Hcounter, Hcurrent.
  f_equal.
  destruct backupContextId as [contextNodeId |]; simpl; [| reflexivity].
  destruct (contextNodeById (nodeIdMapCollection (contextState restored))
              !! contextNodeId) as [contextNode |] eqn:Hnode; simpl.
  - f_equal. apply Hkeys.
    rewrite (proj2 (Hmaps contextNodeId)) in Hnode.
    destruct (decide (contextNodeId > backupCounter)); [discriminate |].
    exact Hnode.
  - exfalso.
    unfold NodeIdMapUtils.assertContext in Hrestored.
    destruct (contextNodeById (nodeIdMapCollection restoredContext)
                !! contextNodeId) as [contextNode |] eqn:Hfound;
      simpl in Hrestored; [| discriminate].
    injection Hrestored as <-. simpl in Hnode. congruence.
Qed.

Lemma afterTwoReads_keys :
  contextKeysAreIds (nodeIdMapCollection (contextState afterTwoReads)).
Proof.
  intros key contextNode. simpl. intros Hlookup.
  apply lookup_singleton_Some in Hlookup as [<- <-]. reflexivity.
Qed.

(** On [{ 1 2]: the backup of the restored state is the backup taken after
    the brace. *)
Lemma fastStateBackup_of_restored_witness :
  exists restored,
    applyFastStateBackup afterTwoReads (fastStateBackup atList8) = Ok restored
    /\ fastStateBackup restored = fastStateBackup atList8.
Proof.
  destruct (applyFastStateBackup afterTwoReads (fastStateBackup atList8))
    as [restored | e] eqn:Hrestored; [| vm_compute in Hrestored; discriminate].
  exists restored. split; [reflexivity |].
  exact (fastStateBackup_of_restored afterTwoReads (fastStateBackup atList8)
           restored afterTwoReads_keys eq_refl Hrestored).
Defined.

(** *** The cached current token *)

Lemma tokenCoherent_kind (state : IParserState) :
  tokenCoherent state ->
  maybeCurrentTokenKind state
  = tok_kind <$> arrayGet (tokens (lexerSnapshot state)) (tokenIndex state).
Proof. intros [Htoken Hkind]. rewrite Hkind, Htoken. reflexivity. Qed.

(** A restored state is coherent: its cached current token and kind are
    those of the token at its index, so the test on the cached kind,
    [testIsOnTokenKind], passes exactly when [isOnTokenKind], which reads
    the token sequence, holds. *)
Theorem applyFastStateBackup_token_coherent (state : IParserState)
    (backup : FastStateBackup) (restored : IParserState) :
  applyFastStateBackup state backup = Ok restored ->
  tokenCoherent restored
  /\ forall tokenKind,
       testIsOnTokenKind restored tokenKind = None
       <-> isOnTokenKind restored tokenKind None = true.
Proof.
  intros Hrestored.
  destruct (applyFastStateBackup_Ok _ _ _ Hrestored)
    as (_ & Hsnapshot & Hindex & Htoken & Hkind & _).
  assert (Hcoherent : tokenCoherent restored).
  { split; rewrite ?Hsnapshot, ?Hindex, ?Hkind, ?Htoken; reflexivity. }
  split; [exact Hcoherent |].
  intros tokenKind. unfold testIsOnTokenKind, isOnTokenKind, isTokenKind.
  simpl. rewrite (tokenCoherent_kind _ Hcoherent).
  generalize (tok_kind <$> arrayGet (tokens (lexerSnapshot restored))
                             (tokenIndex restored)).
  intros current. repeat case_bool_decide; split; congruence.
Qed.

(** On [{ 1 2] restored to the state after the brace: the current token is
    the literal [1] again. *)
Lemma applyFastStateBackup_token_coherent_witness :
  exists restored,
    applyFastStateBackup afterTwoReads (fastStateBackup atList8) = Ok restored
    /\ tokenCoherent restored
    /\ maybeCurrentToken restored = arrayGet braceOneTwo 1.
Proof.
  destruct (applyFastStateBackup afterTwoReads (fastStateBackup atList8))
    as [restored | e] eqn:Hrestored; [| vm_compute in Hrestored; discriminate].
  exists restored. split; [reflexivity |].
  split.
  - exact (proj1 (applyFastStateBackup_token_coherent _ _ _ Hrestored)).
  - vm_compute in Hrestored. injection Hrestored as <-. reflexivity.
Defined.

(** *** Each new node is deleted once *)

(** The ids a loop of [applyFastStateBackup] visits are exactly the keys
    greater than the backup's counter, each of them once. *)
Theorem deletionOrder_visits_new_ids_once {V : Type} (nodeById : gmap Z V)
    (backupIdCounter : Z) :
  NoDup (deletionOrder (newNodeIds nodeById backupIdCounter))
  /\ forall nodeId,
       nodeId ∈ deletionOrder (newNodeIds nodeById backupIdCounter)
       <-> nodeId > backupIdCounter /\ is_Some (nodeById !! nodeId).
Proof.
  split.
  - unfold deletionOrder, JsArray.sort.
    rewrite reverse_Permutation, merge_sort_Permutation.
    unfold newNodeIds. apply NoDup_filter, NoDup_fst_map_to_list.
  - intros nodeId. rewrite elem_of_deletionOrder. apply elem_of_newNodeIds.
Qed.

End ParserStateChecksFacts.

Section TokenTests.

Import ParseContextUtils IParserStateUtils ParserStateChecks Properties.
Import Examples.

(** A token cannot open both a generalized identifier and the rest of a
    recursive primary expression: at no index are
    [isOnGeneralizedIdentifierStart] and [isRecursivePrimaryExpressionNext]
    both true. *)
Theorem generalized_identifier_start_excludes_recursive_primary
    (state : IParserState) (maybeTokenIndex : option Z) :
  isOnGeneralizedIdentifierStart state maybeTokenIndex
  && isRecursivePrimaryExpressionNext state maybeTokenIndex = false.
Proof.
  unfold isOnGeneralizedIdentifierStart, isRecursivePrimaryExpressionNext,
    isTokenKind.
  destruct (arrayGet _ _) as [token |]; simpl; [| reflexivity].
  destruct (tok_kind token); reflexivity.
Qed.

(** A token predicate that reads the token sequence is false outside it:
    [isTokenKind] holds at an index only if the index is within the tokens
    and the token there has the kind. *)
Theorem isTokenKind_in_bounds (state : IParserState) (tokenKind : TokenKind)
    (tokenIndex : Z) :
  isTokenKind state tokenKind tokenIndex = true
  <-> exists token,
        0 <= tokenIndex < arrayLength (tokens (lexerSnapshot state))
        /\ arrayGet (tokens (lexerSnapshot state)) tokenIndex = Some token
        /\ tok_kind token = tokenKind.
Proof.
  unfold isTokenKind. rewrite bool_decide_eq_true. split.
  - destruct (arrayGet _ _) as [token |] eqn:Hget; simpl; [| discriminate].
    intros [= <-]. exists token.
    split; [exact (arrayGet_Some_bounds _ _ _ Hget) | auto].
  - intros (token & _ & -> & <-). reflexivity.
Qed.

(** When [isOnConstantKind] answers true, the current token is an
    identifier whose text is the constant, and such a token also starts a
    generalized identifier. *)
Theorem isOnConstantKind_true (state : IParserState) (constantKind : string) :
  isOnConstantKind state constantKind = Ok true ->
  (exists token,
     arrayGet (tokens (lexerSnapshot state)) (tokenIndex state) = Some token
     /\ tok_kind token = Identifier
     /\ tok_data token = constantKind)
  /\ isOnGeneralizedIdentifierStart state None = true.
Proof.
  unfold isOnConstantKind, isOnTokenKind, isTokenKind,
    isOnGeneralizedIdentifierStart. simpl.
  destruct (arrayGet _ _) as [token |]; simpl; [| discriminate].
  destruct (bool_decide_reflect (Some (tok_kind token) = Some Identifier))
    as [Hkind | _]; [| discriminate].
  injection Hkind as Hkind. intros [= Hdata].
  apply bool_decide_eq_true in Hdata. rewrite Hkind. eauto.
Qed.

(** On the one token [optional]: it is the constant [optional]. *)
Lemma isOnConstantKind_true_witness :
  isOnGeneralizedIdentifierStart
    (stateOver [tokenAt Identifier "optional" 0] 0) None = true.
Proof.
  exact (proj2 (isOnConstantKind_true
                  (stateOver [tokenAt Identifier "optional" 0] 0) "optional"
                  eq_refl)).
Defined.

(** The test for any of several kinds passes exactly when the test for one
    of them passes; at the end of the tokens, where there is no current
    kind, it fails whatever kinds are expected. *)
Theorem testIsOnAnyTokenKind_passes_iff (state : IParserState)
    (expectedAnyTokenKinds : list TokenKind) :
  (testIsOnAnyTokenKind state expectedAnyTokenKinds = None
   <-> exists expectedTokenKind,
         expectedTokenKind ∈ expectedAnyTokenKinds
         /\ testIsOnTokenKind state expectedTokenKind = None)
  /\ (maybeCurrentTokenKind state = None ->
      testIsOnAnyTokenKind state expectedAnyTokenKinds
      = Some (ExpectedAnyTokenKindError (localizationTemplates state)
                expectedAnyTokenKinds
                (maybeCurrentTokenWithColumnNumber state))).
Proof.
  unfold testIsOnAnyTokenKind, testIsOnTokenKind, notIndexOf.
  destruct (maybeCurrentTokenKind state) as [currentTokenKind |]; simpl.
  - split; [| discriminate]. split.
    + case_bool_decide as Hin; [discriminate |]. intros _.
      exists currentTokenKind.
      split; [destruct (decide (currentTokenKind ∈ expectedAnyTokenKinds));
                [assumption | contradiction] |].
      case_bool_decide; [congruence | reflexivity].
    + intros (expectedTokenKind & Hin & Hpass).
      case_bool_decide as Hkind; [discriminate |].
      assert (expectedTokenKind = currentTokenKind) as ->.
      { destruct (decide (expectedTokenKind = currentTokenKind));
          [assumption | exfalso; congruence]. }
      case_bool_decide; [contradiction | reflexivity].
  - split; [| reflexivity]. split; [discriminate |].
    intros (expectedTokenKind & _ & Hpass).
    discriminate.
Qed.

(** On [1 2] with the index past the end: expecting a brace or a bracket
    fails with no found token. *)
Lemma testIsOnAnyTokenKind_passes_iff_witness :
  testIsOnAnyTokenKind (stateOver oneTwo 2) [LeftBrace; LeftBracket]
  = Some (ExpectedAnyTokenKindError "en-US" [LeftBrace; LeftBracket] None).
Proof.
  exact (proj2 (testIsOnAnyTokenKind_passes_iff (stateOver oneTwo 2)
                  [LeftBrace; LeftBracket]) eq_refl).
Defined.

(** The two tests that follow a comma fire on the same token: the let
    test reports a continuation error exactly when the dangling-comma test
    for the keyword [in] does, and both report the current token. *)
Theorem testCsvContinuation_agree (state : IParserState) :
  (testCsvContinuationLetExpression state = None
   <-> testCsvContinuationDanglingComma state KeywordIn = None)
  /\ (forall templates kind maybeFoundToken,
        testCsvContinuationLetExpression state
        = Some (ExpectedCsvContinuationError templates kind maybeFoundToken) ->
        kind = LetExpressionContinuation
        /\ maybeFoundToken = maybeCurrentTokenWithColumnNumber state
        /\ testCsvContinuationDanglingComma state KeywordIn
           = Some (ExpectedCsvContinuationError templates DanglingComma
                     maybeFoundToken)).
Proof.
  unfold testCsvContinuationLetExpression, testCsvContinuationDanglingComma.
  case_bool_decide; split; try (split; congruence); try discriminate.
  intros templates kind maybeFoundToken [= <- <- <-]. auto.
Qed.

(** [assertContextNodeMetadata] needs a consumed token: it throws when the
    token index is 0 or less, and when it returns, the index is between 1
    and the number of tokens, the range ends at the token before the index
    and at that token's end, and the id is the current context's. *)
Theorem assertContextNodeMetadata_range (state : IParserState) :
  (tokenIndex state <= 0 ->
   exists e, assertContextNodeMetadata state = Err e)
  /\ (forall metadata,
        assertContextNodeMetadata state = Ok metadata ->
        1 <= tokenIndex state <= arrayLength (tokens (lexerSnapshot state))
        /\ tokenIndexEnd (md_tokenRange metadata) = tokenIndex state - 1
        /\ exists contextNode tokenStart tokenEnd,
             maybeCurrentContextNode state = Some contextNode
             /\ md_id metadata = ParseContext.id contextNode
             /\ ParseContext.maybeTokenStart contextNode = Some tokenStart
             /\ positionStart (md_tokenRange metadata)
                = tok_positionStart tokenStart
             /\ arrayGet (tokens (lexerSnapshot state)) (tokenIndex state - 1)
                = Some tokenEnd
             /\ positionEnd (md_tokenRange metadata)
                = tok_positionEnd tokenEnd).
Proof.
  unfold assertContextNodeMetadata. split.
  - intros Hindex.
    destruct (maybeCurrentContextNode state) as [contextNode |]; simpl;
      [| eauto].
    destruct (ParseContext.maybeTokenStart contextNode) as [tokenStart |];
      simpl; [| eauto].
    rewrite arrayGet_out_of_bounds by lia. simpl. eauto.
  - intros metadata.
    destruct (maybeCurrentContextNode state) as [contextNode |]; simpl;
      [| discriminate].
    destruct (ParseContext.maybeTokenStart contextNode) as [tokenStart |]
      eqn:Hstart; simpl; [| discriminate].
    destruct (arrayGet _ _) as [tokenEnd |] eqn:Hend; simpl; [| discriminate].
    intros [= <-]. simpl.
    apply arrayGet_Some_bounds in Hend as Hbounds.
    split; [lia |]. split; [reflexivity |].
    exists contextNode, tokenStart, tokenEnd. auto 10.
Qed.

(** On [{ 1 2] right after the brace, with the list expression open: the
    metadata spans the brace. *)
Lemma assertContextNodeMetadata_range_witness :
  exists metadata,
    assertContextNodeMetadata atList8 = Ok metadata
    /\ 1 <= tokenIndex atList8
       <= arrayLength (tokens (lexerSnapshot atList8))
    /\ tokenIndexEnd (md_tokenRange metadata) = 0.
Proof.
  destruct (assertContextNodeMetadata atList8) as [metadata | e] eqn:Hcall;
    [| vm_compute in Hcall; discriminate].
  exists metadata. split; [reflexivity |].
  destruct (proj2 (assertContextNodeMetadata_range atList8) metadata Hcall)
    as (Hbounds & Hend & _).
  split; [exact Hbounds | exact Hend].
Defined.

(** The two "unterminated" factories and [assertNoMoreTokens] read the same
    token: a factory returns its error for a token and grapheme position
    exactly when [assertNoMoreTokens] raises UnusedTokensRemainError for
    that token and position, and a factory throws exactly when there is no
    token at the index. *)
Theorem unterminated_errors_read_current_token (state : IParserState)
    (templates : string) (token : Token) (graphemePosition : GraphemePosition) :
  (unterminatedBracketError state
   = Ok (UnterminatedBracketError templates token graphemePosition)
   <-> assertNoMoreTokens state
       = Err (ParseException
                (ParseError.UnusedTokensRemainError templates token
                   graphemePosition)))
  /\ (unterminatedParenthesesError state
      = Ok (UnterminatedParenthesesError templates token graphemePosition)
      <-> unterminatedBracketError state
          = Ok (UnterminatedBracketError templates token graphemePosition))
  /\ (arrayGet (tokens (lexerSnapshot state)) (tokenIndex state) = None
      <-> exists e, unterminatedBracketError state = Err e).
Proof.
  unfold unterminatedBracketError, unterminatedParenthesesError,
    assertNoMoreTokens, assertTokenAt.
  destruct (arrayGet _ _) as [current |] eqn:Hget; simpl.
  - apply arrayGet_Some_bounds in Hget as Hbounds.
    destruct (Z.eqb_spec (tokenIndex state)
                (arrayLength (tokens (lexerSnapshot state)))); [lia |].
    repeat split; try (intros [= <- <- <-]; reflexivity);
      try discriminate.
    intros [e He]. discriminate.
  - split.
    { split; [discriminate |].
      destruct (Z.eqb_spec (tokenIndex state)
                  (arrayLength (tokens (lexerSnapshot state))));
        discriminate. }
    split; [split; discriminate |].
    split; eauto.
Qed.

End TokenTests.

(** ** The ancestry of a node *)

Section Ancestry.

Import NodeIdMapUtils NodeIdMapIterator IParserStateUtils AncestryUtils.
Import Properties.

Lemma truthy_Some (maybeNumber : option Z) (n : Z) :
  truthy maybeNumber = Some n <-> maybeNumber = Some n /\ n <> 0.
Proof.
  unfold truthy. destruct maybeNumber as [m |].
  - destruct (Z.eqb_spec m 0) as [Hzero | Hne]; split.
    + discriminate.
    + intros [[= Hm] Hn]. congruence.
    + intros [= Hm]. subst. auto.
    + intros [[= Hm] _]. congruence.
  - split; [discriminate | intros [[=] _]].
Qed.

Lemma parentChain_parentsAbove (fuel : nat) (c : Collection)
    (maybeParentId : option Z) (ids : list Z) :
  parentChain fuel c maybeParentId = Some ids ->
  parentsAbove c maybeParentId ids.
Proof.
  revert maybeParentId ids.
  induction fuel as [| fuel IH]; intros maybeParentId ids; simpl.
  - destruct (truthy maybeParentId) eqn:Htruthy; [discriminate |].
    intros [= <-]. exact Htruthy.
  - destruct (truthy maybeParentId) as [parentId |] eqn:Htruthy.
    + destruct (parentChain fuel c (parentIdById c !! parentId))
        as [rest |] eqn:Hrest; [| discriminate].
      simpl. intros [= <-]. split; [exact Htruthy | apply IH, Hrest].
    + intros [= <-]. exact Htruthy.
Qed.

Lemma parentsAbove_parentChain (c : Collection) (ids : list Z) :
  forall (fuel : nat) (maybeParentId : option Z),
    parentsAbove c maybeParentId ids -> (length ids <= fuel)%nat ->
    parentChain fuel c maybeParentId = Some ids.
Proof.
  induction ids as [| parentId rest IH]; intros fuel maybeParentId; simpl.
  - intros Htruthy _. destruct fuel; simpl; rewrite Htruthy; reflexivity.
  - intros [Htruthy Hrest] Hlength.
    destruct fuel as [| fuel]; [lia |]. simpl. rewrite Htruthy.
    rewrite (IH fuel _ Hrest) by lia. reflexivity.
Qed.

Lemma parentsAbove_unique (c : Collection) (ids : list Z) :
  forall (ids' : list Z) (maybeParentId : option Z),
    parentsAbove c maybeParentId ids -> parentsAbove c maybeParentId ids' ->
    ids = ids'.
Proof.
  induction ids as [| parentId rest IH]; intros [| parentId' rest'] m; simpl.
  - reflexivity.
  - intros Hnone [Hsome _]. congruence.
  - intros [Hsome _] Hnone. congruence.
  - intros [Hsome Hrest] [Hsome' Hrest'].
    assert (parentId = parentId') as <- by congruence.
    f_equal. exact (IH _ _ Hrest Hrest').
Qed.

(** One turn of the loop shortens what is left of the chain by one. *)
Lemma parentStep_shortens (c : Collection) (childId parentId : Z)
    (above : list Z) :
  parentStep c childId parentId ->
  parentsAbove c (parentIdById c !! childId) above ->
  exists above', above = parentId :: above'
    /\ parentsAbove c (parentIdById c !! parentId) above'.
Proof.
  unfold parentStep. intros Hstep Habove.
  destruct above as [| next above']; simpl in Habove.
  - congruence.
  - destruct Habove as [Hnext Habove']. exists above'.
    assert (next = parentId) as -> by congruence. auto.
Qed.

Lemma parentSteps_shorten (c : Collection) (childId ancestorId : Z) :
  tc (parentStep c) childId ancestorId ->
  forall above, parentsAbove c (parentIdById c !! childId) above ->
    exists above', parentsAbove c (parentIdById c !! ancestorId) above'
      /\ (length above' < length above)%nat.
Proof.
  induction 1 as [childId parentId Hstep | childId parentId top Hstep _ IH];
    intros above Habove;
    destruct (parentStep_shortens _ _ _ _ Hstep Habove)
      as (above' & -> & Habove').
  - exists above'. simpl. split; [exact Habove' | lia].
  - destruct (IH _ Habove') as (above'' & Habove'' & Hlength).
    exists above''. simpl. split; [exact Habove'' | lia].
Qed.

Lemma parentSteps_keep_chain (c : Collection) (childId ancestorId : Z) :
  rtc (parentStep c) childId ancestorId ->
  forall above, parentsAbove c (parentIdById c !! childId) above ->
    exists above', parentsAbove c (parentIdById c !! ancestorId) above'.
Proof.
  induction 1 as [childId | childId parentId top Hstep _ IH]; intros above Habove.
  - eauto.
  - destruct (parentStep_shortens _ _ _ _ Hstep Habove)
      as (above' & -> & Habove').
    eauto.
Qed.

Lemma ancestryIds_Some (fuel : nat) (c : Collection) (rootId : Z)
    (ids : list Z) :
  ancestryIds fuel c rootId = Some ids ->
  exists above, ids = rootId :: above
    /\ parentsAbove c (parentIdById c !! rootId) above.
Proof.
  unfold ancestryIds.
  destruct (parentChain fuel c (parentIdById c !! rootId)) as [above |]
    eqn:Hchain; [| discriminate].
  simpl. intros [= <-]. exists above.
  split; [reflexivity | exact (parentChain_parentsAbove _ _ _ _ Hchain)].
Qed.

Lemma parentsAbove_top (c : Collection) (above : list Z) :
  forall nodeId, parentsAbove c (parentIdById c !! nodeId) above ->
    exists topId, last (nodeId :: above) = Some topId
      /\ truthy (parentIdById c !! topId) = None
      /\ rtc (parentStep c) nodeId topId.
Proof.
  induction above as [| parentId rest IH]; intros nodeId; simpl.
  - intros Hnone. exists nodeId. repeat split; [exact Hnone | constructor].
  - intros [Hsome Hrest]. destruct (IH _ Hrest) as (topId & Hlast & Hnone & Hsteps).
    exists topId. repeat split; [exact Hlast | exact Hnone |].
    eapply rtc_l; [exact Hsome | exact Hsteps].
Qed.

Lemma assertIterXor_Forall2 (c : Collection) (nodeIds : list Z) :
  forall xorNodes,
    assertIterXor c nodeIds = Ok xorNodes
    <-> Forall2 (fun nodeId xorNode => maybeXor c nodeId = Some xorNode)
          nodeIds xorNodes.
Proof.
  induction nodeIds as [| nodeId rest IH]; intros xorNodes; simpl.
  - split.
    + intros [= <-]. constructor.
    + intros Hall. inversion Hall. reflexivity.
  - unfold assertXor at 1.
    destruct (maybeXor c nodeId) as [xorNode |] eqn:Hxor; simpl.
    + destruct (assertIterXor c rest) as [others | e] eqn:Hrest; simpl.
      * split.
        -- intros [= <-]. constructor; [exact Hxor | apply IH; reflexivity].
        -- intros Hall. inversion Hall as [| ? y ? ys Hy Hys]; subst.
           apply IH in Hys. congruence.
      * split; [discriminate |].
        intros Hall. inversion Hall as [| ? y ? ys Hy Hys]; subst.
        apply IH in Hys. discriminate.
    + split; [discriminate |].
      intros Hall. inversion Hall; subst. congruence.
Qed.

Lemma arrayGet_last {A : Type} (xs : list A) :
  arrayGet xs (arrayLength xs - 1) = last xs.
Proof.
  unfold arrayGet, arrayLength. rewrite last_lookup.
  destruct xs as [| x rest]; [reflexivity |].
  destruct (Z.ltb_spec (Z.of_nat (length (x :: rest)) - 1) 0) as [Hneg | _].
  - simpl in Hneg. lia.
  - f_equal. simpl. lia.
Qed.

(** The ids [assertAncestry] collects before it looks them up are a
    chain: for some number of turns of its loop the ids are [ids] exactly
    when [ids] starts with [rootId], every id is followed by the parent
    recorded for it in [parentIdById], every parent on it is truthy, and the
    last id has no parent or the parent 0. *)
Theorem ancestryIds_is_parent_chain (c : Collection) (rootId : Z)
    (ids : list Z) :
  (exists fuel, ancestryIds fuel c rootId = Some ids)
  <-> head ids = Some rootId /\ isParentChain c ids.
Proof.
  split.
  - intros [fuel Hids].
    destruct (ancestryIds_Some _ _ _ _ Hids) as (above & -> & Habove).
    split; [reflexivity | exact Habove].
  - intros [Hhead Hchain]. destruct ids as [| nodeId above]; [contradiction |].
    simpl in Hhead, Hchain. injection Hhead as ->.
    exists (length above). unfold ancestryIds.
    rewrite (parentsAbove_parentChain _ _ _ _ Hchain) by lia. reflexivity.
Qed.

(** When the nodes are created with increasing ids, every parent
    being older than its children ([0 <= parentId < childId] for every entry
    of [parentIdById]), the loop of [assertAncestry] ends after at most
    [rootId] turns, and the ids it has collected are strictly
    descending. *)
Theorem ancestryIds_ends_on_older_parents (c : Collection) (rootId : Z)
    (fuel : nat) :
  parentsAreOlder c -> (Z.to_nat rootId <= fuel)%nat ->
  exists ids, ancestryIds fuel c rootId = Some ids
    /\ head ids = Some rootId
    /\ Sorted Z.gt ids.
Proof.
  intros Holder Hfuel.
  assert (forall (n : nat) (nodeId : Z), (Z.to_nat nodeId <= n)%nat ->
            exists above,
              parentChain n c (parentIdById c !! nodeId) = Some above
              /\ Sorted Z.gt (nodeId :: above)) as Hloop.
  { induction n as [| n IH]; intros nodeId Hn.
    - exists []. split; [| repeat constructor].
      simpl. destruct (truthy (parentIdById c !! nodeId)) as [parentId |]
        eqn:Htruthy; [| reflexivity].
      apply truthy_Some in Htruthy as [Hparent Hne].
      apply Holder in Hparent. lia.
    - simpl. destruct (truthy (parentIdById c !! nodeId)) as [parentId |]
        eqn:Htruthy.
      + apply truthy_Some in Htruthy as [Hparent Hne].
        apply Holder in Hparent.
        destruct (IH parentId) as (above & -> & Hsorted); [lia |].
        exists (parentId :: above). split; [reflexivity |].
        constructor; [exact Hsorted | constructor; lia].
      + exists []. split; [reflexivity | repeat constructor]. }
  destruct (Hloop fuel rootId Hfuel) as (above & Hchain & Hsorted).
  exists (rootId :: above). unfold ancestryIds. rewrite Hchain.
  repeat split. exact Hsorted.
Qed.

Lemma ancestryIds_ends_on_older_parents_witness :
  parentsAreOlder FooAB.collection
  /\ (Z.to_nat 11 <= 11)%nat
  /\ exists ids, ancestryIds 11 FooAB.collection 11 = Some ids
       /\ head ids = Some 11
       /\ Sorted Z.gt ids.
Proof.
  assert (parentsAreOlder FooAB.collection) as Holder.
  { intros childId parentId.
    apply (bool_decide_unpack
             (map_Forall (fun childId parentId => 0 <= parentId < childId)
                (parentIdById FooAB.collection))).
    vm_compute. exact I. }
  split; [exact Holder |]. split; [lia |].
  apply (ancestryIds_ends_on_older_parents FooAB.collection 11 11 Holder).
  lia.
Defined.

(** [assertAncestry] does not return on a cycle: when the loop
    reaches, from [rootId], an id that is among its own ancestors (through
    truthy parents), no number of turns ends it. *)
Theorem assertAncestry_does_not_return_on_cycle (c : Collection)
    (rootId nodeId : Z) (fuel : nat) :
  rtc (parentStep c) rootId nodeId ->
  tc (parentStep c) nodeId nodeId ->
  assertAncestry fuel c rootId = None.
Proof.
  intros Hreach Hcycle. unfold assertAncestry.
  destruct (ancestryIds fuel c rootId) as [ids |] eqn:Hids; [| reflexivity].
  exfalso.
  destruct (ancestryIds_Some _ _ _ _ Hids) as (above & _ & Habove).
  destruct (parentSteps_keep_chain _ _ _ Hreach _ Habove) as [above' Habove'].
  destruct (parentSteps_shorten _ _ _ Hcycle _ Habove')
    as (above'' & Habove'' & Hlength).
  rewrite (parentsAbove_unique _ _ _ _ Habove' Habove'') in Hlength. lia.
Qed.

Lemma assertAncestry_does_not_return_on_cycle_witness :
  let c := mkCollection ∅ ∅ {[1 := 2; 2 := 1; 3 := 1]} ∅ in
  rtc (parentStep c) 3 1
  /\ tc (parentStep c) 1 1
  /\ assertAncestry 1000 c 3 = None.
Proof.
  cbv zeta.
  assert (rtc (parentStep (mkCollection ∅ ∅ {[1 := 2; 2 := 1; 3 := 1]} ∅))
            3 1) as Hreach.
  { eapply rtc_l; [| constructor]. reflexivity. }
  assert (tc (parentStep (mkCollection ∅ ∅ {[1 := 2; 2 := 1; 3 := 1]} ∅))
            1 1) as Hcycle.
  { eapply tc_l; [| apply tc_once]; reflexivity. }
  split; [exact Hreach |]. split; [exact Hcycle |].
  exact (assertAncestry_does_not_return_on_cycle _ 3 1 1000 Hreach Hcycle).
Defined.

(** What [assertAncestry] returns starts at the node asked for and
    ends at the top of its tree: [assertLeaf] of the ancestry is the node
    [assertXor] gives for [rootId], and [assertRoot] returns (it does not
    throw) a node of the collection that is reached from [rootId] through
    the parents and has itself no parent or the parent 0. *)
Theorem assertAncestry_leaf_and_root (fuel : nat) (c : Collection)
    (rootId : Z) (ancestry : list TXorNode) :
  assertAncestry fuel c rootId = Some (Ok ancestry) ->
  assertLeaf ancestry = assertXor c rootId
  /\ exists topId top,
       assertRoot ancestry = Ok top
       /\ maybeXor c topId = Some top
       /\ rtc (parentStep c) rootId topId
       /\ truthy (parentIdById c !! topId) = None.
Proof.
  unfold assertAncestry.
  destruct (ancestryIds fuel c rootId) as [ids |] eqn:Hids; [| discriminate].
  simpl. intros [= Hxors].
  destruct (ancestryIds_Some _ _ _ _ Hids) as (above & -> & Habove).
  apply assertIterXor_Forall2 in Hxors.
  destruct (parentsAbove_top _ _ _ Habove) as (topId & Hlast & Hnone & Hsteps).
  split.
  - inversion Hxors as [| ? leaf ? others Hleaf _]; subst.
    unfold assertLeaf, assertXor. rewrite Hleaf. reflexivity.
  - rewrite last_lookup in Hlast.
    destruct (Forall2_lookup_l _ _ _ _ _ Hxors Hlast) as (top & Htop & Hxor).
    exists topId, top. repeat split; [| exact Hxor | exact Hsteps | exact Hnone].
    unfold assertRoot.
    pose proof (Forall2_length _ _ _ Hxors) as Hlength.
    assert (last ancestry = Some top) as Hxorlast
      by (rewrite last_lookup, <- Hlength; exact Htop).
    rewrite arrayGet_last, Hxorlast.
    destruct (Z.gtb_spec (arrayLength ancestry) 0) as [_ | Hempty];
      [reflexivity |].
    unfold arrayLength in Hempty. rewrite <- Hlength in Hempty.
    simpl in Hempty. lia.
Qed.

Lemma assertAncestry_leaf_and_root_witness :
  assertAncestry 20 FooAB.collection 11 = Some (Ok FooAB.ancestryOfA)
  /\ assertLeaf FooAB.ancestryOfA = assertXor FooAB.collection 11
  /\ exists topId top,
       assertRoot FooAB.ancestryOfA = Ok top
       /\ maybeXor FooAB.collection topId = Some top
       /\ rtc (parentStep FooAB.collection) 11 topId
       /\ truthy (parentIdById FooAB.collection !! topId) = None.
Proof.
  assert (assertAncestry 20 FooAB.collection 11 = Some (Ok FooAB.ancestryOfA))
    as Hancestry by (vm_compute; reflexivity).
  split; [exact Hancestry |].
  exact (assertAncestry_leaf_and_root 20 FooAB.collection 11
           FooAB.ancestryOfA Hancestry).
Defined.

(** The asserting and the optional lookups along an ancestry agree:
    [assertNthPreviousXor], which looks the node up first and asserts its
    kind afterwards, and [assertNthNextXor], which passes the allowed kinds
    on, return a node exactly when [maybeNthPreviousXor] and
    [maybeNthNextXor] return it, and that node is the one at
    [ancestryIndex - n] (or [+ n]) of the ancestry, of an allowed kind. *)
Theorem assertNthXor_agrees_with_maybe (ancestry : list TXorNode)
    (ancestryIndex : Z) (maybeN : option Z)
    (maybeAllowedNodeKinds : option (list Ast.NodeKind)) (xorNode : TXorNode) :
  (assertNthPreviousXor ancestry ancestryIndex maybeN maybeAllowedNodeKinds
     = Ok xorNode
   <-> maybeNthPreviousXor ancestry ancestryIndex maybeN maybeAllowedNodeKinds
         = Some xorNode)
  /\ (maybeNthPreviousXor ancestry ancestryIndex maybeN maybeAllowedNodeKinds
        = Some xorNode
      <-> arrayGet ancestry (ancestryIndex - default 1 maybeN) = Some xorNode
          /\ (forall kinds, maybeAllowedNodeKinds = Some kinds ->
                xorKind xorNode ∈ kinds))
  /\ (assertNthNextXor ancestry ancestryIndex maybeN maybeAllowedNodeKinds
        = Ok xorNode
      <-> maybeNthNextXor ancestry ancestryIndex maybeN maybeAllowedNodeKinds
            = Some xorNode)
  /\ (maybeNthNextXor ancestry ancestryIndex maybeN maybeAllowedNodeKinds
        = Some xorNode
      <-> arrayGet ancestry (ancestryIndex + default 1 maybeN) = Some xorNode
          /\ (forall kinds, maybeAllowedNodeKinds = Some kinds ->
                xorKind xorNode ∈ kinds)).
Proof.
  unfold assertNthPreviousXor, assertNthNextXor, maybeNthPreviousXor,
    maybeNthNextXor, allowedOrUndefined, assertAnyAstNodeKind. cbv zeta.
  simpl default.
  generalize (arrayGet ancestry (ancestryIndex - default 1 maybeN)).
  generalize (arrayGet ancestry (ancestryIndex + default 1 maybeN)).
  intros next previous.
  destruct previous as [previous |], next as [next |],
    maybeAllowedNodeKinds as [kinds |]; simpl;
    repeat case_bool_decide; simpl;
    repeat split; try discriminate; try congruence;
    try (intros [[=] _]; fail);
    try (intros [= <-] kinds' [= <-]; tauto);
    try (intros [[= <-] Hallowed]; try reflexivity;
         exfalso; eauto; fail).
Qed.

End Ancestry.

(** ** The simple iterators of the node-id map *)

Section Iterators.

Import NodeIdMapUtils NodeIdMapIterator AstChildren.

Lemma assertAsts_Forall2 (astNodeById : gmap Z Ast.TNode) (childIds : list Z) :
  forall astNodes,
    assertAsts astNodeById childIds = Ok astNodes
    <-> Forall2 (fun childId astNode => astNodeById !! childId = Some astNode)
          childIds astNodes.
Proof.
  induction childIds as [| childId rest IH]; intros astNodes; simpl.
  - split.
    + intros [= <-]. constructor.
    + intros Hall. inversion Hall. reflexivity.
  - unfold assertAst at 1.
    destruct (astNodeById !! childId) as [astNode |] eqn:Hast; simpl.
    + destruct (assertAsts astNodeById rest) as [others | e] eqn:Hrest; simpl.
      * split.
        -- intros [= <-]. constructor; [exact Hast | apply IH; reflexivity].
        -- intros Hall. inversion Hall as [| ? y ? ys Hy Hys]; subst.
           apply IH in Hys. congruence.
      * split; [discriminate |].
        intros Hall. inversion Hall as [| ? y ? ys Hy Hys]; subst.
        apply IH in Hys. discriminate.
    + split; [discriminate |].
      intros Hall. inversion Hall; subst. congruence.
Qed.

(** [assertIterXor] returns exactly when every id is the id of an AST
    node or of a context node of the collection, and then the nodes it
    returns are, position by position, the XOR views of the ids; it throws
    exactly when one of the ids is in neither map. *)
Theorem assertIterXor_returns_or_throws (c : Collection) (nodeIds : list Z) :
  (forall xorNodes,
     assertIterXor c nodeIds = Ok xorNodes
     <-> Forall2 (fun nodeId xorNode => maybeXor c nodeId = Some xorNode)
           nodeIds xorNodes)
  /\ ((exists e, assertIterXor c nodeIds = Err e)
      <-> Exists (fun nodeId => maybeXor c nodeId = None) nodeIds).
Proof.
  split; [apply assertIterXor_Forall2 |].
  induction nodeIds as [| nodeId rest IH]; simpl.
  - split; [intros [e [=]] | intros Hex; inversion Hex].
  - unfold assertXor at 1.
    destruct (maybeXor c nodeId) as [xorNode |] eqn:Hxor; simpl.
    + destruct (assertIterXor c rest) as [others | e] eqn:Hrest; simpl.
      * split; [intros [e [=]] |].
        intros Hex. inversion Hex as [? ? Hnone | ? ? Hlater]; subst;
          [congruence |].
        apply IH in Hlater as [e [=]].
      * split; [| eauto]. intros _. apply Exists_cons_tl, IH. eauto.
    + split; [| eauto]. intros _. apply Exists_cons_hd. exact Hxor.
Qed.

(** The children [assertIterChildrenAst] returns are the children
    [assertIterChildrenXor] returns: when the first returns AST nodes, the
    second returns the same nodes, in the same order, as XOR nodes. *)
Theorem assertIterChildrenAst_as_xor (c : Collection) (parentId : Z)
    (astNodes : list Ast.TNode) :
  assertIterChildrenAst c parentId = Ok astNodes ->
  assertIterChildrenXor c parentId = Ok (XorAst <$> astNodes).
Proof.
  unfold assertIterChildrenAst, assertIterChildrenXor, assertIterChildIds.
  destruct (childIdsById c !! parentId) as [childIds |]; simpl;
    [| discriminate].
  intros Hasts. apply assertAsts_Forall2 in Hasts.
  apply assertIterXor_Forall2.
  induction Hasts as [| childId astNode rest others Hast _ IH]; simpl;
    constructor; [| exact IH].
  unfold maybeXor. rewrite Hast. reflexivity.
Qed.

Lemma assertIterChildrenAst_as_xor_witness :
  assertIterChildrenAst FooAB.collection 9 = Ok [FooAB.a; FooAB.comma]
  /\ assertIterChildrenXor FooAB.collection 9
       = Ok (XorAst <$> [FooAB.a; FooAB.comma]).
Proof.
  split; [vm_compute; reflexivity |].
  apply (assertIterChildrenAst_as_xor FooAB.collection 9).
  vm_compute. reflexivity.
Defined.

(** [maybeIterChildrenAst] differs from [assertIterChildrenAst] only
    on a parent without an entry in [childIdsById]: the two return the same
    AST children, and [maybeIterChildrenAst] returns [undefined] exactly
    when the parent has no entry. *)
Theorem maybeIterChildrenAst_agrees (c : Collection) (parentId : Z) :
  (forall astNodes,
     assertIterChildrenAst c parentId = Ok astNodes
     <-> maybeIterChildrenAst c parentId = Ok (Some astNodes))
  /\ (maybeIterChildrenAst c parentId = Ok None
      <-> childIdsById c !! parentId = None).
Proof.
  unfold assertIterChildrenAst, maybeIterChildrenAst, assertIterChildIds.
  destruct (childIdsById c !! parentId) as [childIds |]; simpl.
  - destruct (assertAsts (astNodeById c) childIds) as [astNodes | e]; simpl;
      split; try (intros astNodes'); split; congruence.
  - split; [intros astNodes; split; discriminate | tauto].
Qed.

End Iterators.
